(** * Supervised-window builder: [to_supervised] of [main/utils/utils.py]

    The development embeds the windowing routine [to_supervised] and the
    fragment of NumPy it calls.  Arrays are kept the way NumPy keeps them: a
    shape together with a flat row-major buffer.  The arrays have dtype
    [int64], NumPy's default integer: an entry is an integer in
    [-2^63, 2^63), and [.sum] adds entries modulo 2^64, as NumPy does on
    such arrays.  Floating-point arrays, whose sums round and depend on the
    order in which NumPy adds, are outside the development.  Python
    integers (the window parameters, the cursor) are unbounded, hence [Z];
    an exception raised by Python or NumPy is the result [None]. *)

From stdpp Require Import base option list.
From Stdlib Require Import ZArith Lia.

#[local] Coercion Z.of_nat : nat >-> Z.

(** ** The NumPy fragment used by [to_supervised] *)

Module Numpy.

Record ndarray := NdArray { shape : list nat; buf : list Z }.

#[global] Instance ndarray_eq_dec : EqDecision ndarray.
Proof. solve_decision. Defined.

(** Number of entries of an array of the given shape. *)
Definition size_of (s : list nat) : nat := foldr Nat.mul 1 s.

Definition ndim (a : ndarray) : nat := length (shape a).

(** The buffer holds exactly the entries the shape announces. *)
Definition well_formed (a : ndarray) : Prop := length (buf a) = size_of (shape a).

(** [len(a)]: the extent of the first axis; a 0-d array has no [len]. *)
Definition len (a : ndarray) : option nat := head (shape a).

(** [a.reshape(s)]: same buffer, new shape, sizes must agree. *)
Definition reshape (a : ndarray) (s : list nat) : option ndarray :=
  if decide (size_of s = size_of (shape a)) then Some (NdArray s (buf a)) else None.

(** Bound of a Python slice on an axis of extent [n]: a negative bound
    counts from the end, and the result is clamped to [0..n]. *)
Definition slice_bound (n : nat) (i : Z) : nat :=
  if decide (i < 0)%Z then Z.to_nat (Z.max 0 (i + n)) else Z.to_nat (Z.min i n).

(** [a[lo:hi]]: a slice never raises, it is clamped. *)
Definition slice0 (a : ndarray) (lo hi : Z) : option ndarray :=
  match shape a with
  | [] => None
  | n :: rest =>
      let l := slice_bound n lo in
      let h := slice_bound n hi in
      let w := size_of rest in
      Some (NdArray ((h - l) :: rest) (take ((h - l) * w) (drop (l * w) (buf a))))
  end.

(** [a[lo:hi, :]]: as [a[lo:hi]], but a second axis must exist. *)
Definition slice0_all (a : ndarray) (lo hi : Z) : option ndarray :=
  if decide (2 ≤ ndim a) then slice0 a lo hi else None.

(** The [n] consecutive blocks of [w] entries of a buffer. *)
Definition rows_of (w n : nat) (l : list Z) : list (list Z) :=
  map (λ i, take w (drop (i * w) l)) (seq 0 n).

(** An integer index on an axis of extent [c]: [-c <= i < c], negative
    indices count from the end; anything else is an [IndexError]. *)
Definition norm_index (c : nat) (i : Z) : option nat :=
  if decide (0 ≤ i < c)%Z then Some (Z.to_nat i)
  else if decide (- c ≤ i < 0)%Z then Some (Z.to_nat (i + c))
  else None.

Definition pick (cols : list nat) (r : list Z) : list Z :=
  map (λ j, nth j r 0%Z) cols.

(** [a[:, idx]] for a 2-d array and a list of integer indices. *)
Definition take_columns (a : ndarray) (idx : list Z) : option ndarray :=
  match shape a with
  | [t; c] =>
      cols ← mapM (norm_index c) idx;
      Some (NdArray [t; length cols] (concat (map (pick cols) (rows_of c t (buf a)))))
  | _ => None
  end.

(** [np.delete(a, idx, axis=1)] for a 2-d array and a list of integer
    indices: the columns not named by [idx], in their order. *)
Definition delete_columns (a : ndarray) (idx : list Z) : option ndarray :=
  match shape a with
  | [t; c] =>
      cols ← mapM (norm_index c) idx;
      let keep := filter (λ j, j ∉ cols) (seq 0 c) in
      Some (NdArray [t; length keep] (concat (map (pick keep) (rows_of c t (buf a)))))
  | _ => None
  end.

(** [a[:, None]]: [None] is [np.newaxis]; a unit axis is inserted after
    the first one and the buffer is shared. *)
Definition newaxis1 (a : ndarray) : option ndarray :=
  match shape a with
  | [] => None
  | t :: rest => Some (NdArray (t :: 1 :: rest) (buf a))
  end.

(** [np.split(a, n)] with an integer [n]: [n] equal parts along the
    first axis, a [ValueError] when the extent is not a multiple of [n]
    (or [n] is not positive). *)
Definition np_split (a : ndarray) (n : Z) : option (list ndarray) :=
  match shape a with
  | [] => None
  | N :: rest =>
      if decide (n ≤ 0)%Z then None
      else if decide ((N `mod` n)%Z = 0%Z) then
        let m := N / Z.to_nat n in
        let w := size_of rest in
        Some (map (λ j, NdArray (m :: rest) (take (m * w) (drop (j * (m * w)) (buf a))))
                  (seq 0 (Z.to_nat n)))
      else None
  end.

(** What this NumPy does where its releases differ: [np.delete] with the
    index [None], and [np.array] on a list of arrays of unequal shapes. *)
Record numpy_env := NumpyEnv {
  delete_none : ndarray → option ndarray;
  array_ragged : list ndarray → option ndarray
}.

(** [np.array(l)] for a Python list of arrays: the empty list gives the
    empty 1-d array, arrays of one shape are stacked along a new first
    axis. *)
Definition np_array (np : numpy_env) (l : list ndarray) : option ndarray :=
  match l with
  | [] => Some (NdArray [0] [])
  | a :: l' =>
      if decide (Forall (λ b, shape b = shape a) l')
      then Some (NdArray (length l :: shape a) (concat (map buf l)))
      else array_ragged np l
  end.

(** The value an [int64] holds after an addition whose exact result is
    [z]: the representative of [z] modulo 2^64 in [-2^63, 2^63). *)
Definition wrap64 (z : Z) : Z :=
  ((z + 9223372036854775808) `mod` 18446744073709551616 - 9223372036854775808)%Z.

(** The values of dtype [int64], and the arrays of that dtype. *)
Definition int64 (z : Z) : Prop :=
  (-9223372036854775808 ≤ z < 9223372036854775808)%Z.

Definition int64_array (a : ndarray) : Prop := Forall int64 (buf a).

(** Entrywise [int64] addition of two rows. *)
Definition vadd (u v : list Z) : list Z := zip_with (λ a b, wrap64 (a + b)) u v.

(** Entrywise sum of rows of [w] entries. *)
Definition vsum (w : nat) (rs : list (list Z)) : list Z :=
  foldl vadd (replicate w 0%Z) rs.

(** [a.sum(axis=1)]. *)
Definition sum_axis1 (a : ndarray) : option ndarray :=
  match shape a with
  | n :: m :: rest =>
      let w := size_of rest in
      Some (NdArray (n :: rest)
              (concat (map (λ blk, vsum w (rows_of w m blk)) (rows_of (m * w) n (buf a)))))
  | _ => None
  end.

(** Current releases: both corner cases raise ([IndexError], resp.
    [ValueError] for an inhomogeneous shape). *)
Definition numpy_strict : numpy_env :=
  NumpyEnv (λ _, None) (λ _, None).

End Numpy.

Import Numpy.

(** ** [to_supervised] *)

(** The argument [numerical_columns_index]: its default [None], or a list
    of integer column indices. *)
Inductive columns_index :=
  | IndexNone
  | IndexList (l : list Z).

(** The dictionary returned by [to_supervised], one field per key. *)
Record results := Results {
  X : ndarray;
  X_weekly : ndarray;
  X_timestamp : ndarray;
  y : ndarray;
  y_weekly : ndarray
}.

(** The variables the loop updates: the cursor and the five lists. *)
Record loop_state := LoopState {
  in_start : Z;
  X_list : list ndarray;
  y_list : list ndarray;
  X_timestamp_list : list ndarray;
  X_weekly_list : list ndarray;
  y_weekly_list : list ndarray
}.

Section to_supervised.

Variable np : numpy_env.

(** [np.array(np.split(a, n_out)).sum(axis=1)] *)
Definition weekly_sum (a : ndarray) (n_out : Z) : option ndarray :=
  parts ← np_split a n_out;
  stacked ← np_array np parts;
  sum_axis1 stacked.

(** Lines 68-70: flatten the segments, split off the auxiliary columns,
    select the numeric ones.  The result is [(data, data_timestamp)]. *)
Definition prepare (train : ndarray) (numerical_columns_index : columns_index)
  : option (ndarray * ndarray) :=
  s0 ← shape train !! 0;
  s1 ← shape train !! 1;
  s2 ← shape train !! 2;
  flat ← reshape train [s0 * s1; s2];
  data_timestamp ← match numerical_columns_index with
                    | IndexNone => delete_none np flat
                    | IndexList l => delete_columns flat l
                    end;
  data ← match numerical_columns_index with
          | IndexNone => newaxis1 flat
          | IndexList l => take_columns flat l
          end;
  Some (data, data_timestamp).

Section loop.

Variables (data data_timestamp train_label : ndarray) (total : nat).
Variables (n_input n_out n_gap day_increment : Z).
Variables (y_weekly_aggregation x_weekly_aggregation : bool).

(** One iteration of the loop of lines 74-89; [total] is [len(data)]. *)
Definition loop_body (st : loop_state) : option loop_state :=
  let in_end := (in_start st + n_input)%Z in
  let out_start := (in_end + 7 * n_gap)%Z in
  let out_end := (out_start + 7 * n_out)%Z in
  st' ← (if decide (out_end ≤ total)%Z then
           x ← slice0_all data (in_start st) in_end;
           yv ← slice0 train_label out_start out_end;
           ts ← slice0_all data_timestamp out_start out_end;
           yw ← (if y_weekly_aggregation
                 then w ← weekly_sum yv n_out; Some (y_weekly_list st ++ [w])
                 else Some (y_weekly_list st));
           xw ← (if x_weekly_aggregation
                 then w ← weekly_sum x n_out; Some (X_weekly_list st ++ [w])
                 else Some (X_weekly_list st));
           Some (LoopState (in_start st) (X_list st ++ [x]) (y_list st ++ [yv])
                   (X_timestamp_list st ++ [ts]) xw yw)
         else Some st);
  Some (LoopState (in_start st' + day_increment)%Z (X_list st') (y_list st')
          (X_timestamp_list st') (X_weekly_list st') (y_weekly_list st')).

(** [for _ in range(n): body] *)
Fixpoint loop (n : nat) (st : loop_state) : option loop_state :=
  match n with
  | O => Some st
  | S n' => st' ← loop_body st; loop n' st'
  end.

End loop.

(** The trip count of the loop: [range] of a non-positive number is empty. *)
Definition trip_count (total : nat) (n_out n_gap : Z) : nat :=
  Z.to_nat (total - (n_out + n_gap) * 7).

Definition to_supervised (train train_label : ndarray)
    (n_input n_out n_gap day_increment : Z)
    (numerical_columns_index : columns_index)
    (y_weekly_aggregation x_weekly_aggregation : bool) : option results :=
  '(data, data_timestamp) ← prepare train numerical_columns_index;
  total ← len data;
  st ← loop data data_timestamp train_label total n_input n_out n_gap day_increment
          y_weekly_aggregation x_weekly_aggregation
          (trip_count total n_out n_gap) (LoopState 0 [] [] [] [] []);
  rX ← np_array np (X_list st);
  rXw ← np_array np (X_weekly_list st);
  rXt ← np_array np (X_timestamp_list st);
  ry ← np_array np (y_list st);
  ryw ← np_array np (y_weekly_list st);
  Some (Results rX rXw rXt ry ryw).

End to_supervised.

(** The default arguments of the signature. *)
Definition default_day_increment : Z := 7.
Definition default_numerical_columns_index : columns_index := IndexNone.

(** ** Arrays in memory: views, copies, and the arguments of the call

    NumPy arrays are handles on buffers.  Basic slicing, [reshape] of a
    contiguous array, [np.newaxis] and [np.split] return views on the
    buffer of their argument; index lists, [np.delete], [np.array] and
    [sum] allocate a new buffer.  The store below keeps the buffers in
    allocation order; a handle names a buffer, an offset into it and a
    shape. *)

Module Mem.

Abbreviation heap := (list (list Z)).

Record array_ref := ArrayRef { base : nat; offset : nat; rshape : list nat }.

(** The array a handle denotes in a store. *)
Definition read (h : heap) (r : array_ref) : option ndarray :=
  b ← h !! base r;
  Some (NdArray (rshape r) (take (size_of (rshape r)) (drop (offset r) b))).

(** Computations on the store that may raise. *)
Definition mem (A : Type) : Type := heap → option (A * heap).

#[global] Instance mem_ret : MRet mem := λ A x h, Some (x, h).
#[global] Instance mem_bind : MBind mem := λ A B k m h,
  match m h with
  | Some (x, h') => k x h'
  | None => None
  end.

Definition lift {A} (o : option A) : mem A := λ h, x ← o; Some (x, h).

Definition load (r : array_ref) : mem ndarray := λ h, a ← read h r; Some (a, h).

(** A new buffer, at the next free place. *)
Definition alloc (a : ndarray) : mem array_ref :=
  λ h, Some (ArrayRef (length h) 0 (shape a), h ++ [buf a]).

(** An assignment [r[...] = vals] through a handle; [to_supervised] has
    none, the definition fixes what "writing into an argument" means. *)
Definition store (r : array_ref) (vals : list Z) : mem unit :=
  λ h, b ← h !! base r;
       Some (tt, <[base r := take (offset r) b
                              ++ take (size_of (rshape r)) vals
                              ++ drop (offset r + size_of (rshape r)) b]> h).

Fixpoint load_all (rs : list array_ref) : mem (list ndarray) :=
  match rs with
  | [] => mret []
  | r :: rs' => a ← load r; l ← load_all rs'; mret (a :: l)
  end.

(** *** Views *)

Definition view_reshape (r : array_ref) (s : list nat) : option array_ref :=
  if decide (size_of s = size_of (rshape r))
  then Some (ArrayRef (base r) (offset r) s) else None.

Definition view_slice0 (r : array_ref) (lo hi : Z) : option array_ref :=
  match rshape r with
  | [] => None
  | n :: rest =>
      let l := slice_bound n lo in
      let h := slice_bound n hi in
      let w := size_of rest in
      Some (ArrayRef (base r) (offset r + l * w) ((h - l) :: rest))
  end.

Definition view_slice0_all (r : array_ref) (lo hi : Z) : option array_ref :=
  if decide (2 ≤ length (rshape r)) then view_slice0 r lo hi else None.

Definition view_newaxis1 (r : array_ref) : option array_ref :=
  match rshape r with
  | [] => None
  | t :: rest => Some (ArrayRef (base r) (offset r) (t :: 1 :: rest))
  end.

Definition view_split (r : array_ref) (n : Z) : option (list array_ref) :=
  match rshape r with
  | [] => None
  | N :: rest =>
      if decide (n ≤ 0)%Z then None
      else if decide ((N `mod` n)%Z = 0%Z) then
        let m := N / Z.to_nat n in
        let w := size_of rest in
        Some (map (λ j, ArrayRef (base r) (offset r + j * (m * w)) (m :: rest))
                  (seq 0 (Z.to_nat n)))
      else None
  end.

(** *** Copies *)

(** An operation that reads its argument and returns a new array. *)
Definition copy_with (f : ndarray → option ndarray) (r : array_ref) : mem array_ref :=
  a ← load r; b ← lift (f a); alloc b.

Section to_supervised_mem.

Variable np : numpy_env.

Definition np_array_mem (rs : list array_ref) : mem array_ref :=
  l ← load_all rs; b ← lift (np_array np l); alloc b.

Definition weekly_sum_mem (r : array_ref) (n_out : Z) : mem array_ref :=
  parts ← lift (view_split r n_out);
  stacked ← np_array_mem parts;
  copy_with sum_axis1 stacked.

Definition prepare_mem (train : array_ref) (numerical_columns_index : columns_index)
  : mem (array_ref * array_ref) :=
  s0 ← lift (rshape train !! 0);
  s1 ← lift (rshape train !! 1);
  s2 ← lift (rshape train !! 2);
  flat ← lift (view_reshape train [s0 * s1; s2]);
  data_timestamp ← match numerical_columns_index with
                    | IndexNone => copy_with (delete_none np) flat
                    | IndexList l => copy_with (λ a, delete_columns a l) flat
                    end;
  data ← match numerical_columns_index with
          | IndexNone => lift (view_newaxis1 flat)
          | IndexList l => copy_with (λ a, take_columns a l) flat
          end;
  mret (data, data_timestamp).

Record results_ref := ResultsRef {
  rX : array_ref;
  rX_weekly : array_ref;
  rX_timestamp : array_ref;
  ry : array_ref;
  ry_weekly : array_ref
}.

Record loop_state_ref := LoopStateRef {
  in_start_ref : Z;
  X_refs : list array_ref;
  y_refs : list array_ref;
  X_timestamp_refs : list array_ref;
  X_weekly_refs : list array_ref;
  y_weekly_refs : list array_ref
}.

Section loop.

Variables (data data_timestamp train_label : array_ref) (total : nat).
Variables (n_input n_out n_gap day_increment : Z).
Variables (y_weekly_aggregation x_weekly_aggregation : bool).

Definition loop_body_mem (st : loop_state_ref) : mem loop_state_ref :=
  let in_end := (in_start_ref st + n_input)%Z in
  let out_start := (in_end + 7 * n_gap)%Z in
  let out_end := (out_start + 7 * n_out)%Z in
  st' ← (if decide (out_end ≤ total)%Z then
           x ← lift (view_slice0_all data (in_start_ref st) in_end);
           yv ← lift (view_slice0 train_label out_start out_end);
           ts ← lift (view_slice0_all data_timestamp out_start out_end);
           yw ← (if y_weekly_aggregation
                 then w ← weekly_sum_mem yv n_out; mret (y_weekly_refs st ++ [w])
                 else mret (y_weekly_refs st));
           xw ← (if x_weekly_aggregation
                 then w ← weekly_sum_mem x n_out; mret (X_weekly_refs st ++ [w])
                 else mret (X_weekly_refs st));
           mret (LoopStateRef (in_start_ref st) (X_refs st ++ [x]) (y_refs st ++ [yv])
                   (X_timestamp_refs st ++ [ts]) xw yw)
         else mret st);
  mret (LoopStateRef (in_start_ref st' + day_increment)%Z (X_refs st') (y_refs st')
          (X_timestamp_refs st') (X_weekly_refs st') (y_weekly_refs st')).

Fixpoint loop_mem (n : nat) (st : loop_state_ref) : mem loop_state_ref :=
  match n with
  | O => mret st
  | S n' => st' ← loop_body_mem st; loop_mem n' st'
  end.

End loop.

Definition to_supervised_mem (train train_label : array_ref)
    (n_input n_out n_gap day_increment : Z)
    (numerical_columns_index : columns_index)
    (y_weekly_aggregation x_weekly_aggregation : bool) : mem results_ref :=
  '(data, data_timestamp) ← prepare_mem train numerical_columns_index;
  total ← lift (head (rshape data));
  st ← loop_mem data data_timestamp train_label total n_input n_out n_gap
          day_increment y_weekly_aggregation x_weekly_aggregation
          (trip_count total n_out n_gap) (LoopStateRef 0 [] [] [] [] []);
  aX ← np_array_mem (X_refs st);
  aXw ← np_array_mem (X_weekly_refs st);
  aXt ← np_array_mem (X_timestamp_refs st);
  ay ← np_array_mem (y_refs st);
  ayw ← np_array_mem (y_weekly_refs st);
  mret (ResultsRef aX aXw aXt ay ayw).

End to_supervised_mem.

(** *** Growth of the store *)

(** The store after the computation extends the store before it. *)
Definition extends {A} (m : mem A) : Prop :=
  ∀ h x h', m h = Some (x, h') → h `prefix_of` h'.

(** *** Reading results back *)

(** The buffer of [a] has no more entries than its shape announces, so
    that [a] is what a handle on a fresh copy of it denotes. *)
Definition trimmed (a : ndarray) : Prop := length (buf a) ≤ size_of (shape a).

(** The two release-dependent corners return such arrays. *)
Definition env_trimmed (np : numpy_env) : Prop :=
  (∀ a b, delete_none np a = Some b → trimmed b)
  ∧ (∀ l b, array_ragged np l = Some b → trimmed b).

(** The lists of handles of the loop denote the lists of arrays. *)
Definition state_denotes (h : heap) (sr : loop_state_ref) (st : loop_state) : Prop :=
  in_start_ref sr = in_start st
  ∧ Forall2 (λ r a, read h r = Some a) (X_refs sr) (X_list st)
  ∧ Forall2 (λ r a, read h r = Some a) (y_refs sr) (y_list st)
  ∧ Forall2 (λ r a, read h r = Some a) (X_timestamp_refs sr) (X_timestamp_list st)
  ∧ Forall2 (λ r a, read h r = Some a) (X_weekly_refs sr) (X_weekly_list st)
  ∧ Forall2 (λ r a, read h r = Some a) (y_weekly_refs sr) (y_weekly_list st).

End Mem.

(** ** Vocabulary of the statements *)

(** *** Cursors *)

(** [out_end] as lines 76-78 compute it from the cursor. *)
Definition out_end_of (n_input n_out n_gap c : Z) : Z :=
  (c + n_input + 7 * n_gap + 7 * n_out)%Z.

(** The cursor values of the first [n] iterations, starting from [c0]. *)
Definition cursors (c0 inc : Z) (n : nat) : list Z :=
  map (λ k : nat, (c0 + k * inc)%Z) (seq 0 n).

(** Number of cursor positions [0, inc, 2*inc, ...] whose output window
    ends inside the series: a function of the five integers only. *)
Definition sample_count (total : nat) (n_input n_out n_gap inc : Z) : nat :=
  let slack := (total - n_input - 7 * n_gap - 7 * n_out)%Z in
  if decide (slack < 0)%Z then 0 else Z.to_nat (slack / inc + 1).

(** [total_time_steps]: the number of rows of the flattened series. *)
Definition total_time_steps (train : ndarray) : option nat :=
  s0 ← shape train !! 0; s1 ← shape train !! 1; Some (s0 * s1).

(** *** The loop as a traversal of the emitting cursors *)

(** What one emitting iteration appends: the three windows, and the
    weekly sums as lists of length 0 or 1 (flag off or on). *)
Record window := Window {
  w_X : ndarray;
  w_y : ndarray;
  w_ts : ndarray;
  w_yw : list ndarray;
  w_xw : list ndarray
}.

(** The guard of line 80, as a function of the cursor. *)
Definition emit_guard (total : nat) (n_input n_out n_gap c : Z) : Prop :=
  (out_end_of n_input n_out n_gap c ≤ total)%Z.

#[global] Instance emit_guard_dec total n_input n_out n_gap c :
  Decision (emit_guard total n_input n_out n_gap c).
Proof. unfold emit_guard. apply _. Defined.

(** The body of the [if] of line 80 at cursor [c]. *)
Definition emit_at (np : numpy_env) (data data_timestamp train_label : ndarray)
    (n_input n_out n_gap : Z) (y_weekly_aggregation x_weekly_aggregation : bool)
    (c : Z) : option window :=
  let in_end := (c + n_input)%Z in
  let out_start := (in_end + 7 * n_gap)%Z in
  let out_end := (out_start + 7 * n_out)%Z in
  x ← slice0_all data c in_end;
  yv ← slice0 train_label out_start out_end;
  ts ← slice0_all data_timestamp out_start out_end;
  yw ← (if y_weekly_aggregation then w ← weekly_sum np yv n_out; Some [w] else Some []);
  xw ← (if x_weekly_aggregation then w ← weekly_sum np x n_out; Some [w] else Some []);
  Some (Window x yv ts yw xw).

(** The state after [n] iterations that emitted the windows [ws]. *)
Definition push (day_increment : Z) (st : loop_state) (n : nat) (ws : list window)
  : loop_state :=
  LoopState (in_start st + n * day_increment)%Z
    (X_list st ++ map w_X ws) (y_list st ++ map w_y ws)
    (X_timestamp_list st ++ map w_ts ws)
    (X_weekly_list st ++ concat (map w_xw ws))
    (y_weekly_list st ++ concat (map w_yw ws)).

(** *** Windows without clamping, stacking, weekly sums *)

(** Rows [c .. c+n-1] of [a], taken from the buffer as they are. *)
Definition row_window (a : ndarray) (c n : nat) : ndarray :=
  let w := size_of (tail (shape a)) in
  NdArray (n :: tail (shape a)) (take (n * w) (drop (c * w) (buf a))).

(** The array [np.array] builds from a list of arrays of one shape. *)
Definition stack (l : list ndarray) : ndarray :=
  match l with
  | [] => NdArray [0] []
  | a :: _ => NdArray (length l :: shape a) (concat (map buf l))
  end.

(** The part of rows [lo .. hi-1] that exists in an array of [N] rows. *)
Definition clamped_window (a : ndarray) (lo hi : Z) : ndarray :=
  let N := default 0 (len a) in
  row_window a (Z.to_nat (Z.min lo N)) (Z.to_nat (Z.min hi N) - Z.to_nat (Z.min lo N)).

(** The weekly sums of [a] split in [n] parts, as [weekly_sum] computes
    them when the split is possible. *)
Definition chunk_sums (a : ndarray) (n : nat) : ndarray :=
  let m := default 0 (len a) / n in
  let rest := tail (shape a) in
  let w := size_of rest in
  NdArray (n :: rest)
    (concat (map (λ blk, vsum w (rows_of w m blk))
       (rows_of (m * w) n
          (concat (map (λ j, take (m * w) (drop (j * (m * w)) (buf a))) (seq 0 n)))))).

(** The three windows of the sample at cursor [c]. *)
Definition x_window (data : ndarray) (n_input c : Z) : ndarray :=
  row_window data (Z.to_nat c) (Z.to_nat n_input).

Definition ts_window (data_timestamp : ndarray) (n_input n_out n_gap c : Z) : ndarray :=
  row_window data_timestamp (Z.to_nat (c + n_input + 7 * n_gap)) (Z.to_nat (7 * n_out)).

(** The label window is whatever part of [out_start .. out_end-1] exists. *)
Definition y_window (train_label : ndarray) (n_input n_out n_gap c : Z) : ndarray :=
  clamped_window train_label (c + n_input + 7 * n_gap) (c + n_input + 7 * n_gap + 7 * n_out).

(** The number of rows of [train_label[out_start:out_end]] at cursor [c]
    when the labels have [L] rows: both bounds are clamped to [L]. *)
Definition label_rows (L : nat) (n_input n_out n_gap c : Z) : nat :=
  Z.to_nat (Z.min (out_end_of n_input n_out n_gap c) L)
  - Z.to_nat (Z.min (c + n_input + 7 * n_gap) L).

Definition window_at (data data_timestamp train_label : ndarray)
    (n_input n_out n_gap : Z) (y_weekly_aggregation x_weekly_aggregation : bool)
    (c : Z) : window :=
  Window (x_window data n_input c) (y_window train_label n_input n_out n_gap c)
    (ts_window data_timestamp n_input n_out n_gap c)
    (if y_weekly_aggregation
     then [chunk_sums (y_window train_label n_input n_out n_gap c) (Z.to_nat n_out)]
     else [])
    (if x_weekly_aggregation
     then [chunk_sums (x_window data n_input c) (Z.to_nat n_out)]
     else []).

(** The result on well-formed input, field by field: the stacks of the
    windows at the emitting cursors. *)
Definition windows_result (data dts train_label : ndarray) (total : nat)
    (n_input n_out n_gap day_increment : Z) (yf xf : bool) : results :=
  let cs := cursors 0 day_increment
              (sample_count total n_input n_out n_gap day_increment) in
  Results
    (stack (map (x_window data n_input) cs))
    (stack (if xf
            then map (λ c, chunk_sums (x_window data n_input c) (Z.to_nat n_out)) cs
            else []))
    (stack (map (ts_window dts n_input n_out n_gap) cs))
    (stack (map (y_window train_label n_input n_out n_gap) cs))
    (stack (if yf
            then map (λ c, chunk_sums (y_window train_label n_input n_out n_gap c)
                             (Z.to_nat n_out)) cs
            else [])).

(** The [in_start] values of the emitted samples, in emission order. *)
Definition emitting_starts (total : nat) (n_input n_out n_gap day_increment : Z)
  : list Z :=
  cursors 0 day_increment (sample_count total n_input n_out n_gap day_increment).

(** The five empty collections. *)
Definition empty_array : ndarray := NdArray [0] [].
Definition empty_results : results :=
  Results empty_array empty_array empty_array empty_array empty_array.

(** [a[i, j]] as a flat row, for an array of at least two axes. *)
Definition entry2 (a : ndarray) (i j : nat) : list Z :=
  let m := nth 1 (shape a) 0 in
  let w := size_of (drop 2 (shape a)) in
  take w (drop ((i * m + j) * w) (buf a)).

(** ** Concrete inputs *)

(** A small run: 3 segments of 7 days, two raw columns (value, day number),
    column 0 numeric. *)
Definition demo_train : ndarray :=
  NdArray [3; 7; 2] (concat (map (λ i, [Z.of_nat (10 + i); Z.of_nat i]) (seq 0 21))).
Definition demo_label : ndarray :=
  NdArray [21] (map (λ i, Z.of_nat (100 + i)) (seq 0 21)).

(** One week of data: the trip count is [7 - (1 + 0) * 7 = 0]. *)
Definition week_train : ndarray :=
  NdArray [1; 7; 2] (concat (map (λ i, [Z.of_nat (10 + i); Z.of_nat i]) (seq 0 7))).
Definition week_label : ndarray :=
  NdArray [7; 1] (map (λ i, Z.of_nat (100 + i)) (seq 0 7)).

(** Two weeks of data and only ten labels. *)
Definition fortnight_train : ndarray :=
  NdArray [2; 7; 2] (concat (map (λ i, [Z.of_nat (10 + i); Z.of_nat i]) (seq 0 14))).
Definition ten_labels : ndarray :=
  NdArray [10] (map (λ i, Z.of_nat (100 + i)) (seq 0 10)).

(** A permissive variant, for comparison: [np.delete] with [None]
    deletes nothing. *)
Definition numpy_lenient : numpy_env :=
  NumpyEnv (λ a, Some a) (λ _, None).

(** A series whose weekly sums leave [int64]: column 0 holds 2^62 at
    every step. *)
Definition large_train : ndarray :=
  NdArray [3; 7; 2]
    (concat (map (λ i, [4611686018427387904%Z; Z.of_nat i]) (seq 0 21))).

(** Seventeen labels for the 21 steps of the demonstration series. *)
Definition seventeen_labels : ndarray :=
  NdArray [17] (map (λ i, Z.of_nat (100 + i)) (seq 0 17)).

(** The demonstration series and labels, placed in a store. *)
Definition demo_heap : list (list Z) := [buf demo_train; buf demo_label].
Definition demo_train_ref : Mem.array_ref := Mem.ArrayRef 0 0 (shape demo_train).
Definition demo_label_ref : Mem.array_ref := Mem.ArrayRef 1 0 (shape demo_label).

(** *** Rows of the series and the two matrices of lines 69-70 *)

(** Row [t] of the flattened series: with [s2] raw columns, the entries
    [t*s2 .. t*s2 + s2 - 1] of the buffer.  Row [t] is step [t mod s1] of
    segment [t / s1]. *)
Definition series_row (train : ndarray) (t : nat) : list Z :=
  let s2 := nth 2 (shape train) 0 in
  take s2 (drop (t * s2) (buf train)).

(** Row [k] of an array along its first axis, as a flat list. *)
Definition row_of (a : ndarray) (k : nat) : list Z :=
  let w := size_of (tail (shape a)) in
  take w (drop (k * w) (buf a)).

(** The columns a valid index list names, in the order of the list, and
    the columns [np.delete] keeps, in increasing order. *)
Definition norm_cols (c : nat) (l : list Z) : list nat :=
  map (λ i, Z.to_nat (i `mod` c)) l.

Definition kept_cols (c : nat) (l : list Z) : list nat :=
  filter (λ j, j ∉ norm_cols c l) (seq 0 c).

(** The first row of the output window of sample [i]: [out_start] of
    line 77 at the cursor [i * day_increment]. *)
Definition out_start_row (n_input n_gap day_increment : Z) (i : nat) : nat :=
  Z.to_nat (i * day_increment + n_input + 7 * n_gap).

(** ** Facts about the cursors *)

Lemma cursors_S c0 inc n :
  cursors c0 inc (S n) = c0 :: cursors (c0 + inc) inc n.
Proof.
  unfold cursors. cbn [seq map]. f_equal; [lia|].
  rewrite <- seq_shift, map_map. apply map_ext. intros k. lia.
Qed.

Lemma cursors_length c0 inc n : length (cursors c0 inc n) = n.
Proof. unfold cursors. by rewrite length_map, length_seq. Qed.

Lemma cursors_lookup c0 inc n (k : nat) :
  k < n → cursors c0 inc n !! k = Some (c0 + k * inc)%Z.
Proof.
  intros Hk. unfold cursors. rewrite list_lookup_fmap.
  rewrite lookup_seq_lt by done. done.
Qed.

Lemma sample_count_spec total n_input n_out n_gap inc (k : nat) :
  (1 ≤ inc)%Z →
  k < sample_count total n_input n_out n_gap inc
  ↔ (out_end_of n_input n_out n_gap (k * inc) ≤ total)%Z.
Proof.
  intros Hinc. unfold sample_count, out_end_of.
  set (slack := (total - n_input - 7 * n_gap - 7 * n_out)%Z).
  assert (Hk : (0 ≤ k)%Z) by lia.
  destruct (decide (slack < 0)%Z) as [Hneg|Hpos].
  - split; [lia|]. intros H. assert (0 ≤ k * inc)%Z by nia. lia.
  - assert (Hq : (0 ≤ slack / inc)%Z) by (apply Z.div_pos; lia).
    split.
    + intros Hlt. assert (Hle : (k ≤ slack / inc)%Z) by lia.
      assert (inc * (slack / inc) ≤ slack)%Z by (apply Z.mul_div_le; lia).
      assert (k * inc ≤ inc * (slack / inc))%Z by nia. lia.
    + intros Hle. assert (Hks : (k * inc ≤ slack)%Z) by lia.
      assert (k ≤ slack / inc)%Z by (apply Z.div_le_lower_bound; lia).
      lia.
Qed.

Lemma sample_count_le_trip total n_input n_out n_gap inc :
  (1 ≤ inc)%Z → (1 ≤ n_input)%Z →
  sample_count total n_input n_out n_gap inc ≤ trip_count total n_out n_gap.
Proof.
  intros Hinc Hin. unfold sample_count, trip_count.
  set (slack := (total - n_input - 7 * n_gap - 7 * n_out)%Z).
  destruct (decide (slack < 0)%Z) as [Hneg|Hpos]; [lia|].
  assert (slack / inc ≤ slack)%Z by (apply Z.div_le_upper_bound; nia).
  lia.
Qed.

Lemma filter_seq_lt (P : nat → Prop) `{∀ k, Decision (P k)} (m n : nat) :
  m ≤ n → (∀ k, k < n → (P k ↔ k < m)) →
  filter P (seq 0 n) = seq 0 m.
Proof.
  revert m. induction n as [|n IH]; intros m Hmn HP.
  - by replace m with 0 by lia.
  - rewrite seq_S, filter_app. cbn [Nat.add].
    destruct (decide (m ≤ n)) as [Hle|Hgt].
    + rewrite filter_cons_False, filter_nil, app_nil_r.
      * apply IH; [done|]. intros k Hk. apply HP. lia.
      * rewrite HP by lia. lia.
    + assert (m = S n) as -> by lia.
      rewrite filter_cons_True, filter_nil by (rewrite HP; lia).
      rewrite (IH n); [by rewrite seq_S|done|].
      intros k Hk. rewrite HP by lia. lia.
Qed.

(** ** The loop as a traversal of the emitting cursors *)

Section loop_theory.

Variable np : numpy_env.
Variables (data data_timestamp train_label : ndarray) (total : nat).
Variables (n_input n_out n_gap day_increment : Z).
Variables (y_weekly_aggregation x_weekly_aggregation : bool).

#[local] Abbreviation emit_guard := (emit_guard total n_input n_out n_gap).
#[local] Abbreviation emit_at := (emit_at np data data_timestamp train_label
  n_input n_out n_gap y_weekly_aggregation x_weekly_aggregation).
#[local] Abbreviation push := (push day_increment).
#[local] Abbreviation body := (loop_body np data data_timestamp train_label total
  n_input n_out n_gap day_increment y_weekly_aggregation x_weekly_aggregation).
#[local] Abbreviation run := (loop np data data_timestamp train_label total
  n_input n_out n_gap day_increment y_weekly_aggregation x_weekly_aggregation).

Lemma loop_body_emit st :
  body st =
    if decide (emit_guard (in_start st))
    then w ← emit_at (in_start st); Some (push st 1 [w])
    else Some (push st 1 []).
Proof.
  unfold loop_body, emit_at, emit_guard, out_end_of, push.
  destruct st as [c lx ly lt lxw lyw]; cbn [in_start X_list y_list X_timestamp_list
    X_weekly_list y_weekly_list].
  destruct (decide _) as [Hg|Hg]; cbn.
  - destruct (slice0_all data c _) as [x|]; cbn; [|done].
    destruct (slice0 train_label _ _) as [yv|]; cbn; [|done].
    destruct (slice0_all data_timestamp _ _) as [ts|]; cbn; [|done].
    destruct y_weekly_aggregation, x_weekly_aggregation; cbn;
      repeat (match goal with |- context [weekly_sum ?e ?a ?n] =>
                destruct (weekly_sum e a n); cbn end);
      rewrite ?app_nil_r; try done;
      do 2 f_equal; lia.
  - rewrite !app_nil_r. do 2 f_equal; lia.
Qed.

Lemma push_push st n1 n2 ws1 ws2 :
  push (push st n1 ws1) n2 ws2 = push st (n1 + n2) (ws1 ++ ws2).
Proof.
  unfold push; cbn. rewrite !map_app, !concat_app, <- !app_assoc.
  f_equal. lia.
Qed.

(** [n] iterations from [st] emit at exactly the cursors that pass the
    guard, in order; one failing emission fails the call. *)
Lemma loop_emit n st :
  run n st =
    ws ← mapM emit_at (filter emit_guard (cursors (in_start st) day_increment n));
    Some (push st n ws).
Proof.
  revert st. induction n as [|n IH]; intros st.
  - cbn. unfold push; destruct st; cbn. rewrite !app_nil_r. do 2 f_equal. lia.
  - cbn [loop]. rewrite loop_body_emit, cursors_S, filter_cons.
    destruct (decide (emit_guard (in_start st))) as [Hg|Hg].
    + cbn [mapM]. destruct (emit_at (in_start st)) as [w|]; cbn; [|done].
      rewrite IH. cbn [push in_start].
      replace (in_start st + 1%nat * day_increment)%Z
        with (in_start st + day_increment)%Z by lia.
      destruct (mapM emit_at _) as [ws|]; cbn; [|done].
      by rewrite push_push.
    + cbn. rewrite IH. cbn [push in_start].
      replace (in_start st + 1%nat * day_increment)%Z
        with (in_start st + day_increment)%Z by lia.
      destruct (mapM emit_at _) as [ws|]; cbn; [|done].
      by rewrite push_push.
Qed.

(** With a positive stride and a positive lookback the emitting cursors
    are the first [sample_count] multiples of the stride. *)
Lemma emitting_cursors :
  (1 ≤ day_increment)%Z → (1 ≤ n_input)%Z →
  filter emit_guard (cursors 0 day_increment (trip_count total n_out n_gap))
  = cursors 0 day_increment (sample_count total n_input n_out n_gap day_increment).
Proof.
  intros Hinc Hin. unfold cursors.
  rewrite <- (filter_seq_lt (λ k : nat, emit_guard (0 + k * day_increment)%Z)
               (sample_count total n_input n_out n_gap day_increment)
               (trip_count total n_out n_gap)).
  - induction (seq 0 _) as [|k l IHl]; [done|].
    cbn [map]. rewrite !filter_cons. destruct (decide _); by rewrite IHl.
  - by apply sample_count_le_trip.
  - intros k _. unfold emit_guard. rewrite Z.add_0_l.
    symmetry. by apply sample_count_spec.
Qed.

End loop_theory.

(** ** Windows without clamping, stacking, weekly sums *)

Lemma slice0_clamped a lo hi :
  shape a ≠ [] → (0 ≤ lo)%Z → (0 ≤ hi)%Z →
  slice0 a lo hi = Some (clamped_window a lo hi).
Proof.
  intros Hs Hlo Hhi. unfold slice0, clamped_window, row_window, len.
  destruct (shape a) as [|N rest]; [done|]. cbn.
  unfold slice_bound. rewrite !decide_False by lia. done.
Qed.

Lemma clamped_window_in_range a N rest lo hi :
  shape a = N :: rest → (0 ≤ lo ≤ hi)%Z → (hi ≤ N)%Z →
  clamped_window a lo hi = row_window a (Z.to_nat lo) (Z.to_nat (hi - lo)).
Proof.
  intros Hs Hlo Hhi. unfold clamped_window, len. rewrite Hs. cbn.
  rewrite !Z.min_l by lia. f_equal. lia.
Qed.

Lemma slice0_in_range a N rest lo hi :
  shape a = N :: rest → (0 ≤ lo ≤ hi)%Z → (hi ≤ N)%Z →
  slice0 a lo hi = Some (row_window a (Z.to_nat lo) (Z.to_nat (hi - lo))).
Proof.
  intros Hs Hlo Hhi. rewrite slice0_clamped; [|by rewrite Hs|lia|lia].
  by erewrite clamped_window_in_range.
Qed.

Lemma slice0_all_in_range a N d rest lo hi :
  shape a = N :: d :: rest → (0 ≤ lo ≤ hi)%Z → (hi ≤ N)%Z →
  slice0_all a lo hi = Some (row_window a (Z.to_nat lo) (Z.to_nat (hi - lo))).
Proof.
  intros Hs Hlo Hhi. unfold slice0_all, ndim.
  destruct (decide _) as [_|Hn]; [by eapply slice0_in_range|].
  rewrite Hs in Hn. cbn in Hn. lia.
Qed.

Lemma np_array_stack np (l : list ndarray) (s : list nat) :
  Forall (λ a, shape a = s) l → np_array np l = Some (stack l).
Proof.
  intros Hl. destruct l as [|a l']; [done|].
  apply Forall_cons in Hl as [Ha Hl'].
  unfold np_array. rewrite decide_True; [done|].
  eapply Forall_impl; [exact Hl'|]. intros b Hb. cbn in *. congruence.
Qed.

Lemma stack_len (l : list ndarray) : len (stack l) = Some (length l).
Proof. by destruct l. Qed.

Lemma stack_shape_cons (l : list ndarray) (s : list nat) :
  l ≠ [] → Forall (λ a, shape a = s) l → shape (stack l) = length l :: s.
Proof.
  intros Hne Hl. destruct l as [|a l']; [done|].
  apply Forall_cons in Hl as [Ha _]. cbn. by rewrite Ha.
Qed.

Lemma stack_buf (l : list ndarray) : buf (stack l) = concat (map buf l).
Proof. by destruct l. Qed.

Lemma weekly_sum_divisible np a N rest (n : Z) :
  shape a = N :: rest → (0 < n)%Z → (N `mod` n = 0)%Z →
  weekly_sum np a n = Some (chunk_sums a (Z.to_nat n)).
Proof.
  intros Hs Hn Hmod. unfold weekly_sum, np_split. rewrite Hs.
  rewrite decide_False by lia. rewrite decide_True by done. cbn [mbind option_bind].
  set (parts := map _ _).
  assert (Hparts : Forall (λ b, shape b = N / Z.to_nat n :: rest) parts).
  { apply Forall_forall. intros b (j & -> & _)%list_elem_of_fmap. done. }
  rewrite (np_array_stack _ _ _ Hparts). cbn [mbind option_bind].
  assert (Hne : parts ≠ []).
  { unfold parts. destruct (Z.to_nat n) eqn:E; [lia|]. done. }
  unfold sum_axis1. rewrite (stack_shape_cons _ _ Hne Hparts).
  unfold chunk_sums, len. rewrite Hs. cbn [head default tail].
  f_equal. f_equal.
  - f_equal. unfold parts. by rewrite length_map, length_seq.
  - rewrite stack_buf. unfold parts. rewrite length_map, length_seq, map_map. done.
Qed.

Lemma weekly_sum_indivisible np a N rest (n : Z) :
  shape a = N :: rest → (N `mod` n ≠ 0)%Z → weekly_sum np a n = None.
Proof.
  intros Hs Hmod. unfold weekly_sum, np_split. rewrite Hs.
  destruct (decide (n ≤ 0)%Z); [done|]. by rewrite decide_False.
Qed.

Lemma chunk_sums_shape a n : shape (chunk_sums a n) = n :: tail (shape a).
Proof. done. Qed.

Lemma row_window_shape a c n : shape (row_window a c n) = n :: tail (shape a).
Proof. done. Qed.

(** ** Lines 68-70 *)

Lemma concat_blocks_length {A B} (f : A → list B) (l : list A) (w : nat) :
  (∀ x, length (f x) = w) → length (concat (map f l)) = length l * w.
Proof.
  intros Hf. induction l as [|x l IH]; [done|].
  cbn. rewrite length_app, Hf, IH. lia.
Qed.

Lemma mapM_norm_index (c : nat) (l : list Z) :
  Forall (λ i, (- c ≤ i < c)%Z) l →
  ∃ cols, mapM (norm_index c) l = Some cols ∧ length cols = length l.
Proof.
  induction 1 as [|i l Hi Hl (cols & IH & Hlen)]; [by exists []|].
  assert (∃ j, norm_index c i = Some j) as [j Hj].
  { unfold norm_index. destruct (decide (0 ≤ i < c)%Z); [eauto|].
    rewrite decide_True by lia. eauto. }
  exists (j :: cols). cbn. rewrite Hj, IH. cbn. split; [done|]. by rewrite Hlen.
Qed.

Lemma rows_of_length w n l : length (rows_of w n l) = n.
Proof. unfold rows_of. by rewrite length_map, length_seq. Qed.

Lemma reshape_flat (train : ndarray) (s0 s1 s2 : nat) :
  shape train = [s0; s1; s2] →
  reshape train [s0 * s1; s2] = Some (NdArray [s0 * s1; s2] (buf train)).
Proof.
  intros Hs. unfold reshape. rewrite Hs. rewrite decide_True; [done|]. cbn. lia.
Qed.

(** With a list of valid column indices the preamble succeeds and yields
    two well-formed 2-d arrays over the same [s0 * s1] rows. *)
Lemma prepare_valid np (train : ndarray) (s0 s1 s2 : nat) (l : list Z) :
  shape train = [s0; s1; s2] →
  Forall (λ i, (- s2 ≤ i < s2)%Z) l →
  ∃ data dts kept,
    prepare np train (IndexList l) = Some (data, dts)
    ∧ shape data = [s0 * s1; length l] ∧ shape dts = [s0 * s1; kept]
    ∧ well_formed data ∧ well_formed dts.
Proof.
  intros Hs Hl. destruct (mapM_norm_index s2 l Hl) as (cols & Hcols & Hlen).
  unfold prepare. rewrite Hs. cbn [lookup list_lookup mbind option_bind].
  rewrite (reshape_flat _ _ _ _ Hs). cbn [mbind option_bind].
  unfold delete_columns, take_columns. cbn [shape buf].
  rewrite Hcols. cbn [mbind option_bind].
  eexists _, _, _. split; [done|]. rewrite Hlen.
  split; [done|]. split; [done|]. unfold well_formed, pick. cbn [shape buf size_of foldr].
  split.
  - rewrite (concat_blocks_length _ _ (length cols)) by (intros; by rewrite length_map).
    rewrite rows_of_length. lia.
  - rewrite (concat_blocks_length _ _ (length (filter (λ j, j ∉ cols) (seq 0 s2))))
      by (intros; by rewrite length_map).
    rewrite rows_of_length. lia.
Qed.

(** Whatever the index argument, the numeric matrix keeps all
    [total_time_steps] rows and has at least two axes. *)
Lemma prepare_shape np train idx data dts total :
  prepare np train idx = Some (data, dts) →
  total_time_steps train = Some total →
  ∃ d rest, shape data = total :: d :: rest.
Proof.
  unfold prepare, total_time_steps. intros Hp Ht.
  destruct (shape train !! 0) as [s0|]; [|done].
  destruct (shape train !! 1) as [s1|]; [|done].
  destruct (shape train !! 2) as [s2|]; [|done].
  cbn in Hp, Ht. injection Ht as <-.
  unfold reshape in Hp. destruct (decide _); [|done]. cbn in Hp.
  destruct idx as [|l]; cbn in Hp.
  - destruct (delete_none np _); [|done]. cbn in Hp. injection Hp as <- _. eauto.
  - unfold delete_columns, take_columns in Hp. cbn in Hp.
    destruct (mapM _ l) as [cols|]; [|done]. cbn in Hp.
    injection Hp as <- _. eauto.
Qed.

(** ** One emission, on in-range cursors *)

Section emission.

Variable np : numpy_env.
Variables (data data_timestamp train_label : ndarray) (total : nat).
Variables (n_input n_out n_gap day_increment : Z).
Variables (y_weekly_aggregation x_weekly_aggregation : bool).

#[local] Abbreviation x_window := (x_window data n_input).
#[local] Abbreviation ts_window := (ts_window data_timestamp n_input n_out n_gap).
#[local] Abbreviation y_window := (y_window train_label n_input n_out n_gap).
#[local] Abbreviation window_at := (window_at data data_timestamp train_label
  n_input n_out n_gap y_weekly_aggregation x_weekly_aggregation).
#[local] Abbreviation emit := (emit_at np data data_timestamp train_label
  n_input n_out n_gap y_weekly_aggregation x_weekly_aggregation).
#[local] Abbreviation guard := (emit_guard total n_input n_out n_gap).

Hypothesis Hn_input : (0 ≤ n_input)%Z.
Hypothesis Hn_out : (0 ≤ n_out)%Z.
Hypothesis Hn_gap : (0 ≤ n_gap)%Z.

Lemma emit_at_X d rest c w :
  shape data = total :: d :: rest → (0 ≤ c)%Z → guard c →
  emit c = Some w → w_X w = x_window c.
Proof using Hn_input Hn_out Hn_gap.
  intros Hs Hc Hg. unfold emit_guard, out_end_of in Hg. unfold emit_at.
  rewrite (slice0_all_in_range _ _ _ _ _ _ Hs) by lia.
  cbn [mbind option_bind]. intros Hw.
  destruct (slice0 train_label _ _); [|done]. cbn in Hw.
  destruct (slice0_all data_timestamp _ _); [|done]. cbn in Hw.
  destruct (if y_weekly_aggregation then _ else _); [|done]. cbn in Hw.
  destruct (if x_weekly_aggregation then _ else _); [|done]. cbn in Hw.
  injection Hw as <-. cbn. unfold x_window. do 2 f_equal. lia.
Qed.

Lemma emit_at_X_indivisible d rest c :
  shape data = total :: d :: rest → (0 ≤ c)%Z → guard c →
  x_weekly_aggregation = true → (n_input `mod` n_out ≠ 0)%Z →
  emit c = None.
Proof using Hn_input Hn_out Hn_gap.
  intros Hs Hc Hg Hx Hmod. unfold emit_guard, out_end_of in Hg. unfold emit_at.
  rewrite (slice0_all_in_range _ _ _ _ _ _ Hs) by lia.
  cbn [mbind option_bind].
  destruct (slice0 train_label _ _); [|done]. cbn [mbind option_bind].
  destruct (slice0_all data_timestamp _ _); [|done]. cbn [mbind option_bind].
  destruct (if y_weekly_aggregation then _ else _); [|done]. cbn [mbind option_bind].
  rewrite Hx. erewrite weekly_sum_indivisible; [done|apply row_window_shape|].
  replace (Z.of_nat (Z.to_nat (c + n_input - c))) with n_input by lia. done.
Qed.

Lemma emit_at_valid d rest d' rest' L lrest c :
  shape data = total :: d :: rest →
  shape data_timestamp = total :: d' :: rest' →
  shape train_label = L :: lrest →
  (0 ≤ c)%Z → guard c → (1 ≤ n_out)%Z →
  (y_weekly_aggregation = true →
     ∃ r : nat, shape (y_window c) = r :: lrest ∧ (r `mod` n_out = 0)%Z) →
  (x_weekly_aggregation = true → (n_input `mod` n_out = 0)%Z) →
  emit c = Some (window_at c).
Proof using Hn_input Hn_out Hn_gap.
  intros Hs Hs' Hl Hc Hg Hout Hy Hx.
  unfold emit_guard, out_end_of in Hg. unfold emit_at.
  rewrite (slice0_all_in_range _ _ _ _ _ _ Hs) by lia.
  cbn [mbind option_bind].
  rewrite slice0_clamped; [|by rewrite Hl|lia|lia]. cbn [mbind option_bind].
  rewrite (slice0_all_in_range _ _ _ _ _ _ Hs') by lia.
  cbn [mbind option_bind]. unfold window_at.
  replace (row_window data (Z.to_nat c) (Z.to_nat (c + n_input - c)))
    with (x_window c) by (unfold x_window; do 2 f_equal; lia).
  replace (row_window data_timestamp _ _) with (ts_window c)
    by (unfold ts_window; f_equal; lia).
  fold (y_window c).
  assert (Hyw : (if y_weekly_aggregation
                 then w ← weekly_sum np (y_window c) n_out; Some [w]
                 else Some [])
                = Some (if y_weekly_aggregation
                        then [chunk_sums (y_window c) (Z.to_nat n_out)] else [])).
  { destruct y_weekly_aggregation; [|done].
    destruct Hy as (r & Hr & Hmod); [done|].
    by rewrite (weekly_sum_divisible _ _ _ _ _ Hr) by (done || lia). }
  rewrite Hyw. cbn [mbind option_bind].
  assert (Hxw : (if x_weekly_aggregation
                 then w ← weekly_sum np (x_window c) n_out; Some [w]
                 else Some [])
                = Some (if x_weekly_aggregation
                        then [chunk_sums (x_window c) (Z.to_nat n_out)] else [])).
  { destruct x_weekly_aggregation; [|done].
    rewrite (weekly_sum_divisible _ _ (Z.to_nat n_input) (d :: rest));
      [done|by unfold x_window, row_window; rewrite Hs|lia|].
    rewrite Z2Nat.id by lia. by apply Hx. }
  rewrite Hxw. done.
Qed.

End emission.

Lemma mapM_total {A B} (f : A → option B) (g : A → B) (l : list A) :
  Forall (λ x, f x = Some (g x)) l → mapM f l = Some (map g l).
Proof.
  induction 1 as [|x l Hx _ IH]; [done|]. cbn. by rewrite Hx, IH.
Qed.

(** [to_supervised] after the preamble, with the loop read as a traversal. *)
Lemma to_supervised_traverse np train train_label n_input n_out n_gap
    day_increment idx yf xf data dts total rest :
  prepare np train idx = Some (data, dts) →
  shape data = total :: rest →
  to_supervised np train train_label n_input n_out n_gap day_increment idx yf xf =
    ws ← mapM (emit_at np data dts train_label n_input n_out n_gap yf xf)
         (filter (emit_guard total n_input n_out n_gap)
            (cursors 0 day_increment (trip_count total n_out n_gap)));
    rX ← np_array np (map w_X ws);
    rXw ← np_array np (concat (map w_xw ws));
    rXt ← np_array np (map w_ts ws);
    ry ← np_array np (map w_y ws);
    ryw ← np_array np (concat (map w_yw ws));
    Some (Results rX rXw rXt ry ryw).
Proof.
  intros Hp Hs. unfold to_supervised. rewrite Hp. cbn [mbind option_bind].
  unfold len. rewrite Hs. cbn [head mbind option_bind].
  rewrite loop_emit. cbn [in_start].
  destruct (mapM _ _) as [ws|]; [|done]. cbn. done.
Qed.

Lemma cursors_in_range total n_input n_out n_gap inc c :
  (1 ≤ inc)%Z →
  c ∈ cursors 0 inc (sample_count total n_input n_out n_gap inc) →
  (0 ≤ c)%Z ∧ emit_guard total n_input n_out n_gap c.
Proof.
  intros Hinc (k & -> & Hk%elem_of_seq)%list_elem_of_fmap.
  split; [nia|]. unfold emit_guard. rewrite Z.add_0_l.
  apply sample_count_spec; [done|lia].
Qed.

Lemma Forall2_map_eq {A B C} (f : A → option B) (p : B → C) (g : A → C)
    (l : list A) (k : list B) :
  Forall2 (λ x y, f x = Some y) l k →
  (∀ x y, x ∈ l → f x = Some y → p y = g x) →
  map p k = map g l.
Proof.
  induction 1 as [|x y l k Hxy _ IH]; intros Hp; [done|].
  cbn. f_equal.
  - apply Hp; [left|done].
  - apply IH. intros x' y' Hin. apply Hp. by right.
Qed.

(** Any result [to_supervised] returns holds, as [X], the stack of the
    unclamped input windows at the cursors [0, inc, 2*inc, ...]. *)
Lemma to_supervised_X_inv np train train_label n_input n_out n_gap
    day_increment idx yf xf total res :
  (1 ≤ n_input)%Z → (1 ≤ day_increment)%Z → (0 ≤ n_out)%Z → (0 ≤ n_gap)%Z →
  total_time_steps train = Some total →
  to_supervised np train train_label n_input n_out n_gap day_increment idx yf xf
    = Some res →
  ∃ data dts,
    prepare np train idx = Some (data, dts)
    ∧ X res = stack (map (x_window data n_input)
                (cursors 0 day_increment
                   (sample_count total n_input n_out n_gap day_increment))).
Proof.
  intros Hin Hinc Hout Hgap Ht Hres.
  destruct (prepare np train idx) as [[data dts]|] eqn:Hp;
    [|by unfold to_supervised in Hres; rewrite Hp in Hres].
  destruct (prepare_shape _ _ _ _ _ _ Hp Ht) as (d & rest & Hs).
  rewrite (to_supervised_traverse _ _ _ _ _ _ _ _ _ _ _ _ _ _ Hp Hs) in Hres.
  rewrite emitting_cursors in Hres by done.
  destruct (mapM _ _) as [ws|] eqn:Hws; [|done]. cbn in Hres.
  apply mapM_Some in Hws.
  assert (HX : map w_X ws = map (x_window data n_input)
            (cursors 0 day_increment
               (sample_count total n_input n_out n_gap day_increment))).
  { eapply Forall2_map_eq; [exact Hws|]. intros c w Hc Hw.
    apply (cursors_in_range _ _ _ _ _ _ Hinc) in Hc as [Hc0 Hg].
    eapply emit_at_X; [..|exact Hs|exact Hc0|exact Hg|exact Hw]; lia. }
  rewrite HX in Hres.
  rewrite (np_array_stack np (map (x_window data n_input) _)
             (Z.to_nat n_input :: d :: rest)) in Hres.
  2:{ apply Forall_forall. intros a (c & -> & _)%list_elem_of_fmap.
      unfold x_window. rewrite row_window_shape, Hs. done. }
  cbn in Hres.
  destruct (np_array np (concat (map w_xw ws))); cbn in Hres; [|done].
  destruct (np_array np (map w_ts ws)); cbn in Hres; [|done].
  destruct (np_array np (map w_y ws)); cbn in Hres; [|done].
  destruct (np_array np (concat (map w_yw ws))); cbn in Hres; [|done].
  injection Hres as <-. eauto.
Qed.

Lemma concat_map_flag {A B} (b : bool) (f : A → B) (l : list A) :
  concat (map (λ x, if b then [f x] else []) l) = if b then map f l else [].
Proof.
  destruct b.
  - induction l as [|x l IH]; [done|]. cbn. by rewrite IH.
  - induction l as [|x l IH]; [done|]. cbn. by rewrite IH.
Qed.

(** The call returns [windows_result] as soon as the parameters are in
    their documented ranges, the column indices are valid, the label
    windows have one common number of rows [r], and the requested splits
    are exact.  Nothing is asked of the length of [train_label] here. *)
Lemma to_supervised_valid_gen np train train_label n_input n_out n_gap
    day_increment l yf xf (s0 s1 s2 L r : nat) (lrest : list nat) :
  shape train = [s0; s1; s2] →
  Forall (λ i, (- s2 ≤ i < s2)%Z) l →
  shape train_label = L :: lrest →
  (1 ≤ n_input)%Z → (1 ≤ n_out)%Z → (0 ≤ n_gap)%Z → (1 ≤ day_increment)%Z →
  (xf = true → (n_input `mod` n_out = 0)%Z) →
  (∀ c, c ∈ cursors 0 day_increment
              (sample_count (s0 * s1) n_input n_out n_gap day_increment) →
        shape (y_window train_label n_input n_out n_gap c) = r :: lrest) →
  (yf = true → (r `mod` n_out = 0)%Z) →
  ∃ data dts kept,
    prepare np train (IndexList l) = Some (data, dts)
    ∧ shape data = [s0 * s1; length l] ∧ shape dts = [s0 * s1; kept]
    ∧ well_formed data ∧ well_formed dts
    ∧ to_supervised np train train_label n_input n_out n_gap day_increment
        (IndexList l) yf xf
      = Some (windows_result data dts train_label (s0 * s1)
                n_input n_out n_gap day_increment yf xf).
Proof.
  intros Hs Hl Hlab Hin Hout Hgap Hinc Hx Hyr Hy.
  destruct (prepare_valid np train s0 s1 s2 l Hs Hl)
    as (data & dts & kept & Hp & Hsd & Hst & Hwd & Hwt).
  exists data, dts, kept. repeat (split; [done|]).
  rewrite (to_supervised_traverse _ _ _ _ _ _ _ _ _ _ _ _ _ _ Hp Hsd).
  rewrite emitting_cursors by done.
  set (cs := cursors 0 day_increment _).
  rewrite (mapM_total _ (window_at data dts train_label n_input n_out n_gap yf xf)).
  2:{ apply Forall_forall. intros c Hc.
      destruct (cursors_in_range _ _ _ _ _ _ Hinc Hc) as [Hc0 Hg].
      eapply emit_at_valid; [lia|lia|lia|exact Hsd|exact Hst|exact Hlab|
                             exact Hc0|exact Hg|exact Hout| |exact Hx].
      intros Hyf. exists r. split; [by apply Hyr|by apply Hy]. }
  cbn [mbind option_bind]. rewrite !map_map. cbn [w_X w_y w_ts w_yw w_xw window_at].
  rewrite !concat_map_flag.
  rewrite (np_array_stack np (map (λ c, x_window data n_input c) cs)
             [Z.to_nat n_input; length l]).
  2:{ apply Forall_forall. intros a (c & -> & _)%list_elem_of_fmap.
      unfold x_window. by rewrite row_window_shape, Hsd. }
  cbn [mbind option_bind].
  rewrite (np_array_stack np (if xf then _ else _) [Z.to_nat n_out; length l]).
  2:{ destruct xf; [|done]. apply Forall_forall.
      intros a (c & -> & _)%list_elem_of_fmap.
      unfold x_window. by rewrite chunk_sums_shape, row_window_shape, Hsd. }
  cbn [mbind option_bind].
  rewrite (np_array_stack np (map (λ c, ts_window dts n_input n_out n_gap c) cs)
             [Z.to_nat (7 * n_out); kept]).
  2:{ apply Forall_forall. intros a (c & -> & _)%list_elem_of_fmap.
      unfold ts_window. by rewrite row_window_shape, Hst. }
  cbn [mbind option_bind].
  rewrite (np_array_stack np (map (λ c, y_window train_label n_input n_out n_gap c) cs)
             (r :: lrest)).
  2:{ apply Forall_forall. intros a (c & -> & Hc)%list_elem_of_fmap. by apply Hyr. }
  cbn [mbind option_bind].
  rewrite (np_array_stack np (if yf then _ else _) (Z.to_nat n_out :: lrest)).
  2:{ destruct yf; [|done]. apply Forall_forall.
      intros a (c & -> & Hc)%list_elem_of_fmap.
      by rewrite chunk_sums_shape, (Hyr c Hc). }
  done.
Qed.

Lemma y_window_full train_label n_input n_out n_gap (total L : nat) lrest c :
  shape train_label = L :: lrest → total ≤ L →
  (0 ≤ n_input)%Z → (0 ≤ n_out)%Z → (0 ≤ n_gap)%Z →
  (0 ≤ c)%Z → emit_guard total n_input n_out n_gap c →
  y_window train_label n_input n_out n_gap c
  = row_window train_label (Z.to_nat (c + n_input + 7 * n_gap)) (Z.to_nat (7 * n_out)).
Proof.
  intros Hlab HL Hin Hout Hgap Hc Hg. unfold emit_guard, out_end_of in Hg.
  unfold y_window. rewrite (clamped_window_in_range _ _ _ _ _ Hlab) by lia.
  f_equal. lia.
Qed.

(** The documented contract: 3-d series, valid column indices, labels
    covering the series, parameters in range, exact input split. *)
Lemma to_supervised_valid np train train_label n_input n_out n_gap
    day_increment l yf xf (s0 s1 s2 L : nat) (lrest : list nat) :
  shape train = [s0; s1; s2] →
  Forall (λ i, (- s2 ≤ i < s2)%Z) l →
  shape train_label = L :: lrest → s0 * s1 ≤ L →
  (1 ≤ n_input)%Z → (1 ≤ n_out)%Z → (0 ≤ n_gap)%Z → (1 ≤ day_increment)%Z →
  (xf = true → (n_input `mod` n_out = 0)%Z) →
  ∃ data dts kept,
    prepare np train (IndexList l) = Some (data, dts)
    ∧ shape data = [s0 * s1; length l] ∧ shape dts = [s0 * s1; kept]
    ∧ well_formed data ∧ well_formed dts
    ∧ to_supervised np train train_label n_input n_out n_gap day_increment
        (IndexList l) yf xf
      = Some (windows_result data dts train_label (s0 * s1)
                n_input n_out n_gap day_increment yf xf).
Proof.
  intros Hs Hl Hlab HL Hin Hout Hgap Hinc Hx.
  eapply (to_supervised_valid_gen _ _ _ _ _ _ _ _ _ _ _ _ _ _ (Z.to_nat (7 * n_out)));
    try done.
  - intros c Hc. destruct (cursors_in_range _ _ _ _ _ _ Hinc Hc) as [Hc0 Hg].
    rewrite (y_window_full _ _ _ _ _ _ _ _ Hlab HL) by (done || lia).
    by rewrite row_window_shape, Hlab.
  - intros _. rewrite Z2Nat.id by lia. apply Z.mod_mul. lia.
Qed.

(** ** Sample count, worked example, empty loop, ordering *)

(** C1.  With [n_input >= 1], [day_increment >= 1], [n_out >= 1] and
    [n_gap >= 0], the number of samples in a result of [to_supervised] is
    [sample_count], a function of [total_time_steps], [n_input], [n_out],
    [n_gap] and [day_increment] alone, and [sample_count] counts the cursor
    positions [k * day_increment] whose [out_end] is at most
    [total_time_steps]: position [k] passes the guard exactly when
    [k < sample_count].  The loop's own trip count does not enter. *)
Theorem C1_sample_count np train train_label n_input n_out n_gap day_increment
    idx yf xf total res :
  (1 ≤ n_input)%Z → (1 ≤ day_increment)%Z → (1 ≤ n_out)%Z → (0 ≤ n_gap)%Z →
  total_time_steps train = Some total →
  to_supervised np train train_label n_input n_out n_gap day_increment idx yf xf
    = Some res →
  len (X res) = Some (sample_count total n_input n_out n_gap day_increment)
  ∧ ∀ k : nat,
      k < sample_count total n_input n_out n_gap day_increment
      ↔ (k * day_increment + n_input + 7 * n_gap + 7 * n_out ≤ total)%Z.
Proof.
  intros Hin Hinc Hout Hgap Ht Hres. split.
  - assert (Hout0 : (0 ≤ n_out)%Z) by lia.
    destruct (to_supervised_X_inv _ _ _ _ _ _ _ _ _ _ _ _ Hin Hinc
                Hout0 Hgap Ht Hres) as (data & dts & _ & ->).
    by rewrite stack_len, length_map, cursors_length.
  - intros k. by apply sample_count_spec.
Qed.

(** C1 at the demonstration series: 21 days, weekly stride, one week out. *)
Lemma C1_sample_count_witness :
  ∃ res,
    to_supervised numpy_strict demo_train demo_label 7 1 0 7 (IndexList [0%Z]) false false
      = Some res
    ∧ len (X res) = Some 2.
Proof.
  eexists. split; [vm_compute; reflexivity|].
  refine (proj1 (C1_sample_count numpy_strict demo_train demo_label 7 1 0 7
            (IndexList [0%Z]) false false 21 _ _ _ _ _ _ _));
    [lia|lia|lia|lia|reflexivity|vm_compute; reflexivity].
Defined.

(** C5.  The worked example: with 21 time steps, [n_input = 7],
    [n_out = 1], [n_gap = 0] and a stride of 7 the loop runs 14 times, the
    cursors 0 and 7 pass the guard ([out_end] 14 and 21), cursor 14 does
    not ([out_end] 28), and a returned result holds exactly the two
    samples whose input windows are rows 0..6 and rows 7..13. *)
Theorem C5_worked_example np train train_label idx yf xf res :
  total_time_steps train = Some 21 →
  to_supervised np train train_label 7 1 0 7 idx yf xf = Some res →
  len (X res) = Some 2
  ∧ filter (emit_guard 21 7 1 0) (cursors 0 7 (trip_count 21 1 0)) = [0; 7]%Z
  ∧ (0 + 7 = 7 ∧ 7 + 7 * 0 = 7 ∧ out_end_of 7 1 0 0 = 14)%Z
  ∧ (7 + 7 = 14 ∧ 14 + 7 * 0 = 14 ∧ out_end_of 7 1 0 7 = 21)%Z
  ∧ (out_end_of 7 1 0 14 = 28)%Z ∧ ¬ emit_guard 21 7 1 0 14
  ∧ ∃ data dts, prepare np train idx = Some (data, dts)
      ∧ X res = stack [row_window data 0 7; row_window data 7 7].
Proof.
  intros Ht Hres.
  destruct (to_supervised_X_inv np train train_label 7 1 0 7 idx yf xf 21 res)
    as (data & dts & Hp & HX); [lia|lia|lia|lia|done|done|].
  split; [by rewrite HX|].
  split; [by vm_compute|].
  split; [by vm_compute|].
  split; [by vm_compute|].
  split; [by vm_compute|].
  split; [by vm_compute|].
  exists data, dts. split; [done|]. exact HX.
Qed.

Lemma C5_worked_example_witness :
  ∃ res,
    to_supervised numpy_strict demo_train demo_label 7 1 0 7 (IndexList [0%Z]) true true
      = Some res
    ∧ len (X res) = Some 2.
Proof.
  eexists. split; [vm_compute; reflexivity|].
  refine (proj1 (C5_worked_example numpy_strict demo_train demo_label
            (IndexList [0%Z]) true true _ _ _)); vm_compute; reflexivity.
Defined.

(** Once the preamble has succeeded, a loop that does not run leaves
    the five lists empty. *)
Lemma to_supervised_no_iteration np train train_label n_input n_out n_gap
    day_increment idx yf xf data dts (total : nat) rest :
  prepare np train idx = Some (data, dts) →
  shape data = total :: rest →
  (total - (n_out + n_gap) * 7 ≤ 0)%Z →
  to_supervised np train train_label n_input n_out n_gap day_increment idx yf xf
    = Some empty_results.
Proof.
  intros Hp Hs Htrip. unfold to_supervised. rewrite Hp. cbn [mbind option_bind].
  unfold len. rewrite Hs. cbn [head mbind option_bind].
  unfold trip_count. replace (Z.to_nat _) with 0 by lia. done.
Qed.

(** C7.  When the trip count [total_time_steps - (n_out + n_gap) * 7] is
    zero or negative, [to_supervised] (on a 3-d series with valid column
    indices, whatever the other arguments) returns the result whose five
    collections are all empty; it does not raise. *)
Theorem C7_nonpositive_trip_count np train train_label n_input n_out n_gap
    day_increment l yf xf (s0 s1 s2 : nat) :
  shape train = [s0; s1; s2] →
  Forall (λ i, (- s2 ≤ i < s2)%Z) l →
  ((s0 * s1)%nat - (n_out + n_gap) * 7 ≤ 0)%Z →
  to_supervised np train train_label n_input n_out n_gap day_increment
    (IndexList l) yf xf = Some empty_results.
Proof.
  intros Hs Hl Htrip.
  destruct (prepare_valid np train s0 s1 s2 l Hs Hl)
    as (data & dts & kept & Hp & Hsd & _).
  by eapply to_supervised_no_iteration.
Qed.

Lemma C7_nonpositive_trip_count_witness :
  to_supervised numpy_strict week_train week_label 7 1 0 7 (IndexList [0%Z]) true true
  = Some empty_results.
Proof.
  apply (C7_nonpositive_trip_count numpy_strict week_train week_label 7 1 0 7
           [0%Z] true true 1 7 2).
  - reflexivity.
  - repeat constructor; cbn; lia.
  - cbn. lia.
Defined.

Lemma emitting_starts_increasing total n_input n_out n_gap inc (i j : nat) ci cj :
  (1 ≤ inc)%Z →
  emitting_starts total n_input n_out n_gap inc !! i = Some ci →
  emitting_starts total n_input n_out n_gap inc !! j = Some cj →
  i < j → (ci < cj)%Z.
Proof.
  unfold emitting_starts. intros Hinc Hi Hj Hij.
  pose proof (lookup_lt_Some _ _ _ Hi) as Hil.
  pose proof (lookup_lt_Some _ _ _ Hj) as Hjl.
  rewrite cursors_length in Hil, Hjl.
  rewrite cursors_lookup in Hi, Hj by done.
  injection Hi as <-. injection Hj as <-. nia.
Qed.

Lemma row_window_wf a (N : nat) rest c n :
  well_formed a → shape a = N :: rest → c + n ≤ N →
  well_formed (row_window a c n).
Proof.
  unfold well_formed, row_window. intros Hw Hs Hcn. rewrite Hs in *.
  cbn [shape buf tail size_of foldr] in *.
  rewrite length_take, length_drop, Hw. nia.
Qed.

(** C8.  On valid input the samples are in strictly increasing order of
    [in_start] (sample [i] is the window at cursor [i * day_increment]);
    [X], [y] and [X_timestamp], and [X_weekly] / [y_weekly] when their flag
    is set, all have [sample_count] entries along the first axis; that
    number is at most the trip count of the loop, and strictly smaller as
    soon as a sample is emitted with [n_input >= 2]. *)
Theorem C8_parallel_collections np train train_label n_input n_out n_gap
    day_increment l yf xf (s0 s1 s2 L : nat) (lrest : list nat) :
  shape train = [s0; s1; s2] →
  Forall (λ i, (- s2 ≤ i < s2)%Z) l →
  shape train_label = L :: lrest → s0 * s1 ≤ L →
  (1 ≤ n_input)%Z → (1 ≤ n_out)%Z → (0 ≤ n_gap)%Z → (1 ≤ day_increment)%Z →
  (xf = true → (n_input `mod` n_out = 0)%Z) →
  ∃ data dts res,
    prepare np train (IndexList l) = Some (data, dts)
    ∧ to_supervised np train train_label n_input n_out n_gap day_increment
        (IndexList l) yf xf = Some res
    ∧ X res = stack (map (x_window data n_input)
                (emitting_starts (s0 * s1) n_input n_out n_gap day_increment))
    ∧ y res = stack (map (y_window train_label n_input n_out n_gap)
                (emitting_starts (s0 * s1) n_input n_out n_gap day_increment))
    ∧ X_timestamp res = stack (map (ts_window dts n_input n_out n_gap)
                (emitting_starts (s0 * s1) n_input n_out n_gap day_increment))
    ∧ (∀ (i j : nat) ci cj,
         emitting_starts (s0 * s1) n_input n_out n_gap day_increment !! i = Some ci →
         emitting_starts (s0 * s1) n_input n_out n_gap day_increment !! j = Some cj →
         i < j → (ci < cj)%Z)
    ∧ len (X res) = Some (sample_count (s0 * s1) n_input n_out n_gap day_increment)
    ∧ len (y res) = Some (sample_count (s0 * s1) n_input n_out n_gap day_increment)
    ∧ len (X_timestamp res)
      = Some (sample_count (s0 * s1) n_input n_out n_gap day_increment)
    ∧ (xf = true →
       len (X_weekly res)
       = Some (sample_count (s0 * s1) n_input n_out n_gap day_increment))
    ∧ (yf = true →
       len (y_weekly res)
       = Some (sample_count (s0 * s1) n_input n_out n_gap day_increment))
    ∧ sample_count (s0 * s1) n_input n_out n_gap day_increment
      ≤ trip_count (s0 * s1) n_out n_gap
    ∧ ((2 ≤ n_input)%Z →
       1 ≤ sample_count (s0 * s1) n_input n_out n_gap day_increment →
       sample_count (s0 * s1) n_input n_out n_gap day_increment
       < trip_count (s0 * s1) n_out n_gap).
Proof.
  intros Hs Hl Hlab HL Hin Hout Hgap Hinc Hx.
  destruct (to_supervised_valid np train train_label n_input n_out n_gap
              day_increment l yf xf s0 s1 s2 L lrest)
    as (data & dts & kept & Hp & Hsd & Hst & Hwd & Hwt & Hres); try done.
  exists data, dts, (windows_result data dts train_label (s0 * s1)
                       n_input n_out n_gap day_increment yf xf).
  split; [done|]. split; [done|].
  unfold windows_result; cbn [X y X_timestamp X_weekly y_weekly].
  fold (emitting_starts (s0 * s1) n_input n_out n_gap day_increment).
  split; [done|]. split; [done|]. split; [done|].
  split; [intros; by eapply emitting_starts_increasing|].
  rewrite !stack_len, !length_map. unfold emitting_starts. rewrite cursors_length.
  split; [done|]. split; [done|]. split; [done|].
  split; [intros ->; by rewrite length_map, cursors_length|].
  split; [intros ->; by rewrite length_map, cursors_length|].
  split; [by apply sample_count_le_trip|].
  intros Hin2. unfold sample_count, trip_count.
  destruct (decide _) as [Hneg|Hpos]; [lia|]. intros _.
  set (slack := (_ - _ - _ - _)%Z) in *.
  assert (slack / day_increment ≤ slack)%Z by (apply Z.div_le_upper_bound; nia).
  lia.
Qed.

Lemma C8_parallel_collections_witness :
  ∃ res,
    to_supervised numpy_strict demo_train demo_label 7 1 0 7 (IndexList [0%Z]) true true
      = Some res
    ∧ len (X res) = Some 2 ∧ len (y res) = Some 2 ∧ len (X_timestamp res) = Some 2
    ∧ len (X_weekly res) = Some 2 ∧ len (y_weekly res) = Some 2
    ∧ 2 < trip_count 21 1 0.
Proof.
  destruct (C8_parallel_collections numpy_strict demo_train demo_label 7 1 0 7
              [0%Z] true true 3 7 2 21 [])
    as (data & dts & res & _ & Hres & _ & _ & _ & _ & HX & Hy & Ht & Hxw & Hyw & _ & Hlt).
  - reflexivity.
  - repeat constructor; cbn; lia.
  - reflexivity.
  - cbn; lia.
  - lia.
  - lia.
  - lia.
  - lia.
  - intros _. reflexivity.
  - exists res. split; [exact Hres|].
    split; [exact HX|]. split; [exact Hy|]. split; [exact Ht|].
    split; [by apply Hxw|]. split; [by apply Hyw|].
    apply Hlt; [lia|]. vm_compute. lia.
Defined.

(** C3.  On valid input the call returns, and every emitted sample sits
    at a cursor [c >= 0] whose [out_end] is at most [total_time_steps]:
    its three windows are complete blocks of rows taken from inside the
    arrays (nothing is clamped or padded).  A cursor the loop visits whose
    [out_end] lies past the end contributes no sample, and raises
    nothing. *)
Theorem C3_emission_guard np train train_label n_input n_out n_gap
    day_increment l yf xf (s0 s1 s2 L : nat) (lrest : list nat) :
  shape train = [s0; s1; s2] →
  Forall (λ i, (- s2 ≤ i < s2)%Z) l →
  shape train_label = L :: lrest → s0 * s1 ≤ L → well_formed train_label →
  (1 ≤ n_input)%Z → (1 ≤ n_out)%Z → (0 ≤ n_gap)%Z → (1 ≤ day_increment)%Z →
  (xf = true → (n_input `mod` n_out = 0)%Z) →
  ∃ data dts kept,
    prepare np train (IndexList l) = Some (data, dts)
    ∧ shape data = [s0 * s1; length l] ∧ shape dts = [s0 * s1; kept]
    ∧ to_supervised np train train_label n_input n_out n_gap day_increment
        (IndexList l) yf xf
      = Some (windows_result data dts train_label (s0 * s1)
                n_input n_out n_gap day_increment yf xf)
    ∧ (∀ c, c ∈ emitting_starts (s0 * s1) n_input n_out n_gap day_increment →
         (0 ≤ c)%Z
         ∧ (out_end_of n_input n_out n_gap c ≤ (s0 * s1)%nat)%Z
         ∧ shape (x_window data n_input c) = [Z.to_nat n_input; length l]
         ∧ well_formed (x_window data n_input c)
         ∧ shape (ts_window dts n_input n_out n_gap c) = [Z.to_nat (7 * n_out); kept]
         ∧ well_formed (ts_window dts n_input n_out n_gap c)
         ∧ shape (y_window train_label n_input n_out n_gap c)
           = Z.to_nat (7 * n_out) :: lrest
         ∧ well_formed (y_window train_label n_input n_out n_gap c))
    ∧ (∀ k : nat,
         k < trip_count (s0 * s1) n_out n_gap →
         ((s0 * s1)%nat < out_end_of n_input n_out n_gap (k * day_increment))%Z →
         (k * day_increment)%Z
           ∉ emitting_starts (s0 * s1) n_input n_out n_gap day_increment).
Proof.
  intros Hs Hl Hlab HL Hwl Hin Hout Hgap Hinc Hx.
  destruct (to_supervised_valid np train train_label n_input n_out n_gap
              day_increment l yf xf s0 s1 s2 L lrest)
    as (data & dts & kept & Hp & Hsd & Hst & Hwd & Hwt & Hres); try done.
  exists data, dts, kept. repeat (split; [done|]). split.
  - intros c Hc. unfold emitting_starts in Hc.
    destruct (cursors_in_range _ _ _ _ _ _ Hinc Hc) as [Hc0 Hg].
    pose proof Hg as Hg'. unfold emit_guard, out_end_of in Hg'.
    split; [done|]. split; [done|].
    split; [by unfold x_window; rewrite row_window_shape, Hsd|].
    split; [eapply row_window_wf; [done|exact Hsd|lia]|].
    split; [by unfold ts_window; rewrite row_window_shape, Hst|].
    split; [eapply row_window_wf; [done|exact Hst|lia]|].
    rewrite (y_window_full _ _ _ _ _ _ _ _ Hlab HL) by (done || lia).
    split; [by rewrite row_window_shape, Hlab|].
    eapply row_window_wf; [done|exact Hlab|lia].
  - intros k Hk Hpast Hin'.
    destruct (cursors_in_range _ _ _ _ _ _ Hinc Hin') as [_ Hg].
    unfold emit_guard in Hg. lia.
Qed.

Lemma C3_emission_guard_witness :
  ∃ data dts,
    prepare numpy_strict demo_train (IndexList [0%Z]) = Some (data, dts)
    ∧ to_supervised numpy_strict demo_train demo_label 7 1 0 7 (IndexList [0%Z])
        false false
      = Some (windows_result data dts demo_label 21 7 1 0 7 false false)
    ∧ (14%Z ∉ emitting_starts 21 7 1 0 7).
Proof.
  destruct (C3_emission_guard numpy_strict demo_train demo_label 7 1 0 7
              [0%Z] false false 3 7 2 21 [])
    as (data & dts & kept & Hp & _ & _ & Hres & _ & Hskip).
  - reflexivity.
  - repeat constructor; cbn; lia.
  - reflexivity.
  - cbn; lia.
  - reflexivity.
  - lia.
  - lia.
  - lia.
  - lia.
  - intros Hf. discriminate Hf.
  - exists data, dts. split; [exact Hp|]. split; [exact Hres|].
    apply (Hskip 2); [vm_compute; lia|vm_compute; reflexivity].
Defined.

(** ** Buffers made of equal blocks *)

Section blocks.

Context {A : Type}.
Implicit Types (bs : list (list A)) (b : list A).

Lemma concat_length_blocks bs (W : nat) :
  Forall (λ b, length b = W) bs → length (concat bs) = length bs * W.
Proof.
  induction 1 as [|b bs Hb _ IH]; [done|].
  cbn. rewrite length_app, Hb, IH. lia.
Qed.

Lemma drop_concat_blocks bs (W i : nat) :
  Forall (λ b, length b = W) bs → drop (i * W) (concat bs) = concat (drop i bs).
Proof.
  intros Hbs. revert i. induction Hbs as [|b bs Hb _ IH]; intros i.
  - cbn [concat]. by rewrite !drop_nil.
  - destruct i as [|i]; [done|].
    cbn [concat drop]. rewrite <- IH.
    replace (S i * W) with (W + i * W) by lia.
    rewrite drop_app_add'; [done|by symmetry].
Qed.

Lemma concat_block_lookup bs (W i : nat) b :
  Forall (λ b, length b = W) bs → bs !! i = Some b →
  take W (drop (i * W) (concat bs)) = b.
Proof.
  intros Hbs Hi. rewrite drop_concat_blocks by done.
  rewrite (drop_S _ _ _ Hi). cbn [concat].
  apply take_app_length'. symmetry.
  by apply (Forall_lookup_1 _ _ _ _ Hbs Hi).
Qed.

Lemma concat_block_sub bs (n w i j : nat) b :
  Forall (λ b, length b = n * w) bs → bs !! i = Some b → j < n →
  take w (drop ((i * n + j) * w) (concat bs)) = take w (drop (j * w) b).
Proof.
  intros Hbs Hi Hj.
  pose proof (Forall_lookup_1 _ _ _ _ Hbs Hi) as Hb. cbn in Hb.
  replace ((i * n + j) * w) with (i * (n * w) + j * w) by lia.
  rewrite <- drop_drop, drop_concat_blocks by done.
  rewrite (drop_S _ _ _ Hi). cbn [concat].
  rewrite drop_app_le by nia.
  apply take_app_le. rewrite length_drop. nia.
Qed.

End blocks.

Lemma rows_of_concat (bs : list (list Z)) (W : nat) :
  Forall (λ b, length b = W) bs → rows_of W (length bs) (concat bs) = bs.
Proof.
  intros Hbs. apply list_eq. intros i. unfold rows_of.
  change (map ?f ?l) with (f <$> l). rewrite list_lookup_fmap.
  destruct (decide (i < length bs)) as [Hi|Hi].
  - rewrite lookup_seq_lt by done. cbn.
    destruct (lookup_lt_is_Some_2 bs i Hi) as [b Hb].
    rewrite Hb. f_equal. by apply concat_block_lookup.
  - rewrite lookup_seq_ge by lia. cbn. symmetry. apply lookup_ge_None. lia.
Qed.

Lemma foldl_vadd_length (w : nat) (rs : list (list Z)) (acc : list Z) :
  length acc = w → Forall (λ r, length r = w) rs →
  length (foldl vadd acc rs) = w.
Proof.
  intros Hacc Hrs. revert acc Hacc.
  induction Hrs as [|r rs Hr _ IH]; intros acc Hacc; [done|].
  cbn. apply IH. unfold vadd. rewrite length_zip_with. lia.
Qed.

Lemma vsum_length (w : nat) (rs : list (list Z)) :
  Forall (λ r, length r = w) rs → length (vsum w rs) = w.
Proof. intros. apply foldl_vadd_length; [by rewrite length_replicate|done]. Qed.

Lemma take_drop_take {A} (l : list A) (w r m : nat) :
  r < m → take w (drop (r * w) (take (m * w) l)) = take w (drop (r * w) l).
Proof.
  intros Hr. rewrite !take_drop_commute, take_take.
  f_equal. f_equal. nia.
Qed.

(** ** Entries of the weekly sums *)

Section chunk_sums_theory.

Variables (a : ndarray) (n m : nat) (rest : list nat).
Hypothesis Hshape : shape a = n * m :: rest.
Hypothesis Hwf : well_formed a.
Hypothesis Hn : 0 < n.

#[local] Abbreviation w := (size_of rest).

Lemma chunk_sums_div : default 0 (len a) / n = m.
Proof.
  unfold len. rewrite Hshape. cbn. rewrite Nat.mul_comm. apply Nat.div_mul. lia.
Qed.

Lemma buf_length : length (buf a) = n * m * w.
Proof. unfold well_formed in Hwf. rewrite Hwf, Hshape. done. Qed.

Lemma part_length (j : nat) :
  j < n → length (take (m * w) (drop (j * (m * w)) (buf a))) = m * w.
Proof.
  intros Hj. rewrite length_take, length_drop, buf_length. nia.
Qed.

Lemma part_rows (j : nat) :
  j < n →
  rows_of w m (take (m * w) (drop (j * (m * w)) (buf a)))
  = map (λ r, take w (drop ((j * m + r) * w) (buf a))) (seq 0 m).
Proof.
  intros Hj. unfold rows_of. apply map_ext_in. intros r Hr%in_seq.
  rewrite take_drop_take by lia. rewrite drop_drop. do 2 f_equal. lia.
Qed.

Lemma part_rows_length (j : nat) :
  j < n →
  Forall (λ r, length r = w) (rows_of w m (take (m * w) (drop (j * (m * w)) (buf a)))).
Proof.
  intros Hj. rewrite part_rows by done. apply Forall_forall.
  intros r (k & -> & Hk%elem_of_seq)%list_elem_of_fmap.
  rewrite length_take, length_drop, buf_length.
  assert (j * m + k + 1 ≤ n * m) by nia.
  assert ((j * m + k) * w + w ≤ n * m * w) by nia.
  lia.
Qed.

(** Under exact division the buffer of [chunk_sums] is the list of the
    [n] sums, each over [m] consecutive rows. *)
Lemma chunk_sums_buf :
  buf (chunk_sums a n)
  = concat (map (λ j, vsum w (map (λ r, take w (drop ((j * m + r) * w) (buf a)))
                                  (seq 0 m)))
                (seq 0 n)).
Proof.
  unfold chunk_sums. rewrite chunk_sums_div, Hshape. cbn [tail buf].
  set (parts := map _ (seq 0 n)).
  assert (Hparts : Forall (λ b, length b = m * w) parts).
  { apply Forall_forall. intros b (j & -> & Hj%elem_of_seq)%list_elem_of_fmap.
    apply part_length. lia. }
  assert (Hlen : length parts = n) by (unfold parts; by rewrite length_map, length_seq).
  rewrite <- Hlen at 1. rewrite (rows_of_concat _ _ Hparts).
  unfold parts. rewrite map_map. f_equal.
  apply map_ext_in. intros j Hj%in_seq. by rewrite part_rows by lia.
Qed.

Lemma chunk_sums_wf : well_formed (chunk_sums a n).
Proof.
  unfold well_formed. rewrite chunk_sums_buf, chunk_sums_shape, Hshape.
  cbn [tail size_of foldr]. rewrite (concat_length_blocks _ w).
  - by rewrite length_map, length_seq.
  - apply Forall_forall. intros b (j & -> & Hj%elem_of_seq)%list_elem_of_fmap.
    apply vsum_length. rewrite <- part_rows by lia. apply part_rows_length. lia.
Qed.

Lemma chunk_sums_entry (j : nat) :
  j < n →
  take w (drop (j * w) (buf (chunk_sums a n)))
  = vsum w (map (λ r, take w (drop ((j * m + r) * w) (buf a))) (seq 0 m)).
Proof.
  intros Hj. rewrite chunk_sums_buf. apply concat_block_lookup.
  - apply Forall_forall. intros b (k & -> & Hk%elem_of_seq)%list_elem_of_fmap.
    apply vsum_length. rewrite <- part_rows by lia. apply part_rows_length. lia.
  - change (map ?f ?l) with (f <$> l) at 1. rewrite list_lookup_fmap.
    by rewrite lookup_seq_lt.
Qed.

End chunk_sums_theory.

(** Entry [(i, j)] of a stack of well-formed arrays of one shape. *)
Lemma stack_entry2 (wins : list ndarray) (N : nat) (rest : list nat) (i j : nat) a :
  Forall (λ b, shape b = N :: rest ∧ well_formed b) wins →
  wins !! i = Some a → j < N →
  entry2 (stack wins) i j = take (size_of rest) (drop (j * size_of rest) (buf a)).
Proof.
  intros Hw Hi Hj. unfold entry2.
  assert (Hne : wins ≠ []) by (intros ->; done).
  rewrite (stack_shape_cons wins (N :: rest)), stack_buf; [|done|].
  2:{ eapply Forall_impl; [exact Hw|]. by intros b [? _]. }
  cbn [nth drop].
  apply (concat_block_sub _ N).
  - apply Forall_forall. intros b (c & -> & Hc)%list_elem_of_fmap.
    destruct (proj1 (Forall_forall _ _) Hw c Hc) as [Hsc Hwc].
    unfold well_formed in Hwc. rewrite Hwc, Hsc. done.
  - change (map ?f ?l) with (f <$> l). by rewrite list_lookup_fmap, Hi.
  - done.
Qed.

(** Week [j] of sample [i] in the stacked weekly sums is the sum of rows
    [j*m .. j*m + m - 1] of sample [i] in the stacked windows. *)
Lemma stacked_chunk_sums_entry (wins : list ndarray) (n m : nat) (rest : list nat)
    (i j : nat) :
  Forall (λ b, shape b = n * m :: rest ∧ well_formed b) wins →
  i < length wins → j < n →
  entry2 (stack (map (λ b, chunk_sums b n) wins)) i j
  = vsum (size_of rest)
      (map (λ r, entry2 (stack wins) i (j * m + r)) (seq 0 m)).
Proof.
  intros Hw Hi Hj.
  destruct (lookup_lt_is_Some_2 wins i Hi) as [a Ha].
  destruct (proj1 (Forall_forall _ _) Hw a) as [Hsa Hwa];
    [by eapply list_elem_of_lookup_2|].
  rewrite (stack_entry2 _ n rest i j (chunk_sums a n)); [| |by rewrite list_lookup_fmap, Ha|done].
  2:{ apply Forall_forall. intros b (c & -> & Hc)%list_elem_of_fmap.
      destruct (proj1 (Forall_forall _ _) Hw c Hc) as [Hsc Hwc].
      split; [by rewrite chunk_sums_shape, Hsc|].
      eapply chunk_sums_wf; [exact Hsc|done|lia]. }
  rewrite (chunk_sums_entry a n m rest Hsa Hwa) by lia.
  f_equal. apply map_ext_in. intros r Hr%in_seq.
  symmetry. apply (stack_entry2 _ (n * m) rest); [done|done|nia].
Qed.

(** An inexact input split fails the call at the first emitted sample,
    whatever the column index argument and the other flag. *)
Lemma to_supervised_inexact_split np train train_label n_input n_out n_gap
    day_increment idx yf total :
  (1 ≤ n_input)%Z → (1 ≤ n_out)%Z → (0 ≤ n_gap)%Z → (1 ≤ day_increment)%Z →
  total_time_steps train = Some total →
  1 ≤ sample_count total n_input n_out n_gap day_increment →
  (n_input `mod` n_out ≠ 0)%Z →
  to_supervised np train train_label n_input n_out n_gap day_increment idx yf true
  = None.
Proof.
  intros Hin Hout Hgap Hinc Ht Hm Hmod.
  destruct (prepare np train idx) as [[data dts]|] eqn:Hp;
    [|by unfold to_supervised; rewrite Hp].
  destruct (prepare_shape _ _ _ _ _ _ Hp Ht) as (d & rest & Hs).
  rewrite (to_supervised_traverse _ _ _ _ _ _ _ _ _ _ _ _ _ _ Hp Hs).
  rewrite emitting_cursors by done.
  destruct (sample_count total n_input n_out n_gap day_increment) as [|m] eqn:Em; [lia|].
  rewrite cursors_S. cbn [mapM].
  rewrite (emit_at_X_indivisible np data dts train_label total n_input n_out n_gap
             yf true ltac:(lia) ltac:(lia) ltac:(lia) d rest 0); try done.
  unfold emit_guard. change 0%Z with (0%nat * day_increment)%Z.
  apply sample_count_spec; [done|]. rewrite Em. lia.
Qed.

Lemma x_windows_wf data (total cols : nat) n_input n_out n_gap inc :
  shape data = [total; cols] → well_formed data →
  (1 ≤ n_input)%Z → (0 ≤ n_out)%Z → (0 ≤ n_gap)%Z → (1 ≤ inc)%Z →
  Forall (λ b, shape b = Z.to_nat n_input :: [cols] ∧ well_formed b)
    (map (x_window data n_input) (emitting_starts total n_input n_out n_gap inc)).
Proof.
  intros Hs Hw Hin Hout Hgap Hinc. apply Forall_forall.
  intros b (c & -> & Hc)%list_elem_of_fmap.
  destruct (cursors_in_range _ _ _ _ _ _ Hinc Hc) as [Hc0 Hg].
  unfold emit_guard, out_end_of in Hg.
  split; [by unfold x_window; rewrite row_window_shape, Hs|].
  eapply row_window_wf; [done|exact Hs|lia].
Qed.

Lemma y_windows_wf train_label (total L : nat) lrest n_input n_out n_gap inc :
  shape train_label = L :: lrest → well_formed train_label → total ≤ L →
  (1 ≤ n_input)%Z → (0 ≤ n_out)%Z → (0 ≤ n_gap)%Z → (1 ≤ inc)%Z →
  Forall (λ b, shape b = Z.to_nat n_out * 7 :: lrest ∧ well_formed b)
    (map (y_window train_label n_input n_out n_gap)
       (emitting_starts total n_input n_out n_gap inc)).
Proof.
  intros Hs Hw HL Hin Hout Hgap Hinc. apply Forall_forall.
  intros b (c & -> & Hc)%list_elem_of_fmap.
  destruct (cursors_in_range _ _ _ _ _ _ Hinc Hc) as [Hc0 Hg].
  rewrite (y_window_full _ _ _ _ _ _ _ _ Hs HL) by (done || lia).
  unfold emit_guard, out_end_of in Hg.
  split.
  - rewrite row_window_shape, Hs. cbn. f_equal. lia.
  - eapply row_window_wf; [done|exact Hs|lia].
Qed.

(** ** What a returning call has computed *)

(** The emission at a cursor, read back from its result. *)
Lemma emit_at_inv np data dts train_label n_input n_out n_gap yf xf c w :
  emit_at np data dts train_label n_input n_out n_gap yf xf c = Some w →
  slice0_all data c (c + n_input) = Some (w_X w)
  ∧ slice0 train_label (c + n_input + 7 * n_gap) (c + n_input + 7 * n_gap + 7 * n_out)
    = Some (w_y w)
  ∧ slice0_all dts (c + n_input + 7 * n_gap) (c + n_input + 7 * n_gap + 7 * n_out)
    = Some (w_ts w)
  ∧ (if yf then a ← weekly_sum np (w_y w) n_out; Some [a] else Some []) = Some (w_yw w)
  ∧ (if xf then a ← weekly_sum np (w_X w) n_out; Some [a] else Some []) = Some (w_xw w).
Proof.
  unfold emit_at. intros Hw.
  destruct (slice0_all data _ _) as [x|]; [|done]. cbn in Hw.
  destruct (slice0 train_label _ _) as [yv|]; [|done]. cbn in Hw.
  destruct (slice0_all dts _ _) as [ts|]; [|done]. cbn in Hw.
  destruct (if yf then _ else _) as [yw|] eqn:Hyw; [|done]. cbn in Hw.
  destruct (if xf then _ else _) as [xw|] eqn:Hxw; [|done]. cbn in Hw.
  injection Hw as <-. done.
Qed.

(** A returning call, step by step: the preamble, the emissions at the
    cursors that pass the guard, and the five stackings. *)
Lemma to_supervised_inv np train train_label n_input n_out n_gap day_increment
    idx yf xf res :
  to_supervised np train train_label n_input n_out n_gap day_increment idx yf xf
  = Some res →
  ∃ data dts total ws,
    prepare np train idx = Some (data, dts)
    ∧ len data = Some total
    ∧ Forall2 (λ c w, emit_at np data dts train_label n_input n_out n_gap yf xf c
                      = Some w)
        (filter (emit_guard total n_input n_out n_gap)
           (cursors 0 day_increment (trip_count total n_out n_gap))) ws
    ∧ np_array np (map w_X ws) = Some (X res)
    ∧ np_array np (concat (map w_xw ws)) = Some (X_weekly res)
    ∧ np_array np (map w_ts ws) = Some (X_timestamp res)
    ∧ np_array np (map w_y ws) = Some (y res)
    ∧ np_array np (concat (map w_yw ws)) = Some (y_weekly res).
Proof.
  unfold to_supervised. intros Hres.
  destruct (prepare np train idx) as [[data dts]|]; [|done].
  cbn [mbind option_bind] in Hres.
  destruct (len data) as [total|] eqn:Hlen; [|done].
  cbn [mbind option_bind] in Hres.
  rewrite loop_emit in Hres. cbn [in_start] in Hres.
  destruct (mapM _ _) as [ws|] eqn:Hws; [|done]. cbn in Hres.
  destruct (np_array np (map w_X ws)) as [rX|] eqn:HX; [|done]. cbn in Hres.
  destruct (np_array np (concat (map w_xw ws))) as [rXw|] eqn:HXw; [|done].
  cbn in Hres.
  destruct (np_array np (map w_ts ws)) as [rXt|] eqn:HXt; [|done]. cbn in Hres.
  destruct (np_array np (map w_y ws)) as [ry|] eqn:Hy; [|done]. cbn in Hres.
  destruct (np_array np (concat (map w_yw ws))) as [ryw|] eqn:Hyw; [|done].
  cbn in Hres.
  injection Hres as <-. exists data, dts, total, ws.
  split; [done|]. split; [done|]. split; [by apply mapM_Some|done].
Qed.

Lemma concat_nil_map {A B} (f : A → list B) (l : list A) :
  Forall (λ x, f x = []) l → concat (map f l) = [].
Proof. induction 1 as [|x l Hx _ IH]; [done|]. cbn. by rewrite Hx, IH. Qed.

(** ** Sums of [int64] entries *)

Lemma wrap64_int64 (z : Z) : int64 (wrap64 z).
Proof.
  unfold int64, wrap64.
  pose proof (Z.mod_pos_bound (z + 9223372036854775808) 18446744073709551616).
  lia.
Qed.

Lemma wrap64_id (z : Z) : int64 z → wrap64 z = z.
Proof. unfold int64, wrap64. intros Hz. rewrite Z.mod_small; lia. Qed.

Lemma wrap64_add_l (a b : Z) : wrap64 (wrap64 a + b) = wrap64 (a + b).
Proof.
  unfold wrap64. f_equal.
  replace ((a + 9223372036854775808) `mod` 18446744073709551616
           - 9223372036854775808 + b + 9223372036854775808)%Z
    with ((a + 9223372036854775808) `mod` 18446744073709551616 + b)%Z by lia.
  rewrite Z.add_mod_idemp_l by lia. f_equal. lia.
Qed.

Lemma wrap64_add_r (a b : Z) : wrap64 (a + wrap64 b) = wrap64 (a + b).
Proof. by rewrite Z.add_comm, wrap64_add_l, Z.add_comm. Qed.

(** Reducing the terms of a sum modulo 2^64 does not change the sum
    modulo 2^64. *)
Lemma wrap64_sum_map {A} (g : A → Z) (l : list A) :
  wrap64 (foldr Z.add 0%Z (map (λ x, wrap64 (g x)) l))
  = wrap64 (foldr Z.add 0%Z (map g l)).
Proof.
  induction l as [|x l IH]; [done|]. cbn [map foldr].
  rewrite wrap64_add_l. rewrite <- wrap64_add_r, IH, wrap64_add_r. done.
Qed.

Lemma int64_nth (l : list Z) (j : nat) : Forall int64 l → int64 (nth j l 0%Z).
Proof.
  intros Hl. destruct (nth_in_or_default j l 0%Z) as [Hin| ->].
  - by apply (proj1 (Forall_forall _ _) Hl), list_elem_of_In.
  - unfold int64. lia.
Qed.

Lemma vadd_nth (u v : list Z) (p : nat) :
  p < length u → p < length v →
  nth p (vadd u v) 0%Z = wrap64 (nth p u 0%Z + nth p v 0%Z).
Proof.
  unfold vadd. revert v p. induction u as [|a u IH]; intros [|b v] [|p] Hu Hv;
    cbn in *; try lia; try done.
  apply IH; lia.
Qed.

Lemma vadd_int64 (u v : list Z) : Forall int64 (vadd u v).
Proof.
  unfold vadd. revert v. induction u as [|a u IH]; intros [|b v]; cbn;
    try constructor; [apply wrap64_int64|apply IH].
Qed.

Lemma foldl_vadd_int64 (rs : list (list Z)) (acc : list Z) :
  Forall int64 acc → Forall int64 (foldl vadd acc rs).
Proof.
  revert acc. induction rs as [|r rs IH]; intros acc Hacc; [done|].
  cbn. apply IH, vadd_int64.
Qed.

Lemma vsum_int64 (w : nat) (rs : list (list Z)) : Forall int64 (vsum w rs).
Proof.
  apply foldl_vadd_int64, Forall_forall.
  intros x [-> _]%elem_of_replicate. unfold int64. lia.
Qed.

(** Entry [p] of a running sum: the exact sum of the entries [p] of the
    rows, reduced modulo 2^64. *)
Lemma foldl_vadd_nth (w p : nat) (rs : list (list Z)) (acc : list Z) :
  length acc = w → Forall (λ r, length r = w) rs → p < w →
  int64 (nth p acc 0%Z) →
  nth p (foldl vadd acc rs) 0%Z
  = wrap64 (nth p acc 0%Z + foldr Z.add 0%Z (map (λ r, nth p r 0%Z) rs)).
Proof.
  intros Hacc Hrs Hp. revert acc Hacc.
  induction Hrs as [|r rs Hr _ IH]; intros acc Hacc Hin.
  - cbn. by rewrite Z.add_0_r, wrap64_id.
  - cbn [foldl map foldr]. rewrite IH.
    + rewrite vadd_nth by lia. rewrite wrap64_add_l. f_equal. lia.
    + unfold vadd. rewrite length_zip_with. lia.
    + rewrite vadd_nth by lia. apply wrap64_int64.
Qed.

Lemma vsum_nth (w p : nat) (rs : list (list Z)) :
  Forall (λ r, length r = w) rs → p < w →
  nth p (vsum w rs) 0%Z = wrap64 (foldr Z.add 0%Z (map (λ r, nth p r 0%Z) rs)).
Proof.
  intros Hrs Hp. unfold vsum.
  assert (Hz : nth p (replicate w 0%Z) 0%Z = 0%Z).
  { apply nth_lookup_Some with (d := 0%Z). by apply lookup_replicate_2. }
  rewrite (foldl_vadd_nth w) by
    (done || by rewrite length_replicate || (rewrite Hz; unfold int64; lia)).
  by rewrite Hz.
Qed.

Lemma stack_entry2_length (wins : list ndarray) (N : nat) (rest : list nat)
    (i j : nat) :
  Forall (λ b, shape b = N :: rest ∧ well_formed b) wins →
  i < length wins → j < N →
  length (entry2 (stack wins) i j) = size_of rest.
Proof.
  intros Hw Hi Hj. destruct (lookup_lt_is_Some_2 wins i Hi) as [a Ha].
  destruct (proj1 (Forall_forall _ _) Hw a) as [Hsa Hwa];
    [by eapply list_elem_of_lookup_2|].
  rewrite (stack_entry2 _ N rest i j a) by done.
  unfold well_formed in Hwa. rewrite Hsa in Hwa. cbn [size_of foldr] in Hwa.
  change (foldr Nat.mul 1 rest) with (size_of rest) in Hwa.
  rewrite length_take, length_drop, Hwa. nia.
Qed.

(** Entry [p] of week [j] of sample [i] in the stacked weekly sums: the
    [int64] sum of the entries [p] of rows [j*m .. j*m + m - 1] of
    sample [i] in the stacked windows. *)
Lemma stacked_chunk_sums_nth (wins : list ndarray) (n m : nat) (rest : list nat)
    (i j p : nat) :
  Forall (λ b, shape b = n * m :: rest ∧ well_formed b) wins →
  i < length wins → j < n → p < size_of rest →
  nth p (entry2 (stack (map (λ b, chunk_sums b n) wins)) i j) 0%Z
  = wrap64 (foldr Z.add 0%Z
              (map (λ r, nth p (entry2 (stack wins) i (j * m + r)) 0%Z) (seq 0 m))).
Proof.
  intros Hw Hi Hj Hp.
  rewrite (stacked_chunk_sums_entry _ _ _ _ _ _ Hw Hi Hj).
  rewrite vsum_nth, map_map; [done| |done].
  apply Forall_forall. intros b (r & -> & Hr%elem_of_seq)%list_elem_of_fmap.
  apply (stack_entry2_length _ (n * m)); [done|done|nia].
Qed.

(** The arrays built from [int64] arrays are [int64] arrays. *)

Lemma row_window_int64 (a : ndarray) (c n : nat) :
  int64_array a → int64_array (row_window a c n).
Proof.
  unfold int64_array, row_window. cbn [buf]. intros Ha.
  by apply Forall_take, Forall_drop.
Qed.

Lemma stack_int64 (wins : list ndarray) :
  Forall int64_array wins → int64_array (stack wins).
Proof.
  intros Hw. unfold int64_array. rewrite stack_buf.
  apply Forall_concat, Forall_fmap. eapply Forall_impl; [exact Hw|]. done.
Qed.

Lemma chunk_sums_int64 (a : ndarray) (n : nat) : int64_array (chunk_sums a n).
Proof.
  unfold int64_array, chunk_sums. cbn [buf].
  apply Forall_concat, Forall_forall.
  intros b (blk & -> & _)%list_elem_of_fmap. apply vsum_int64.
Qed.

Lemma columns_int64 (cols : list nat) (c t : nat) (l : list Z) :
  Forall int64 l → Forall int64 (concat (map (pick cols) (rows_of c t l))).
Proof.
  intros Hl. apply Forall_concat, Forall_forall.
  intros b (row & -> & (k & -> & _)%list_elem_of_fmap)%list_elem_of_fmap.
  unfold pick. apply Forall_forall. intros x (j & -> & _)%list_elem_of_fmap.
  by apply int64_nth, Forall_take, Forall_drop.
Qed.

Lemma prepare_int64 np (train : ndarray) (l : list Z) data dts :
  int64_array train →
  prepare np train (IndexList l) = Some (data, dts) →
  int64_array data ∧ int64_array dts.
Proof.
  unfold prepare. intros Ht Hp.
  destruct (shape train !! 0) as [s0|]; [|done].
  destruct (shape train !! 1) as [s1|]; [|done].
  destruct (shape train !! 2) as [s2|]; [|done].
  cbn [mbind option_bind] in Hp. unfold reshape in Hp.
  destruct (decide _); [|done]. cbn [mbind option_bind] in Hp.
  unfold delete_columns, take_columns in Hp. cbn [shape buf] in Hp.
  destruct (mapM _ l) as [cols|]; [|done]. cbn in Hp.
  injection Hp as <- <-. split; by apply columns_int64.
Qed.

(** C6.  With [x_weekly_aggregation] requested and at least one sample
    emitted: if [n_input] is not a multiple of [n_out] the call fails (the
    split of the input window raises); if it is, the call returns and
    [X_weekly] holds, for sample [i], part [j] and column [p], the sum of
    the entries in column [p] of rows [j*q .. j*q + q - 1] of the input
    window [X[i]], [q = n_input / n_out].  The sum is the one [int64]
    arithmetic gives: the exact sum reduced modulo 2^64, hence the exact
    sum whenever that is an [int64]. *)
Theorem C6_input_split np train train_label n_input n_out n_gap day_increment
    l yf (s0 s1 s2 L : nat) (lrest : list nat) :
  shape train = [s0; s1; s2] → int64_array train →
  Forall (λ i, (- s2 ≤ i < s2)%Z) l →
  shape train_label = L :: lrest → s0 * s1 ≤ L →
  (1 ≤ n_input)%Z → (1 ≤ n_out)%Z → (0 ≤ n_gap)%Z → (1 ≤ day_increment)%Z →
  1 ≤ sample_count (s0 * s1) n_input n_out n_gap day_increment →
  ((n_input `mod` n_out ≠ 0)%Z →
     to_supervised np train train_label n_input n_out n_gap day_increment
       (IndexList l) yf true = None)
  ∧ ((n_input `mod` n_out = 0)%Z →
     ∃ data dts res,
       prepare np train (IndexList l) = Some (data, dts)
       ∧ to_supervised np train train_label n_input n_out n_gap day_increment
           (IndexList l) yf true = Some res
       ∧ X res = stack (map (x_window data n_input)
                   (emitting_starts (s0 * s1) n_input n_out n_gap day_increment))
       ∧ shape (X_weekly res)
         = [sample_count (s0 * s1) n_input n_out n_gap day_increment;
            Z.to_nat n_out; length l]
       ∧ int64_array (X res) ∧ int64_array (X_weekly res)
       ∧ ∀ i j p : nat,
           i < sample_count (s0 * s1) n_input n_out n_gap day_increment →
           j < Z.to_nat n_out → p < length l →
           let chunk :=
             map (λ r, nth p (entry2 (X res) i (j * Z.to_nat (n_input / n_out) + r))
                         0%Z)
               (seq 0 (Z.to_nat (n_input / n_out))) in
           nth p (entry2 (X_weekly res) i j) 0%Z = wrap64 (foldr Z.add 0%Z chunk)
           ∧ (int64 (foldr Z.add 0%Z chunk) →
              nth p (entry2 (X_weekly res) i j) 0%Z = foldr Z.add 0%Z chunk)).
Proof.
  intros Hs Htr Hl Hlab HL Hin Hout Hgap Hinc Hm. split.
  - intros Hmod.
    apply (to_supervised_inexact_split np train train_label n_input n_out n_gap
             day_increment (IndexList l) yf (s0 * s1)); try done.
    unfold total_time_steps. by rewrite Hs.
  - intros Hmod.
    destruct (to_supervised_valid np train train_label n_input n_out n_gap
                day_increment l yf true s0 s1 s2 L lrest)
      as (data & dts & kept & Hp & Hsd & Hst & Hwd & Hwt & Hres); try done.
    destruct (prepare_int64 _ _ _ _ _ Htr Hp) as [Hid _].
    exists data, dts, (windows_result data dts train_label (s0 * s1)
                         n_input n_out n_gap day_increment yf true).
    split; [done|]. split; [done|].
    unfold windows_result; cbn [X X_weekly].
    fold (emitting_starts (s0 * s1) n_input n_out n_gap day_increment).
    split; [done|].
    set (q := Z.to_nat (n_input / n_out)).
    assert (Hq : Z.to_nat n_input = Z.to_nat n_out * q).
    { unfold q. rewrite <- Z2Nat.inj_mul by (try apply Z.div_pos; lia).
      f_equal. apply Z.div_exact in Hmod; lia. }
    pose proof (x_windows_wf data (s0 * s1) (length l) n_input n_out n_gap
                  day_increment Hsd Hwd Hin ltac:(lia) Hgap Hinc) as Hwins.
    rewrite Hq in Hwins.
    split; [|split; [|split]].
    + rewrite (stack_shape_cons _ [Z.to_nat n_out; length l]).
      * rewrite length_map. unfold emitting_starts. by rewrite cursors_length.
      * unfold emitting_starts.
        destruct (sample_count _ _ _ _ _); [lia|]. by rewrite cursors_S.
      * apply Forall_forall. intros b (c & -> & _)%list_elem_of_fmap.
        unfold x_window. by rewrite chunk_sums_shape, row_window_shape, Hsd.
    + apply stack_int64, Forall_forall. intros b (c & -> & _)%list_elem_of_fmap.
      by apply row_window_int64.
    + apply stack_int64, Forall_forall. intros b (c & -> & _)%list_elem_of_fmap.
      apply chunk_sums_int64.
    + intros i j p Hi Hj Hp'.
      match goal with |- ?lhs = wrap64 ?s ∧ _ => assert (E : lhs = wrap64 s) end.
      { rewrite <- (map_map (x_window data n_input)
                      (λ b, chunk_sums b (Z.to_nat n_out))).
        apply (stacked_chunk_sums_nth _ (Z.to_nat n_out) q [length l]);
          [done| |done|cbn; lia].
        rewrite length_map. unfold emitting_starts. by rewrite cursors_length. }
      split; [exact E|]. intros Hfit. by rewrite E, wrap64_id.
Qed.

(** C6 on the demonstration series: [n_input = 7] cannot be split in two,
    [n_input = 6] gives the sums [10 + 11 + 12] and [13 + 14 + 15]; and on
    a series holding 2^62 at every step the sum of three entries wraps
    around to [-2^62], as [int64] addition does. *)
Lemma C6_input_split_witness :
  to_supervised numpy_strict demo_train demo_label 7 2 0 7 (IndexList [0%Z]) false true
  = None
  ∧ (∃ res,
       to_supervised numpy_strict demo_train demo_label 6 2 0 7 (IndexList [0%Z])
         false true = Some res
       ∧ shape (X_weekly res) = [1; 2; 1]
       ∧ nth 0 (entry2 (X_weekly res) 0 0) 0%Z = 33%Z
       ∧ nth 0 (entry2 (X_weekly res) 0 1) 0%Z = 42%Z)
  ∧ ∃ res,
      to_supervised numpy_strict large_train demo_label 6 2 0 7 (IndexList [0%Z])
        false true = Some res
      ∧ nth 0 (entry2 (X_weekly res) 0 0) 0%Z = (-4611686018427387904)%Z.
Proof.
  assert (Hdemo : int64_array demo_train).
  { unfold int64_array, int64. apply Forall_forall.
    intros x Hx%list_elem_of_In. vm_compute in Hx.
    repeat (destruct Hx as [<-|Hx]; [lia|]). destruct Hx. }
  assert (Hlarge : int64_array large_train).
  { unfold int64_array, int64. apply Forall_forall.
    intros x Hx%list_elem_of_In. vm_compute in Hx.
    repeat (destruct Hx as [<-|Hx]; [lia|]). destruct Hx. }
  split; [|split].
  - apply (C6_input_split numpy_strict demo_train demo_label 7 2 0 7 [0%Z] false
             3 7 2 21 []); try (cbn; lia); try reflexivity; try exact Hdemo.
    + repeat constructor; cbn; lia.
    + vm_compute. discriminate.
  - destruct (C6_input_split numpy_strict demo_train demo_label 6 2 0 7 [0%Z] false
                3 7 2 21 []) as [_ Hdiv];
      try (cbn; lia); try reflexivity; try exact Hdemo.
    + repeat constructor; cbn; lia.
    + destruct Hdiv as (data & dts & res & Hp & Hres & HX & Hshape & _ & _ & Hentry);
        [reflexivity|].
      exists res. split; [exact Hres|]. split; [exact Hshape|].
      vm_compute in Hp. injection Hp as <- <-.
      destruct (Hentry 0 0 0) as [E0 _]; [vm_compute; lia|vm_compute; lia|cbn; lia|].
      destruct (Hentry 0 1 0) as [E1 _]; [vm_compute; lia|vm_compute; lia|cbn; lia|].
      rewrite E0, E1, HX. split; vm_compute; reflexivity.
  - destruct (C6_input_split numpy_strict large_train demo_label 6 2 0 7 [0%Z] false
                3 7 2 21 []) as [_ Hdiv];
      try (cbn; lia); try reflexivity; try exact Hlarge.
    + repeat constructor; cbn; lia.
    + destruct Hdiv as (data & dts & res & Hp & Hres & HX & _ & _ & _ & Hentry);
        [reflexivity|].
      exists res. split; [exact Hres|].
      vm_compute in Hp. injection Hp as <- <-.
      destruct (Hentry 0 0 0) as [E0 _]; [vm_compute; lia|vm_compute; lia|cbn; lia|].
      rewrite E0, HX. vm_compute. reflexivity.
Defined.

(** C2 as stated fails when no sample is emitted: one week of data, with
    [y_weekly_aggregation] set, gives a [y_weekly] of shape [(0,)] and not
    [(sample_count, n_out, label_dim) = (0, 1, 1)]. *)
Lemma C2_weekly_output_counterexample :
  ∃ res,
    to_supervised numpy_strict week_train week_label 7 1 0 7 (IndexList [0%Z]) true false
    = Some res
    ∧ shape week_label = [7; 1]
    ∧ sample_count 7 7 1 0 7 = 0
    ∧ shape (y_weekly res) = [0]
    ∧ shape (y_weekly res) ≠ [sample_count 7 7 1 0 7; Z.to_nat 1; 1].
Proof.
  eexists. split; [vm_compute; reflexivity|].
  split; [reflexivity|]. split; [reflexivity|]. split; [reflexivity|].
  cbn. discriminate.
Qed.

(** C2, amended.  With [y_weekly_aggregation] off, every call that
    returns, whatever its input, returns the empty array of shape [(0,)]
    as [y_weekly].  With it on, on valid input with [int64] labels:
    [y_weekly] is again the empty array of shape [(0,)] when no sample is
    emitted, and otherwise has shape
    [(sample_count, n_out, <trailing label axes>)], its entry for sample
    [i], week [j] and label component [p] being the sum of the entries [p]
    of rows [7*j .. 7*j+6] of the output window [y[i]].  The sum is the
    one [int64] arithmetic gives: the exact sum reduced modulo 2^64, hence
    the exact sum whenever that is an [int64]. *)
Theorem C2_weekly_output_amended np train train_label n_input n_out n_gap
    day_increment l xf (s0 s1 s2 L : nat) (lrest : list nat) :
  (∀ idx res,
     to_supervised np train train_label n_input n_out n_gap day_increment
       idx false xf = Some res →
     y_weekly res = empty_array)
  ∧ (shape train = [s0; s1; s2] →
     Forall (λ i, (- s2 ≤ i < s2)%Z) l →
     shape train_label = L :: lrest → s0 * s1 ≤ L →
     well_formed train_label → int64_array train_label →
     (1 ≤ n_input)%Z → (1 ≤ n_out)%Z → (0 ≤ n_gap)%Z → (1 ≤ day_increment)%Z →
     (xf = true → (n_input `mod` n_out = 0)%Z) →
     ∃ res,
       to_supervised np train train_label n_input n_out n_gap day_increment
         (IndexList l) true xf = Some res
       ∧ y res = stack (map (y_window train_label n_input n_out n_gap)
                   (emitting_starts (s0 * s1) n_input n_out n_gap day_increment))
       ∧ (sample_count (s0 * s1) n_input n_out n_gap day_increment = 0 →
          y_weekly res = empty_array)
       ∧ (1 ≤ sample_count (s0 * s1) n_input n_out n_gap day_increment →
          shape (y res)
          = sample_count (s0 * s1) n_input n_out n_gap day_increment
              :: Z.to_nat (7 * n_out) :: lrest
          ∧ shape (y_weekly res)
            = sample_count (s0 * s1) n_input n_out n_gap day_increment
                :: Z.to_nat n_out :: lrest
          ∧ int64_array (y res) ∧ int64_array (y_weekly res)
          ∧ ∀ i j p : nat,
              i < sample_count (s0 * s1) n_input n_out n_gap day_increment →
              j < Z.to_nat n_out → p < size_of lrest →
              let week :=
                map (λ r, nth p (entry2 (y res) i (7 * j + r)) 0%Z) (seq 0 7) in
              nth p (entry2 (y_weekly res) i j) 0%Z = wrap64 (foldr Z.add 0%Z week)
              ∧ (int64 (foldr Z.add 0%Z week) →
                 nth p (entry2 (y_weekly res) i j) 0%Z = foldr Z.add 0%Z week))).
Proof.
  split.
  - intros idx res
      (data & dts & total & ws & _ & _ & Hws & _ & _ & _ & _ & Hyw)%to_supervised_inv.
    rewrite concat_nil_map in Hyw; [by injection Hyw as <-|].
    apply Forall_forall. intros w Hw.
    destruct (proj1 (list_elem_of_lookup _ _) Hw) as [k Hk].
    destruct (Forall2_lookup_r _ _ _ _ _ Hws Hk) as (c & _ & Hc).
    apply emit_at_inv in Hc as (_ & _ & _ & Hy & _). by injection Hy as <-.
  - intros Hs Hl Hlab HL Hwl Hil Hin Hout Hgap Hinc Hx.
    destruct (to_supervised_valid np train train_label n_input n_out n_gap
                day_increment l true xf s0 s1 s2 L lrest)
      as (data & dts & kept & Hp & Hsd & Hst & Hwd & Hwt & Hres); try done.
    exists (windows_result data dts train_label (s0 * s1)
              n_input n_out n_gap day_increment true xf).
    split; [done|].
    unfold windows_result; cbn [y y_weekly].
    fold (emitting_starts (s0 * s1) n_input n_out n_gap day_increment).
    split; [done|].
    pose proof (y_windows_wf train_label (s0 * s1) L lrest n_input n_out n_gap
                  day_increment Hlab Hwl HL Hin ltac:(lia) Hgap Hinc) as Hwins.
    split.
    + intros Hz. unfold emitting_starts. by rewrite Hz.
    + intros Hm.
      assert (Hne : emitting_starts (s0 * s1) n_input n_out n_gap day_increment ≠ []).
      { unfold emitting_starts.
        destruct (sample_count _ _ _ _ _); [lia|]. by rewrite cursors_S. }
      assert (Hlen : length (emitting_starts (s0 * s1) n_input n_out n_gap
                               day_increment)
                     = sample_count (s0 * s1) n_input n_out n_gap day_increment).
      { unfold emitting_starts. by rewrite cursors_length. }
      split; [|split; [|split; [|split]]].
      * rewrite (stack_shape_cons _ (Z.to_nat n_out * 7 :: lrest)).
        -- rewrite length_map, Hlen. do 2 f_equal. lia.
        -- by destruct (emitting_starts _ _ _ _ _).
        -- eapply Forall_impl; [exact Hwins|]. by intros b [? _].
      * rewrite (stack_shape_cons _ (Z.to_nat n_out :: lrest)).
        -- by rewrite length_map, Hlen.
        -- by destruct (emitting_starts _ _ _ _ _).
        -- apply Forall_forall. intros b (c & -> & Hc)%list_elem_of_fmap.
           rewrite chunk_sums_shape.
           destruct (proj1 (Forall_forall _ _) Hwins
                       (y_window train_label n_input n_out n_gap c)) as [-> _];
             [|done].
           by apply list_elem_of_fmap_2.
      * apply stack_int64, Forall_forall. intros b (c & -> & _)%list_elem_of_fmap.
        unfold y_window, clamped_window. by apply row_window_int64.
      * apply stack_int64, Forall_forall. intros b (c & -> & _)%list_elem_of_fmap.
        apply chunk_sums_int64.
      * intros i j p Hi Hj Hp'.
        match goal with |- ?lhs = wrap64 ?s ∧ _ => assert (E : lhs = wrap64 s) end.
        { rewrite <- (map_map (y_window train_label n_input n_out n_gap)
                        (λ b, chunk_sums b (Z.to_nat n_out))).
          rewrite (stacked_chunk_sums_nth _ (Z.to_nat n_out) 7 lrest);
            [|done| |done|done].
          - do 2 f_equal. apply map_ext. intros r. do 2 f_equal. lia.
          - by rewrite length_map, Hlen. }
        split; [exact E|]. intros Hfit. by rewrite E, wrap64_id.
Qed.

Lemma C2_weekly_output_amended_witness :
  (∃ res,
     to_supervised numpy_strict demo_train demo_label 7 1 0 7 (IndexList [0%Z])
       false false = Some res
     ∧ y_weekly res = empty_array)
  ∧ ∃ res,
      to_supervised numpy_strict demo_train demo_label 7 1 0 7 (IndexList [0%Z])
        true false = Some res
      ∧ shape (y_weekly res) = [2; 1]
      ∧ nth 0 (entry2 (y_weekly res) 0 0) 0%Z = 770%Z
      ∧ nth 0 (entry2 (y_weekly res) 1 0) 0%Z = 819%Z.
Proof.
  destruct (C2_weekly_output_amended numpy_strict demo_train demo_label 7 1 0 7
              [0%Z] false 3 7 2 21 []) as [Hoff Hon].
  split.
  - destruct (to_supervised numpy_strict demo_train demo_label 7 1 0 7
                (IndexList [0%Z]) false false) as [res|] eqn:Hrun;
      [|vm_compute in Hrun; discriminate Hrun].
    exists res. split; [reflexivity|]. exact (Hoff _ _ Hrun).
  - destruct Hon as (res & Hres & Hy & _ & Hpos).
    + reflexivity.
    + repeat constructor; cbn; lia.
    + reflexivity.
    + cbn; lia.
    + reflexivity.
    + unfold int64_array, int64. apply Forall_forall.
      intros x Hx%list_elem_of_In. vm_compute in Hx.
      repeat (destruct Hx as [<-|Hx]; [lia|]). destruct Hx.
    + lia.
    + lia.
    + lia.
    + lia.
    + intros Hf. discriminate Hf.
    + exists res. split; [exact Hres|].
      destruct Hpos as (_ & Hshape & _ & _ & Hentry); [vm_compute; lia|].
      split; [exact Hshape|].
      destruct (Hentry 0 0 0) as [E0 _]; [vm_compute; lia|vm_compute; lia|cbn; lia|].
      destruct (Hentry 1 0 0) as [E1 _]; [vm_compute; lia|vm_compute; lia|cbn; lia|].
      rewrite E0, E1, Hy. split; vm_compute; reflexivity.
Defined.

(** ** Labels shorter than the series *)

Lemma y_window_shape train_label (L : nat) lrest n_input n_out n_gap c :
  shape train_label = L :: lrest →
  shape (y_window train_label n_input n_out n_gap c)
  = (Z.to_nat (Z.min (out_end_of n_input n_out n_gap c) L)
     - Z.to_nat (Z.min (c + n_input + 7 * n_gap) L)) :: lrest.
Proof.
  intros Hs. unfold y_window, clamped_window, out_end_of, len.
  rewrite row_window_shape, Hs. done.
Qed.

(** C4 as stated fails: the one emitted sample has [out_end = 14], the
    labels have 10 rows, and the call returns; the output window is the
    three labels that exist. *)
Lemma C4_short_labels_counterexample :
  ∃ res,
    to_supervised numpy_strict fortnight_train ten_labels 7 1 0 7 (IndexList [0%Z])
      false false = Some res
    ∧ total_time_steps fortnight_train = Some 14
    ∧ emitting_starts 14 7 1 0 7 = [0%Z]
    ∧ out_end_of 7 1 0 0 = 14%Z
    ∧ len ten_labels = Some 10
    ∧ y res = NdArray [1; 3] [107; 108; 109]%Z.
Proof.
  eexists. split; [vm_compute; reflexivity|].
  repeat split; reflexivity.
Qed.

(** A list [np.array] accepts, when it rejects ragged lists, holds
    arrays of one shape. *)
Lemma np_array_same_shape np (ws : list ndarray) (b : ndarray) :
  (∀ ws', array_ragged np ws' = None) →
  np_array np ws = Some b →
  ∀ a1 a2, a1 ∈ ws → a2 ∈ ws → shape a1 = shape a2.
Proof.
  intros Hrag Hb. destruct ws as [|a ws']; [by intros a1 a2 ?%elem_of_nil|].
  unfold np_array in Hb. destruct (decide _) as [HF|]; [|by rewrite Hrag in Hb].
  assert (Hall : ∀ x, x ∈ a :: ws' → shape x = shape a).
  { intros x [->|Hx]%elem_of_cons; [done|].
    by apply (proj1 (Forall_forall _ _) HF x). }
  intros a1 a2 H1 H2. by rewrite (Hall a1 H1), (Hall a2 H2).
Qed.

(** The label windows of a returning call: the clamped windows at the
    emitting cursors, each split in weeks when the flag asks for it. *)
Lemma to_supervised_labels_inv np train train_label n_input n_out n_gap
    day_increment l yf xf (s0 s1 s2 L : nat) (lrest : list nat) res :
  shape train = [s0; s1; s2] →
  Forall (λ i, (- s2 ≤ i < s2)%Z) l →
  shape train_label = L :: lrest →
  (1 ≤ n_input)%Z → (1 ≤ n_out)%Z → (0 ≤ n_gap)%Z → (1 ≤ day_increment)%Z →
  to_supervised np train train_label n_input n_out n_gap day_increment
    (IndexList l) yf xf = Some res →
  np_array np (map (y_window train_label n_input n_out n_gap)
                 (emitting_starts (s0 * s1) n_input n_out n_gap day_increment))
  = Some (y res)
  ∧ (yf = true →
     ∀ c, c ∈ emitting_starts (s0 * s1) n_input n_out n_gap day_increment →
          is_Some (weekly_sum np (y_window train_label n_input n_out n_gap c) n_out)).
Proof.
  intros Hs Hl Hlab Hin Hout Hgap Hinc
    (data & dts & total & ws & Hp & Hlen & Hws & _ & _ & _ & Hy & _)%to_supervised_inv.
  destruct (prepare_valid np train s0 s1 s2 l Hs Hl)
    as (data' & dts' & kept & Hp' & Hsd & _).
  rewrite Hp in Hp'. injection Hp' as <- <-.
  unfold len in Hlen. rewrite Hsd in Hlen. injection Hlen as <-.
  rewrite emitting_cursors in Hws by done.
  fold (emitting_starts (s0 * s1) n_input n_out n_gap day_increment) in Hws.
  assert (Hwin : ∀ c w,
            c ∈ emitting_starts (s0 * s1) n_input n_out n_gap day_increment →
            emit_at np data dts train_label n_input n_out n_gap yf xf c = Some w →
            w_y w = y_window train_label n_input n_out n_gap c
            ∧ (yf = true → is_Some (weekly_sum np (w_y w) n_out))).
  { intros c w Hc Hw. apply emit_at_inv in Hw as (_ & Hyv & _ & Hyw & _).
    destruct (cursors_in_range _ _ _ _ _ _ Hinc Hc) as [Hc0 _].
    rewrite slice0_clamped in Hyv; [|by rewrite Hlab|lia|lia].
    injection Hyv as Hyv'. split; [by rewrite <- Hyv'|]. intros ->.
    cbn in Hyw. destruct (weekly_sum np (w_y w) n_out); [by eexists|done]. }
  split.
  - rewrite <- Hy. f_equal. symmetry.
    eapply Forall2_map_eq; [exact Hws|]. intros c w Hc Hw.
    by destruct (Hwin c w Hc Hw).
  - intros Hyf c Hc.
    destruct (proj1 (list_elem_of_lookup _ _) Hc) as [k Hk].
    destruct (Forall2_lookup_l _ _ _ _ _ Hws Hk) as (w & _ & Hw).
    destruct (Hwin c w Hc Hw) as [<- Hsum]. by apply Hsum.
Qed.

(** C4, amended.  Labels with fewer rows than the [out_end] of an emitted
    sample are not detected by the slice: [train_label[out_start:out_end]]
    is clamped, so the output window at cursor [c] is the existing part of
    rows [out_start .. out_end-1], with
    [min(out_end, L) - min(out_start, L)] rows, fewer than [7 * n_out] at
    the cursor whose [out_end] is past the labels.  What the call does
    then depends on these row counts.  If all emitted samples have one row
    count [r] (which happens only with a single sample, or with [r = 0]),
    and the weekly split of [r] rows is exact when requested, the call
    returns, with [y] the stack of the shortened windows.  If two emitted
    samples have different row counts, the call fails when [np.array]
    rejects ragged lists.  If [y_weekly_aggregation] is set and some row
    count is not a multiple of [n_out], the call fails. *)
Theorem C4_short_labels_amended np train train_label n_input n_out n_gap
    day_increment l yf xf (s0 s1 s2 L : nat) (lrest : list nat) (c_short : Z) :
  shape train = [s0; s1; s2] →
  Forall (λ i, (- s2 ≤ i < s2)%Z) l →
  shape train_label = L :: lrest →
  (1 ≤ n_input)%Z → (1 ≤ n_out)%Z → (0 ≤ n_gap)%Z → (1 ≤ day_increment)%Z →
  (xf = true → (n_input `mod` n_out = 0)%Z) →
  c_short ∈ emitting_starts (s0 * s1) n_input n_out n_gap day_increment →
  (L < out_end_of n_input n_out n_gap c_short)%Z →
  (∀ c, c ∈ emitting_starts (s0 * s1) n_input n_out n_gap day_increment →
     slice0 train_label (c + n_input + 7 * n_gap) (out_end_of n_input n_out n_gap c)
     = Some (y_window train_label n_input n_out n_gap c)
     ∧ shape (y_window train_label n_input n_out n_gap c)
       = label_rows L n_input n_out n_gap c :: lrest)
  ∧ label_rows L n_input n_out n_gap c_short < Z.to_nat (7 * n_out)
  ∧ (∀ r : nat,
       (∀ c, c ∈ emitting_starts (s0 * s1) n_input n_out n_gap day_increment →
             label_rows L n_input n_out n_gap c = r) →
       (yf = true → (r `mod` n_out = 0)%Z) →
       (sample_count (s0 * s1) n_input n_out n_gap day_increment = 1 ∨ r = 0)
       ∧ ∃ res,
           to_supervised np train train_label n_input n_out n_gap day_increment
             (IndexList l) yf xf = Some res
           ∧ y res = stack (map (y_window train_label n_input n_out n_gap)
                       (emitting_starts (s0 * s1) n_input n_out n_gap day_increment))
           ∧ shape (y res)
             = sample_count (s0 * s1) n_input n_out n_gap day_increment
                 :: r :: lrest)
  ∧ (∀ c1 c2,
       c1 ∈ emitting_starts (s0 * s1) n_input n_out n_gap day_increment →
       c2 ∈ emitting_starts (s0 * s1) n_input n_out n_gap day_increment →
       label_rows L n_input n_out n_gap c1 ≠ label_rows L n_input n_out n_gap c2 →
       (∀ ws, array_ragged np ws = None) →
       to_supervised np train train_label n_input n_out n_gap day_increment
         (IndexList l) yf xf = None)
  ∧ (yf = true →
     ∀ c, c ∈ emitting_starts (s0 * s1) n_input n_out n_gap day_increment →
          (label_rows L n_input n_out n_gap c `mod` n_out ≠ 0)%Z →
          to_supervised np train train_label n_input n_out n_gap day_increment
            (IndexList l) yf xf = None).
Proof.
  intros Hs Hl Hlab Hin Hout Hgap Hinc Hx Hshort HL.
  assert (Hshape : ∀ c,
            shape (y_window train_label n_input n_out n_gap c)
            = label_rows L n_input n_out n_gap c :: lrest).
  { intros c. by rewrite (y_window_shape _ _ _ _ _ _ _ Hlab). }
  assert (Hpos : ∀ c,
            c ∈ emitting_starts (s0 * s1) n_input n_out n_gap day_increment →
            (0 ≤ c)%Z).
  { intros c Hc. by destruct (cursors_in_range _ _ _ _ _ _ Hinc Hc). }
  split; [|split; [|split; [|split]]].
  - intros c Hc. split; [|done]. pose proof (Hpos c Hc).
    unfold y_window, out_end_of.
    rewrite slice0_clamped; [done|by rewrite Hlab|lia|lia].
  - pose proof (Hpos _ Hshort). unfold label_rows, out_end_of in *. lia.
  - intros r Hr Hy.
    pose proof Hshort as Hk. unfold emitting_starts, cursors in Hk.
    apply list_elem_of_fmap in Hk as (k & Hk & Hkn%elem_of_seq).
    split.
    + destruct (decide (sample_count (s0 * s1) n_input n_out n_gap day_increment = 1))
        as [|Hmany]; [by left|right].
      set (k' := if decide (k = 0) then 1 else 0).
      assert (Hother : (0 + k' * day_increment)%Z
                       ∈ emitting_starts (s0 * s1) n_input n_out n_gap day_increment).
      { unfold emitting_starts, cursors.
        apply (list_elem_of_fmap_2 (λ k : nat, (0 + k * day_increment)%Z)).
        apply elem_of_seq. unfold k'. destruct (decide (k = 0)); lia. }
      pose proof (Hr _ Hother) as Ho. pose proof (Hr _ Hshort) as Hsh.
      assert (Hdiff : (c_short = 0 ∧ 1 ≤ 0 + k' * day_increment)%Z
                      ∨ (0 + k' * day_increment = 0 ∧ 1 ≤ c_short)%Z).
      { unfold k'. destruct (decide (k = 0)) as [->|Hk0]; [left; lia|right].
        split; [lia|]. nia. }
      revert Ho Hsh Hdiff HL. generalize (0 + k' * day_increment)%Z.
      intros c' Ho Hsh Hdiff HL. unfold label_rows, out_end_of in *. lia.
    + assert (Hy_shape : ∀ c,
                c ∈ cursors 0 day_increment
                      (sample_count (s0 * s1) n_input n_out n_gap day_increment) →
                shape (y_window train_label n_input n_out n_gap c) = r :: lrest).
      { intros c Hc. by rewrite Hshape, (Hr c Hc). }
      destruct (to_supervised_valid_gen np train train_label n_input n_out n_gap
                  day_increment l yf xf s0 s1 s2 L r lrest)
        as (data & dts & kept & Hp & Hsd & Hst & Hwd & Hwt & Hres); try done.
      eexists. split; [exact Hres|]. unfold windows_result; cbn [y].
      fold (emitting_starts (s0 * s1) n_input n_out n_gap day_increment).
      split; [done|].
      rewrite (stack_shape_cons _ (r :: lrest)).
      * rewrite length_map. unfold emitting_starts. by rewrite cursors_length.
      * intros Hnil. apply (f_equal length) in Hnil.
        rewrite length_map in Hnil. unfold emitting_starts in Hnil.
        rewrite cursors_length in Hnil. cbn in Hnil. lia.
      * apply Forall_forall. intros b (c & -> & Hc)%list_elem_of_fmap.
        by apply Hy_shape.
  - intros c1 c2 Hc1 Hc2 Hne Hrag.
    destruct (to_supervised np train train_label n_input n_out n_gap day_increment
                (IndexList l) yf xf) as [res|] eqn:Hrun; [exfalso|done].
    destruct (to_supervised_labels_inv _ _ _ _ _ _ _ _ _ _ _ _ _ _ _ _
                Hs Hl Hlab Hin Hout Hgap Hinc Hrun) as [Hy _].
    apply Hne.
    pose proof (np_array_same_shape np _ _ Hrag Hy
                  (y_window train_label n_input n_out n_gap c1)
                  (y_window train_label n_input n_out n_gap c2)
                  (list_elem_of_fmap_2 _ _ _ Hc1) (list_elem_of_fmap_2 _ _ _ Hc2)) as E.
    rewrite !Hshape in E. by injection E.
  - intros Hyf c Hc Hmod.
    destruct (to_supervised np train train_label n_input n_out n_gap day_increment
                (IndexList l) yf xf) as [res|] eqn:Hrun; [exfalso|done].
    destruct (to_supervised_labels_inv _ _ _ _ _ _ _ _ _ _ _ _ _ _ _ _
                Hs Hl Hlab Hin Hout Hgap Hinc Hrun) as [_ Hsum].
    destruct (Hsum Hyf c Hc) as [a Ha].
    by rewrite (weekly_sum_indivisible np _ _ lrest n_out (Hshape c) Hmod) in Ha.
Qed.

Lemma C4_short_labels_amended_witness :
  (∃ res,
     to_supervised numpy_strict fortnight_train ten_labels 7 1 0 7 (IndexList [0%Z])
       false false = Some res
     ∧ shape (y res) = [1; 3])
  ∧ to_supervised numpy_strict demo_train seventeen_labels 7 1 0 7 (IndexList [0%Z])
      false false = None.
Proof.
  split.
  - destruct (C4_short_labels_amended numpy_strict fortnight_train ten_labels 7 1 0 7
                [0%Z] false false 2 7 2 10 [] 0%Z)
      as (_ & _ & Hret & _ & _).
    + reflexivity.
    + repeat constructor; cbn; lia.
    + reflexivity.
    + lia.
    + lia.
    + lia.
    + lia.
    + intros Hf. discriminate Hf.
    + vm_compute. left.
    + vm_compute. reflexivity.
    + destruct (Hret 3) as (_ & res & Hres & _ & Hshape).
      * intros c Hc. vm_compute in Hc.
        apply list_elem_of_singleton in Hc. subst c. reflexivity.
      * intros Hf. discriminate Hf.
      * exists res. split; [exact Hres|exact Hshape].
  - destruct (C4_short_labels_amended numpy_strict demo_train seventeen_labels 7 1 0 7
                [0%Z] false false 3 7 2 17 [] 7%Z)
      as (_ & _ & _ & Hragged & _).
    + reflexivity.
    + repeat constructor; cbn; lia.
    + reflexivity.
    + lia.
    + lia.
    + lia.
    + lia.
    + intros Hf. discriminate Hf.
    + vm_compute. right. left.
    + vm_compute. reflexivity.
    + apply (Hragged 0%Z 7%Z).
      * vm_compute. left.
      * vm_compute. right. left.
      * vm_compute. lia.
      * reflexivity.
Defined.


(** ** The default column index *)

Lemma prepare_default np train (s0 s1 s2 : nat) data dts :
  shape train = [s0; s1; s2] →
  prepare np train IndexNone = Some (data, dts) →
  data = NdArray [s0 * s1; 1; s2] (buf train)
  ∧ delete_none np (NdArray [s0 * s1; s2] (buf train)) = Some dts.
Proof.
  intros Hs. unfold prepare. rewrite Hs. cbn [lookup list_lookup mbind option_bind].
  rewrite (reshape_flat _ _ _ _ Hs). cbn [mbind option_bind].
  destruct (delete_none np _) as [d|]; [|done]. cbn.
  intros [= <- <-]. done.
Qed.

(** C9.  With the default [numerical_columns_index = None] and a 3-d
    series, line 70 selects no columns: the "numeric" matrix is the whole
    flattened series under an inserted unit axis, shape
    [(total_time_steps, 1, raw columns)].  Hence: if [np.delete] rejects
    [None] the call fails there; and any result the call does return has
    input windows with the extra axis, [X] of shape
    [(sample_count, n_input, 1, raw columns)].  With a NumPy whose
    [np.delete] rejects [None] the default argument always fails. *)
Theorem C9_default_index np train train_label n_input n_out n_gap day_increment
    yf xf (s0 s1 s2 : nat) :
  shape train = [s0; s1; s2] →
  (1 ≤ n_input)%Z → (1 ≤ n_out)%Z → (0 ≤ n_gap)%Z → (1 ≤ day_increment)%Z →
  (∀ data dts,
     prepare np train default_numerical_columns_index = Some (data, dts) →
     data = NdArray [s0 * s1; 1; s2] (buf train))
  ∧ (delete_none np (NdArray [s0 * s1; s2] (buf train)) = None →
     to_supervised np train train_label n_input n_out n_gap day_increment
       default_numerical_columns_index yf xf = None)
  ∧ (∀ res,
       to_supervised np train train_label n_input n_out n_gap day_increment
         default_numerical_columns_index yf xf = Some res →
       X res
       = stack (map (x_window (NdArray [s0 * s1; 1; s2] (buf train)) n_input)
                  (emitting_starts (s0 * s1) n_input n_out n_gap day_increment))
       ∧ (sample_count (s0 * s1) n_input n_out n_gap day_increment = 0 →
          shape (X res) = [0])
       ∧ (1 ≤ sample_count (s0 * s1) n_input n_out n_gap day_increment →
          shape (X res)
          = [sample_count (s0 * s1) n_input n_out n_gap day_increment;
             Z.to_nat n_input; 1; s2]))
  ∧ to_supervised numpy_strict train train_label n_input n_out n_gap day_increment
      default_numerical_columns_index yf xf = None.
Proof.
  intros Hs Hin Hout Hgap Hinc. unfold default_numerical_columns_index.
  assert (Hfail : ∀ np', delete_none np' (NdArray [s0 * s1; s2] (buf train)) = None →
            to_supervised np' train train_label n_input n_out n_gap day_increment
              IndexNone yf xf = None).
  { intros np' Hd. unfold to_supervised, prepare. rewrite Hs.
    cbn [lookup list_lookup mbind option_bind].
    rewrite (reshape_flat _ _ _ _ Hs). cbn [mbind option_bind]. by rewrite Hd. }
  split; [|split; [|split]].
  - intros data dts Hp. by destruct (prepare_default _ _ _ _ _ _ _ Hs Hp).
  - apply Hfail.
  - intros res Hres.
    destruct (to_supervised_X_inv np train train_label n_input n_out n_gap
                day_increment IndexNone yf xf (s0 * s1) res)
      as (data & dts & Hp & HX); try done; try lia.
    { unfold total_time_steps. by rewrite Hs. }
    destruct (prepare_default _ _ _ _ _ _ _ Hs Hp) as [-> _].
    fold (emitting_starts (s0 * s1) n_input n_out n_gap day_increment) in HX.
    split; [done|]. rewrite HX. split.
    + intros Hz. unfold emitting_starts. by rewrite Hz.
    + intros Hm.
      rewrite (stack_shape_cons _ [Z.to_nat n_input; 1; s2]).
      * rewrite length_map. unfold emitting_starts. by rewrite cursors_length.
      * unfold emitting_starts.
        destruct (sample_count _ _ _ _ _); [lia|]. by rewrite cursors_S.
      * apply Forall_forall. by intros b (c & -> & _)%list_elem_of_fmap.
  - by apply Hfail.
Qed.

Lemma C9_default_index_witness :
  to_supervised numpy_strict demo_train demo_label 7 1 0 7
    default_numerical_columns_index false false = None
  ∧ ∃ res,
      to_supervised numpy_lenient demo_train demo_label 7 1 0 7
        default_numerical_columns_index false false = Some res
      ∧ shape (X res) = [2; 7; 1; 2].
Proof.
  split.
  - apply (C9_default_index numpy_strict demo_train demo_label 7 1 0 7 false false
             3 7 2); (reflexivity || lia).
  - destruct (to_supervised numpy_lenient demo_train demo_label 7 1 0 7
                default_numerical_columns_index false false) as [res|] eqn:Hrun;
      [|vm_compute in Hrun; discriminate Hrun].
    exists res. split; [reflexivity|].
    destruct (C9_default_index numpy_lenient demo_train demo_label 7 1 0 7
                false false 3 7 2) as (_ & _ & Hret & _);
      try (reflexivity || lia).
    destruct (Hret res Hrun) as (_ & _ & Hshape).
    apply Hshape. vm_compute. lia.
Defined.

(** ** Computations on the store that only allocate *)

Module MemFacts.

Import Mem.

Lemma extends_ret {A} (x : A) : extends (mret x).
Proof. intros h x' h' [= _ <-]. done. Qed.

Lemma extends_bind {A B} (m : mem A) (k : A → mem B) :
  extends m → (∀ x, extends (k x)) → extends (m ≫= k).
Proof.
  intros Hm Hk h y h'. unfold mbind, mem_bind.
  destruct (m h) as [[x h1]|] eqn:E; [|done].
  intros Hy. etrans; [by eapply Hm|by eapply Hk].
Qed.

Lemma extends_lift {A} (o : option A) : extends (lift o).
Proof. intros h x h'. unfold lift. destruct o; cbn; [|done]. by intros [= _ <-]. Qed.

Lemma extends_load r : extends (load r).
Proof.
  intros h x h'. unfold load. destruct (read h r); cbn; [|done]. by intros [= _ <-].
Qed.

Lemma extends_alloc a : extends (alloc a).
Proof. intros h x h' [= _ <-]. by apply prefix_app_r. Qed.

Lemma extends_load_all rs : extends (load_all rs).
Proof.
  induction rs as [|r rs IH]; cbn [load_all]; [apply extends_ret|].
  apply extends_bind; [apply extends_load|]. intros a.
  apply extends_bind; [exact IH|]. intros l. apply extends_ret.
Qed.

Create HintDb extends discriminated.
#[global] Hint Resolve extends_ret extends_lift extends_load extends_alloc
  extends_load_all : extends.

Ltac solve_extends :=
  repeat first
    [ progress eauto with extends
    | apply extends_bind; [|intros ?]
    | match goal with
      | |- extends (match ?x with _ => _ end) => destruct x
      | |- extends (if ?b then _ else _) => destruct b
      | |- extends (let '(_, _) := ?p in _) => destruct p
      end ].

Lemma extends_copy_with f r : extends (copy_with f r).
Proof. unfold copy_with. solve_extends. Qed.

Lemma extends_np_array_mem np rs : extends (np_array_mem np rs).
Proof. unfold np_array_mem. solve_extends. Qed.

#[global] Hint Resolve extends_copy_with extends_np_array_mem : extends.

Lemma extends_weekly_sum_mem np r n : extends (weekly_sum_mem np r n).
Proof. unfold weekly_sum_mem. solve_extends. Qed.

#[global] Hint Resolve extends_weekly_sum_mem : extends.

Lemma extends_prepare_mem np train idx : extends (prepare_mem np train idx).
Proof. unfold prepare_mem. solve_extends. Qed.

Lemma extends_loop_body_mem np data dts label total n_input n_out n_gap inc yf xf st :
  extends (loop_body_mem np data dts label total n_input n_out n_gap inc yf xf st).
Proof. unfold loop_body_mem. solve_extends. Qed.

Lemma extends_loop_mem np data dts label total n_input n_out n_gap inc yf xf n st :
  extends (loop_mem np data dts label total n_input n_out n_gap inc yf xf n st).
Proof.
  revert st. induction n as [|n IH]; intros st; cbn [loop_mem].
  - apply extends_ret.
  - apply extends_bind; [apply extends_loop_body_mem|]. intros st'. apply IH.
Qed.

#[global] Hint Resolve extends_prepare_mem extends_loop_mem : extends.

Lemma extends_to_supervised_mem np train label n_input n_out n_gap inc idx yf xf :
  extends (to_supervised_mem np train label n_input n_out n_gap inc idx yf xf).
Proof. unfold to_supervised_mem. solve_extends. Qed.

(** A handle denotes the same array in every extension of the store. *)
Lemma read_prefix (h h' : heap) r a :
  h `prefix_of` h' → read h r = Some a → read h' r = Some a.
Proof.
  intros Hp. unfold read. destruct (h !! base r) as [b|] eqn:Hb; [|done].
  by rewrite (prefix_lookup_Some _ _ _ _ Hb Hp).
Qed.

(** The preamble reads the series: its buffer is in the store. *)
Lemma prepare_mem_reads np train idx h x h' :
  prepare_mem np train idx h = Some (x, h') → is_Some (h !! base train).
Proof.
  unfold prepare_mem, mbind, mem_bind, lift, view_reshape. intros Hp.
  destruct (rshape train !! 0) as [s0|]; cbn in Hp; [|done].
  destruct (rshape train !! 1) as [s1|]; cbn in Hp; [|done].
  destruct (rshape train !! 2) as [s2|]; cbn in Hp; [|done].
  destruct (decide _); cbn in Hp; [|done].
  destruct (h !! base train) eqn:Hb; [by eexists|].
  destruct idx; unfold copy_with, mbind, mem_bind, load, read in Hp;
    cbn in Hp; rewrite Hb in Hp; done.
Qed.

(** Writing through a view changes the array it was sliced from: had the
    loop assigned into a window, the argument would have changed. *)
Lemma store_through_view_changes :
  let h := [[1; 2; 3; 4]%Z] in
  let whole := ArrayRef 0 0 [4] in
  ∃ v h', view_slice0 whole 1 3 = Some v
          ∧ store v [0; 0]%Z h = Some (tt, h')
          ∧ read h whole = Some (NdArray [4] [1; 2; 3; 4]%Z)
          ∧ read h' whole = Some (NdArray [4] [1; 0; 0; 4]%Z).
Proof. eexists _, _. repeat split; reflexivity. Qed.

(** *** The computation on the store refines [to_supervised] *)

Lemma bind_inv {A B} (m : mem A) (k : A → mem B) h y h' :
  (m ≫= k) h = Some (y, h') →
  ∃ x h1, m h = Some (x, h1) ∧ k x h1 = Some (y, h').
Proof. unfold mbind, mem_bind. destruct (m h) as [[x h1]|]; [eauto|done]. Qed.

Lemma ret_inv {A} (x : A) h y h' :
  (mret x : mem A) h = Some (y, h') → y = x ∧ h' = h.
Proof. by intros [= -> ->]. Qed.

Lemma lift_inv {A} (o : option A) h x h' :
  lift o h = Some (x, h') → o = Some x ∧ h' = h.
Proof. unfold lift. destruct o; cbn; [by intros [= -> ->]|done]. Qed.

Lemma load_inv r h a h' : load r h = Some (a, h') → read h r = Some a ∧ h' = h.
Proof. unfold load. destruct (read h r); cbn; [by intros [= -> ->]|done]. Qed.

Lemma read_inv h r a :
  read h r = Some a →
  ∃ b, h !! base r = Some b
       ∧ a = NdArray (rshape r) (take (size_of (rshape r)) (drop (offset r) b)).
Proof.
  unfold read. destruct (h !! base r) as [b|]; cbn; [|done].
  intros [= <-]. eauto.
Qed.

Lemma read_shape h r a : read h r = Some a → shape a = rshape r.
Proof. intros (b & _ & ->)%read_inv. done. Qed.

Lemma read_trimmed h r a : read h r = Some a → trimmed a.
Proof.
  intros (b & _ & ->)%read_inv. unfold trimmed. cbn [shape buf].
  rewrite length_take. lia.
Qed.

Lemma alloc_denotes b h r h' :
  trimmed b → alloc b h = Some (r, h') → read h' r = Some b ∧ h `prefix_of` h'.
Proof.
  unfold alloc, trimmed. intros Hb [= <- <-]. split; [|by apply prefix_app_r].
  unfold read. cbn [base offset rshape].
  rewrite lookup_app_r by lia. rewrite Nat.sub_diag. cbn.
  rewrite take_ge by done. by destruct b.
Qed.

Lemma take_drop_take_le {A} (l : list A) (k d N : nat) :
  k + d ≤ N → take k (drop d (take N l)) = take k (drop d l).
Proof. intros. rewrite !take_drop_commute, take_take. do 2 f_equal. lia. Qed.

Lemma slice_bound_le n i : slice_bound n i ≤ n.
Proof. unfold slice_bound. destruct (decide _); lia. Qed.

Lemma view_reshape_denotes h r a s r' :
  read h r = Some a → view_reshape r s = Some r' →
  ∃ a', reshape a s = Some a' ∧ read h r' = Some a'.
Proof.
  intros (b & Hb & ->)%read_inv. unfold view_reshape, reshape. cbn [shape buf].
  destruct (decide _) as [Hs|]; [|done]. intros [= <-].
  eexists. split; [done|]. unfold read. cbn [base offset rshape].
  rewrite Hb. cbn. by rewrite Hs.
Qed.

Lemma view_newaxis1_denotes h r a r' :
  read h r = Some a → view_newaxis1 r = Some r' →
  ∃ a', newaxis1 a = Some a' ∧ read h r' = Some a'.
Proof.
  intros (b & Hb & ->)%read_inv. unfold view_newaxis1, newaxis1. cbn [shape buf].
  destruct (rshape r) as [|t rest]; [done|]. intros [= <-].
  eexists. split; [done|]. unfold read. cbn [base offset rshape].
  rewrite Hb. cbn. by rewrite Nat.add_0_r.
Qed.

Lemma view_slice0_denotes h r a lo hi r' :
  read h r = Some a → view_slice0 r lo hi = Some r' →
  ∃ a', slice0 a lo hi = Some a' ∧ read h r' = Some a'.
Proof.
  intros (b & Hb & ->)%read_inv. unfold view_slice0, slice0. cbn [shape buf].
  destruct (rshape r) as [|n rest]; [done|]. intros [= <-].
  eexists. split; [done|]. unfold read. cbn [base offset rshape].
  rewrite Hb. cbn [mbind option_bind size_of foldr]. do 2 f_equal.
  pose proof (slice_bound_le n lo). pose proof (slice_bound_le n hi).
  rewrite <- drop_drop. symmetry. apply take_drop_take_le.
  set (l := slice_bound n lo) in *. set (u := slice_bound n hi) in *.
  assert (u - l + l ≤ n) by lia.
  change (foldr Nat.mul 1 rest) with (size_of rest). nia.
Qed.

Lemma view_slice0_all_denotes h r a lo hi r' :
  read h r = Some a → view_slice0_all r lo hi = Some r' →
  ∃ a', slice0_all a lo hi = Some a' ∧ read h r' = Some a'.
Proof.
  intros Ha. unfold view_slice0_all, slice0_all, ndim.
  rewrite (read_shape _ _ _ Ha). destruct (decide _); [|done].
  by apply view_slice0_denotes.
Qed.

Lemma view_split_denotes h r a n rs :
  read h r = Some a → view_split r n = Some rs →
  ∃ parts, np_split a n = Some parts
           ∧ Forall2 (λ r' a', read h r' = Some a') rs parts.
Proof.
  intros (b & Hb & ->)%read_inv. unfold view_split, np_split. cbn [shape buf].
  destruct (rshape r) as [|N rest]; [done|].
  destruct (decide (n ≤ 0)%Z); [done|].
  destruct (decide _); [|done]. intros [= <-].
  eexists. split; [done|].
  apply Forall2_fmap, Forall_Forall2_diag, Forall_forall.
  intros j Hj%elem_of_seq. unfold read. cbn [base offset rshape].
  rewrite Hb. cbn [mbind option_bind size_of foldr]. do 2 f_equal.
  change (foldr Nat.mul 1 rest) with (size_of rest).
  rewrite <- drop_drop. symmetry. apply take_drop_take_le.
  set (m := N / Z.to_nat n).
  assert (Z.to_nat n * m ≤ N) by (apply Nat.Div0.mul_div_le).
  assert ((j + 1) * m ≤ N) by nia. nia.
Qed.

(** Buffers of the arrays the value-level operations build. *)

Lemma concat_length_le {A B} (f : A → list B) (l : list A) (w : nat) :
  Forall (λ x, length (f x) ≤ w) l → length (concat (map f l)) ≤ length l * w.
Proof.
  induction 1 as [|x l Hx _ IH]; [done|]. cbn. rewrite length_app. lia.
Qed.

Lemma columns_trimmed (cols : list nat) (t c : nat) (l : list Z) :
  trimmed (NdArray [t; length cols] (concat (map (pick cols) (rows_of c t l)))).
Proof.
  unfold trimmed. cbn [shape buf size_of foldr].
  rewrite (concat_blocks_length _ _ (length cols))
    by (intros; unfold pick; by rewrite length_map).
  rewrite rows_of_length. lia.
Qed.

Lemma take_columns_trimmed a l b : take_columns a l = Some b → trimmed b.
Proof.
  unfold take_columns. destruct (shape a) as [|t [|c [|]]]; try done.
  destruct (mapM _ l) as [cols|]; cbn; [|done].
  intros [= <-]. apply columns_trimmed.
Qed.

Lemma delete_columns_trimmed a l b : delete_columns a l = Some b → trimmed b.
Proof.
  unfold delete_columns. destruct (shape a) as [|t [|c [|]]]; try done.
  destruct (mapM _ l) as [cols|]; cbn; [|done].
  intros [= <-]. apply columns_trimmed.
Qed.

Lemma foldl_vadd_length_le (w : nat) (rs : list (list Z)) (acc : list Z) :
  length acc ≤ w → length (foldl vadd acc rs) ≤ w.
Proof.
  revert acc. induction rs as [|r rs IH]; intros acc Hacc; [done|].
  cbn. apply IH. unfold vadd. rewrite length_zip_with. lia.
Qed.

Lemma sum_axis1_trimmed a b : sum_axis1 a = Some b → trimmed b.
Proof.
  unfold sum_axis1. destruct (shape a) as [|n [|m rest]]; try done.
  intros [= <-]. unfold trimmed. cbn [shape buf size_of foldr].
  change (foldr Nat.mul 1 rest) with (size_of rest).
  etrans; [apply (concat_length_le _ _ (size_of rest))|by rewrite rows_of_length].
  apply Forall_forall. intros blk _. apply foldl_vadd_length_le.
  by rewrite length_replicate.
Qed.

Lemma np_array_trimmed np l b :
  env_trimmed np → Forall trimmed l → np_array np l = Some b → trimmed b.
Proof.
  intros [_ Hr] Hl. unfold np_array.
  destruct l as [|a l']; [intros [= <-]; unfold trimmed; cbn; lia|].
  destruct (decide _) as [Hsh|]; [|by apply Hr].
  intros [= <-]. unfold trimmed. cbn [shape buf size_of foldr].
  change (foldr Nat.mul 1 (shape a)) with (size_of (shape a)).
  etrans; [apply (concat_length_le buf (a :: l') (size_of (shape a)))|done].
  apply Forall_cons in Hl as [Ha Hl']. constructor; [done|].
  apply Forall_forall. intros x Hx.
  pose proof (proj1 (Forall_forall _ _) Hl' x Hx) as Htx.
  pose proof (proj1 (Forall_forall _ _) Hsh x Hx) as Hsx. cbn in Hsx.
  unfold trimmed in Htx. by rewrite <- Hsx.
Qed.

(** Copies and stacks. *)

Lemma copy_with_denotes (f : ndarray → option ndarray) h r a r' h' :
  (∀ b, f a = Some b → trimmed b) →
  read h r = Some a → copy_with f r h = Some (r', h') →
  ∃ b, f a = Some b ∧ read h' r' = Some b ∧ h `prefix_of` h'.
Proof.
  intros Hf Ha Hc. unfold copy_with in Hc.
  apply bind_inv in Hc as (a0 & h1 & Hload & Hc).
  apply load_inv in Hload as [Hread ->].
  apply bind_inv in Hc as (b & h2 & Hlift & Hc).
  apply lift_inv in Hlift as [Hb ->].
  assert (a0 = a) as -> by congruence.
  destruct (alloc_denotes _ _ _ _ (Hf _ Hb) Hc) as [Hr Hp]. eauto.
Qed.

Lemma load_all_denotes h rs l l' h' :
  Forall2 (λ r a, read h r = Some a) rs l →
  load_all rs h = Some (l', h') → l' = l ∧ h' = h.
Proof.
  intros Hrs. revert l' h'. induction Hrs as [|r a rs l Hr _ IH]; intros l' h' Hl.
  - cbn in Hl. by apply ret_inv in Hl.
  - cbn [load_all] in Hl.
    apply bind_inv in Hl as (a0 & h1 & Hload & Hl).
    apply load_inv in Hload as [Hread ->].
    apply bind_inv in Hl as (l0 & h2 & Hrest & Hl).
    destruct (IH _ _ Hrest) as [-> ->].
    apply ret_inv in Hl as [-> ->]. split; [|done]. f_equal. congruence.
Qed.

Lemma np_array_mem_denotes np h rs l r h' :
  env_trimmed np →
  Forall2 (λ r a, read h r = Some a) rs l →
  np_array_mem np rs h = Some (r, h') →
  ∃ b, np_array np l = Some b ∧ read h' r = Some b ∧ h `prefix_of` h'.
Proof.
  intros Hnp Hrs Hc. unfold np_array_mem in Hc.
  apply bind_inv in Hc as (l0 & h1 & Hload & Hc).
  destruct (load_all_denotes _ _ _ _ _ Hrs Hload) as [-> ->].
  apply bind_inv in Hc as (b & h2 & Hlift & Hc).
  apply lift_inv in Hlift as [Hb ->].
  assert (Htl : Forall trimmed l).
  { clear -Hrs. induction Hrs; constructor; [by eapply read_trimmed|done]. }
  destruct (alloc_denotes _ _ _ _ (np_array_trimmed _ _ _ Hnp Htl Hb) Hc)
    as [Hr Hp]. eauto.
Qed.

Lemma Forall2_read_prefix (h h' : heap) rs l :
  h `prefix_of` h' →
  Forall2 (λ r a, read h r = Some a) rs l →
  Forall2 (λ r a, read h' r = Some a) rs l.
Proof.
  intros Hp HF. eapply Forall2_impl; [exact HF|].
  intros r a. by apply read_prefix.
Qed.

Lemma weekly_sum_mem_denotes np h r a n x h' :
  env_trimmed np →
  read h r = Some a → weekly_sum_mem np r n h = Some (x, h') →
  ∃ b, weekly_sum np a n = Some b ∧ read h' x = Some b ∧ h `prefix_of` h'.
Proof.
  intros Hnp Ha Hc. unfold weekly_sum_mem in Hc.
  apply bind_inv in Hc as (rs & h1 & Hlift & Hc).
  apply lift_inv in Hlift as [Hview ->].
  apply bind_inv in Hc as (sr & h2 & Hstack & Hc).
  destruct (view_split_denotes _ _ _ _ _ Ha Hview) as (parts & Hsplit & Hparts).
  destruct (np_array_mem_denotes _ _ _ _ _ _ Hnp Hparts Hstack)
    as (stacked & Hst & Hrst & Hp1).
  destruct (copy_with_denotes sum_axis1 _ _ _ _ _
              (λ b, sum_axis1_trimmed stacked b) Hrst Hc)
    as (b & Hsum & Hrb & Hp2).
  exists b. unfold weekly_sum. rewrite Hsplit. cbn. rewrite Hst. cbn.
  split; [done|]. split; [done|]. by etrans.
Qed.

Lemma prepare_mem_denotes np h train a idx d t h' :
  env_trimmed np →
  read h train = Some a →
  prepare_mem np train idx h = Some ((d, t), h') →
  ∃ da ta, prepare np a idx = Some (da, ta)
           ∧ read h' d = Some da ∧ read h' t = Some ta ∧ h `prefix_of` h'.
Proof.
  intros Hnp Ha Hc. unfold prepare_mem in Hc.
  apply bind_inv in Hc as (s0 & h0 & Hl & Hc). apply lift_inv in Hl as [Hs0 ->].
  apply bind_inv in Hc as (s1 & h0 & Hl & Hc). apply lift_inv in Hl as [Hs1 ->].
  apply bind_inv in Hc as (s2 & h0 & Hl & Hc). apply lift_inv in Hl as [Hs2 ->].
  apply bind_inv in Hc as (fr & h0 & Hl & Hc). apply lift_inv in Hl as [Hfr ->].
  apply bind_inv in Hc as (tr & h1 & Ht & Hc).
  apply bind_inv in Hc as (dr & h2 & Hd & Hc).
  apply ret_inv in Hc as [[= <- <-] ->].
  unfold prepare. rewrite (read_shape _ _ _ Ha). rewrite Hs0, Hs1, Hs2. cbn.
  destruct (view_reshape_denotes _ _ _ _ _ Ha Hfr) as (flat & Hflat & Hrflat).
  rewrite Hflat. cbn.
  destruct idx as [|l].
  - destruct (copy_with_denotes (delete_none np) _ _ _ _ _
                (λ b, proj1 Hnp flat b) Hrflat Ht) as (ta & Hta & Hrt & Hp1).
    rewrite Hta. cbn.
    apply lift_inv in Hd as [Hview ->].
    pose proof (read_prefix _ _ _ _ Hp1 Hrflat) as Hrflat'.
    destruct (view_newaxis1_denotes _ _ _ _ Hrflat' Hview) as (da & Hda & Hrd).
    rewrite Hda. cbn. eauto 10.
  - destruct (copy_with_denotes (λ a, delete_columns a l) _ _ _ _ _
                (λ b, delete_columns_trimmed flat l b) Hrflat Ht)
      as (ta & Hta & Hrt & Hp1).
    rewrite Hta. cbn.
    pose proof (read_prefix _ _ _ _ Hp1 Hrflat) as Hrflat'.
    destruct (copy_with_denotes (λ a, take_columns a l) _ _ _ _ _
                (λ b, take_columns_trimmed flat l b) Hrflat' Hd)
      as (da & Hda & Hrd & Hp2).
    rewrite Hda. cbn.
    exists da, ta. split; [done|]. split; [done|].
    split; [by eapply read_prefix|by etrans].
Qed.

Section loop_refines.

Variable np : numpy_env.
Hypothesis Hnp : env_trimmed np.
Variables (dr tr lr : array_ref) (da ta la : ndarray) (total : nat).
Variables (n_input n_out n_gap day_increment : Z).
Variables (yf xf : bool).

Lemma weekly_flag_denotes (flag : bool) h r a refs l refs' h' :
  read h r = Some a →
  Forall2 (λ r a, read h r = Some a) refs l →
  (if flag then w ← weekly_sum_mem np r n_out; mret (refs ++ [w]) else mret refs) h
  = Some (refs', h') →
  ∃ l', (if flag then w ← weekly_sum np a n_out; Some (l ++ [w]) else Some l) = Some l'
        ∧ Forall2 (λ r a, read h' r = Some a) refs' l'
        ∧ h `prefix_of` h'.
Proof.
  intros Ha Hrefs Hc. destruct flag.
  - apply bind_inv in Hc as (w & h1 & Hw & Hc).
    apply ret_inv in Hc as [-> ->].
    destruct (weekly_sum_mem_denotes _ _ _ _ _ _ _ Hnp Ha Hw) as (b & Hb & Hrb & Hp).
    rewrite Hb. cbn. eexists. split; [done|]. split; [|done].
    apply Forall2_app; [by eapply Forall2_read_prefix|by constructor].
  - apply ret_inv in Hc as [-> ->]. eauto.
Qed.

Lemma loop_body_mem_denotes h sr st sr' h' :
  read h dr = Some da → read h tr = Some ta → read h lr = Some la →
  state_denotes h sr st →
  loop_body_mem np dr tr lr total n_input n_out n_gap day_increment yf xf sr h
  = Some (sr', h') →
  ∃ st',
    loop_body np da ta la total n_input n_out n_gap day_increment yf xf st = Some st'
    ∧ state_denotes h' sr' st' ∧ h `prefix_of` h'.
Proof.
  intros Hda Hta Hla (Hin & HX & Hy & Ht & HXw & Hyw) Hc.
  unfold loop_body_mem in Hc. unfold loop_body. rewrite Hin in Hc.
  apply bind_inv in Hc as (s1 & h1 & Hif & Hc).
  apply ret_inv in Hc as [-> ->].
  destruct (decide _) as [Hg|Hg].
  - apply bind_inv in Hif as (xr & h0 & Hl & Hif). apply lift_inv in Hl as [Hxr ->].
    apply bind_inv in Hif as (yr & h0 & Hl & Hif). apply lift_inv in Hl as [Hyr ->].
    apply bind_inv in Hif as (sr0 & h0 & Hl & Hif). apply lift_inv in Hl as [Htr ->].
    apply bind_inv in Hif as (ywr & h2 & Hywr & Hif).
    apply bind_inv in Hif as (xwr & h3 & Hxwr & Hif).
    apply ret_inv in Hif as [-> ->].
    destruct (view_slice0_all_denotes _ _ _ _ _ _ Hda Hxr) as (x & Hx & Hrx).
    destruct (view_slice0_denotes _ _ _ _ _ _ Hla Hyr) as (yv & Hyv & Hryv).
    destruct (view_slice0_all_denotes _ _ _ _ _ _ Hta Htr) as (ts & Hts & Hrts).
    rewrite Hx. cbn. rewrite Hyv. cbn. rewrite Hts. cbn.
    destruct (weekly_flag_denotes yf _ _ _ _ _ _ _ Hryv Hyw Hywr)
      as (yw & Hyw' & Hryw & Hp1).
    rewrite Hyw'. cbn.
    destruct (weekly_flag_denotes xf _ _ _ _ _ _ _
                (read_prefix _ _ _ _ Hp1 Hrx)
                (Forall2_read_prefix _ _ _ _ Hp1 HXw) Hxwr)
      as (xw & Hxw' & Hrxw & Hp2).
    rewrite Hxw'. cbn.
    pose proof (transitivity Hp1 Hp2) as Hp.
    eexists. split; [done|]. split; [|done].
    unfold state_denotes. cbn. rewrite ?Hin.
    split; [done|].
    split; [apply Forall2_app; [by eapply Forall2_read_prefix|
                                constructor; [by eapply read_prefix|done]]|].
    split; [apply Forall2_app; [by eapply Forall2_read_prefix|
                                constructor; [by eapply read_prefix|done]]|].
    split; [apply Forall2_app; [by eapply Forall2_read_prefix|
                                constructor; [by eapply read_prefix|done]]|].
    split; [done|]. exact (Forall2_read_prefix _ _ _ _ Hp2 Hryw).
  - apply ret_inv in Hif as [-> ->]. cbn.
    eexists. split; [done|]. split; [|done].
    unfold state_denotes. cbn. by rewrite ?Hin.
Qed.

Lemma loop_mem_denotes n h sr st sr' h' :
  read h dr = Some da → read h tr = Some ta → read h lr = Some la →
  state_denotes h sr st →
  loop_mem np dr tr lr total n_input n_out n_gap day_increment yf xf n sr h
  = Some (sr', h') →
  ∃ st',
    loop np da ta la total n_input n_out n_gap day_increment yf xf n st = Some st'
    ∧ state_denotes h' sr' st' ∧ h `prefix_of` h'.
Proof.
  revert h sr st. induction n as [|n IH]; intros h sr st Hda Hta Hla Hst Hc.
  - cbn in Hc. apply ret_inv in Hc as [-> ->]. cbn. eauto.
  - cbn [loop_mem] in Hc. apply bind_inv in Hc as (s1 & h1 & Hbody & Hc).
    destruct (loop_body_mem_denotes _ _ _ _ _ Hda Hta Hla Hst Hbody)
      as (st1 & Hst1 & Hden1 & Hp1).
    destruct (IH h1 s1 st1) as (st' & Hloop & Hden & Hp2);
      [by eapply read_prefix..|done|done|].
    exists st'. cbn [loop]. rewrite Hst1. cbn.
    split; [done|]. split; [done|]. by etrans.
Qed.

End loop_refines.

(** A returning run on the store is a returning run of [to_supervised] on
    the arrays the two arguments denote, and the five handles returned
    denote the five arrays of its result. *)
Lemma to_supervised_mem_refines np h train train_label a b
    n_input n_out n_gap day_increment idx yf xf res h' :
  env_trimmed np →
  read h train = Some a → read h train_label = Some b →
  to_supervised_mem np train train_label n_input n_out n_gap day_increment
    idx yf xf h = Some (res, h') →
  ∃ pres,
    to_supervised np a b n_input n_out n_gap day_increment idx yf xf = Some pres
    ∧ read h' (rX res) = Some (X pres)
    ∧ read h' (rX_weekly res) = Some (X_weekly pres)
    ∧ read h' (rX_timestamp res) = Some (X_timestamp pres)
    ∧ read h' (ry res) = Some (y pres)
    ∧ read h' (ry_weekly res) = Some (y_weekly pres).
Proof.
  intros Hnp Ha Hb Hc. unfold to_supervised_mem in Hc.
  apply bind_inv in Hc as ([d t] & h1 & Hprep & Hc).
  destruct (prepare_mem_denotes _ _ _ _ _ _ _ _ Hnp Ha Hprep)
    as (da & ta & Hpp & Hrd & Hrt & Hp1).
  apply bind_inv in Hc as (total & h0 & Hl & Hc). apply lift_inv in Hl as [Htot ->].
  apply bind_inv in Hc as (sr & h2 & Hloop & Hc).
  assert (Hinit : state_denotes h1 (LoopStateRef 0 [] [] [] [] [])
                    (LoopState 0 [] [] [] [] []))
    by (repeat split; constructor).
  destruct (loop_mem_denotes np Hnp d t train_label da ta b total
              n_input n_out n_gap day_increment yf xf _ _ _ _ _ _ Hrd Hrt
              (read_prefix _ _ _ _ Hp1 Hb) Hinit Hloop)
    as (st & Hst & (_ & HX & Hy & Ht & HXw & Hyw) & Hp2).
  apply bind_inv in Hc as (aX & h3 & HaX & Hc).
  destruct (np_array_mem_denotes _ _ _ _ _ _ Hnp HX HaX) as (vX & HvX & HrX & Hp3).
  apply bind_inv in Hc as (aXw & h4 & HaXw & Hc).
  destruct (np_array_mem_denotes _ _ _ _ _ _ Hnp
              (Forall2_read_prefix _ _ _ _ Hp3 HXw) HaXw)
    as (vXw & HvXw & HrXw & Hp4).
  apply bind_inv in Hc as (aXt & h5 & HaXt & Hc).
  destruct (np_array_mem_denotes _ _ _ _ _ _ Hnp
              (Forall2_read_prefix _ _ _ _ (transitivity Hp3 Hp4) Ht) HaXt)
    as (vXt & HvXt & HrXt & Hp5).
  apply bind_inv in Hc as (ay & h6 & Hay & Hc).
  destruct (np_array_mem_denotes _ _ _ _ _ _ Hnp
              (Forall2_read_prefix _ _ _ _
                 (transitivity Hp3 (transitivity Hp4 Hp5)) Hy) Hay)
    as (vy & Hvy & Hry & Hp6).
  apply bind_inv in Hc as (ayw & h7 & Hayw & Hc).
  destruct (np_array_mem_denotes _ _ _ _ _ _ Hnp
              (Forall2_read_prefix _ _ _ _
                 (transitivity Hp3 (transitivity Hp4 (transitivity Hp5 Hp6))) Hyw)
              Hayw)
    as (vyw & Hvyw & Hryw & Hp7).
  apply ret_inv in Hc as [-> ->].
  exists (Results vX vXw vXt vy vyw).
  unfold to_supervised. rewrite Hpp. cbn [mbind option_bind].
  unfold len. rewrite (read_shape _ _ _ Hrd), Htot. cbn [mbind option_bind].
  rewrite Hst. cbn [mbind option_bind].
  rewrite HvX, HvXw, HvXt, Hvy, Hvyw. cbn.
  split; [done|].
  split; [eapply read_prefix; [|exact HrX]; by repeat (etrans; [eassumption|])|].
  split; [eapply read_prefix; [|exact HrXw]; by repeat (etrans; [eassumption|])|].
  split; [eapply read_prefix; [|exact HrXt]; by repeat (etrans; [eassumption|])|].
  split; [by eapply read_prefix|done].
Qed.

Lemma numpy_strict_trimmed : env_trimmed numpy_strict.
Proof. split; intros ? ? ?; discriminate. Qed.

End MemFacts.

(** On the demonstration input the call on the store returns, and its
    handles denote the arrays the value-level [to_supervised] returns. *)
Example to_supervised_mem_demo :
  ∃ res h' pres,
    Mem.to_supervised_mem numpy_strict demo_train_ref demo_label_ref 7 1 0 7
      (IndexList [0%Z]) true true demo_heap = Some (res, h')
    ∧ to_supervised numpy_strict demo_train demo_label 7 1 0 7
        (IndexList [0%Z]) true true = Some pres
    ∧ Mem.read h' (Mem.rX res) = Some (X pres)
    ∧ Mem.read h' (Mem.rX_weekly res) = Some (X_weekly pres)
    ∧ Mem.read h' (Mem.rX_timestamp res) = Some (X_timestamp pres)
    ∧ Mem.read h' (Mem.ry res) = Some (y pres)
    ∧ Mem.read h' (Mem.ry_weekly res) = Some (y_weekly pres).
Proof.
  destruct (Mem.to_supervised_mem numpy_strict demo_train_ref demo_label_ref 7 1 0 7
              (IndexList [0%Z]) true true demo_heap) as [[res h']|] eqn:Hrun;
    [|vm_compute in Hrun; discriminate Hrun].
  destruct (MemFacts.to_supervised_mem_refines numpy_strict demo_heap
              demo_train_ref demo_label_ref demo_train demo_label 7 1 0 7
              (IndexList [0%Z]) true true res h'
              MemFacts.numpy_strict_trimmed eq_refl eq_refl Hrun)
    as (pres & Hpure & Hreads).
  exists res, h', pres. split; [done|]. split; [exact Hpure|exact Hreads].
Qed.

(** C10.  Whenever the call returns, every buffer that was in the store
    before the call is in it afterwards with the same contents: the store
    has only grown.  In particular [train] denotes the same array after the
    call as before, and so does [train_label] (and any other array of the
    caller). *)
Theorem C10_arguments_unchanged np (h h' : list (list Z))
    (train train_label : Mem.array_ref) n_input n_out n_gap day_increment
    idx yf xf (res : Mem.results_ref) :
  Mem.to_supervised_mem np train train_label n_input n_out n_gap day_increment
    idx yf xf h = Some (res, h') →
  (∀ (i : nat) (b : list Z), h !! i = Some b → h' !! i = Some b)
  ∧ Mem.read h' train = Mem.read h train
  ∧ is_Some (Mem.read h train)
  ∧ (∀ a, Mem.read h train_label = Some a → Mem.read h' train_label = Some a)
  ∧ (∀ r a, Mem.read h r = Some a → Mem.read h' r = Some a).
Proof.
  intros Hres.
  pose proof (MemFacts.extends_to_supervised_mem _ _ _ _ _ _ _ _ _ _ _ _ _ Hres) as Hext.
  assert (Htrain : is_Some (Mem.read h train)).
  { unfold Mem.to_supervised_mem, mbind, Mem.mem_bind in Hres.
    destruct (Mem.prepare_mem np train idx h) as [[x h1]|] eqn:Hp; [|done].
    destruct (MemFacts.prepare_mem_reads _ _ _ _ _ _ Hp) as [b Hb].
    unfold Mem.read. rewrite Hb. by eexists. }
  split; [intros i b Hb; by eapply prefix_lookup_Some|].
  split; [|split; [done|split]].
  - destruct Htrain as [a Ha]. rewrite Ha. by eapply MemFacts.read_prefix.
  - intros a Ha. by eapply MemFacts.read_prefix.
  - intros r a Ha. by eapply MemFacts.read_prefix.
Qed.

Lemma C10_arguments_unchanged_witness :
  ∃ res h',
    Mem.to_supervised_mem numpy_strict demo_train_ref demo_label_ref 7 1 0 7
      (IndexList [0%Z]) true true demo_heap = Some (res, h')
    ∧ Mem.read h' demo_train_ref = Some demo_train
    ∧ Mem.read h' demo_label_ref = Some demo_label.
Proof.
  destruct (Mem.to_supervised_mem numpy_strict demo_train_ref demo_label_ref 7 1 0 7
              (IndexList [0%Z]) true true demo_heap) as [[res h']|] eqn:Hrun;
    [|vm_compute in Hrun; discriminate Hrun].
  exists res, h'. split; [reflexivity|].
  destruct (C10_arguments_unchanged numpy_strict demo_heap h'
              demo_train_ref demo_label_ref 7 1 0 7 (IndexList [0%Z]) true true
              res Hrun) as (_ & Ht & _ & Hl & _).
  split.
  - rewrite Ht. vm_compute. reflexivity.
  - apply Hl. vm_compute. reflexivity.
Defined.

(** * Further properties of [to_supervised] *)

(** ** The numeric and auxiliary matrices, entry by entry *)

Lemma norm_index_valid (c : nat) (i : Z) :
  (- c ≤ i < c)%Z → norm_index c i = Some (Z.to_nat (i `mod` c)).
Proof.
  intros Hi. unfold norm_index.
  destruct (decide (0 ≤ i < c)%Z) as [Hpos|Hneg].
  - by rewrite Z.mod_small.
  - rewrite decide_True by lia. do 2 f_equal.
    rewrite <- (Z.mod_add i 1 c) by lia. rewrite Z.mod_small; lia.
Qed.

Lemma mapM_norm_index_eq (c : nat) (l : list Z) :
  Forall (λ i, (- c ≤ i < c)%Z) l → mapM (norm_index c) l = Some (norm_cols c l).
Proof.
  intros Hl. unfold norm_cols. apply mapM_total.
  eapply Forall_impl; [exact Hl|]. intros i Hi. by apply norm_index_valid.
Qed.

Lemma norm_cols_lt (c : nat) (l : list Z) (j : nat) :
  Forall (λ i, (- c ≤ i < c)%Z) l → j ∈ norm_cols c l → j < c.
Proof.
  intros Hl (i & -> & Hi)%list_elem_of_fmap.
  pose proof (proj1 (Forall_forall _ _) Hl i Hi) as Hr. cbn beta in Hr.
  assert (0 ≤ i `mod` c < c)%Z by (apply Z.mod_pos_bound; lia). lia.
Qed.

(** Lines 68-70 on a 3-d series and valid indices, written out. *)
Lemma prepare_valid_eq np (train : ndarray) (s0 s1 s2 : nat) (l : list Z) :
  shape train = [s0; s1; s2] →
  Forall (λ i, (- s2 ≤ i < s2)%Z) l →
  prepare np train (IndexList l)
  = Some (NdArray [s0 * s1; length l]
            (concat (map (pick (norm_cols s2 l)) (rows_of s2 (s0 * s1) (buf train)))),
          NdArray [s0 * s1; length (kept_cols s2 l)]
            (concat (map (pick (kept_cols s2 l)) (rows_of s2 (s0 * s1) (buf train))))).
Proof.
  intros Hs Hl. unfold prepare. rewrite Hs. cbn [lookup list_lookup mbind option_bind].
  rewrite (reshape_flat _ _ _ _ Hs). cbn [mbind option_bind].
  unfold delete_columns, take_columns. cbn [shape buf].
  rewrite (mapM_norm_index_eq _ _ Hl). cbn [mbind option_bind].
  unfold kept_cols, norm_cols. by rewrite !length_map.
Qed.

Lemma rows_of_lookup (w n : nat) (l : list Z) (t : nat) :
  t < n → rows_of w n l !! t = Some (take w (drop (t * w) l)).
Proof.
  intros Ht. unfold rows_of. change (map ?f ?k) with (f <$> k).
  by rewrite list_lookup_fmap, lookup_seq_lt.
Qed.

(** A row of a matrix built by [pick] is the picked row of the series. *)
Lemma picked_row (train : ndarray) (s0 s1 s2 : nat) (cols : list nat) (t : nat) :
  shape train = [s0; s1; s2] → t < s0 * s1 →
  row_of (NdArray [s0 * s1; length cols]
            (concat (map (pick cols) (rows_of s2 (s0 * s1) (buf train))))) t
  = pick cols (series_row train t).
Proof.
  intros Hs Ht. unfold row_of, series_row. rewrite Hs.
  cbn [shape buf tail size_of foldr nth]. rewrite Nat.mul_1_r.
  apply concat_block_lookup.
  - apply Forall_forall. intros b (r & -> & _)%list_elem_of_fmap.
    unfold pick. by rewrite length_map.
  - change (map ?f ?k) with (f <$> k). rewrite list_lookup_fmap.
    by rewrite rows_of_lookup.
Qed.

(** Entry [p] of a picked row is the raw entry in the column picked. *)
Lemma pick_nth (cols : list nat) (row : list Z) (p j : nat) :
  cols !! p = Some j → nth p (pick cols row) 0%Z = nth j row 0%Z.
Proof.
  intros Hp. apply nth_lookup_Some. unfold pick.
  change (map ?f ?k) with (f <$> k). by rewrite list_lookup_fmap, Hp.
Qed.

Lemma series_row_nth (train : ndarray) (s0 s1 s2 : nat) (t j : nat) :
  shape train = [s0; s1; s2] → j < s2 →
  nth j (series_row train t) 0%Z = nth (t * s2 + j) (buf train) 0%Z.
Proof.
  intros Hs Hj. unfold series_row. rewrite Hs. cbn [nth].
  rewrite !nth_lookup. by rewrite lookup_take_lt, lookup_drop.
Qed.

(** Row [r] of window [i] in a stack of complete row windows of [a]. *)
Lemma stack_windows_entry (a : ndarray) (N : nat) (rest : list nat)
    (starts : list nat) (n i r c : nat) :
  shape a = N :: rest → well_formed a →
  Forall (λ c, c + n ≤ N) starts →
  starts !! i = Some c → r < n →
  entry2 (stack (map (λ c, row_window a c n) starts)) i r = row_of a (c + r).
Proof.
  intros Hs Hw Hin Hi Hr.
  rewrite (stack_entry2 _ n rest i r (row_window a c n)); [| |by rewrite list_lookup_fmap, Hi|done].
  - unfold row_window, row_of. rewrite Hs. cbn [tail buf].
    rewrite take_drop_take by done. rewrite drop_drop. do 2 f_equal. lia.
  - apply Forall_forall. intros b (c' & -> & Hc')%list_elem_of_fmap.
    split; [by rewrite row_window_shape, Hs|].
    eapply row_window_wf; [done|exact Hs|].
    by apply (proj1 (Forall_forall _ _) Hin c' Hc').
Qed.

Lemma emitting_starts_lookup total n_input n_out n_gap inc (i : nat) :
  i < sample_count total n_input n_out n_gap inc →
  emitting_starts total n_input n_out n_gap inc !! i = Some (i * inc)%Z.
Proof.
  intros Hi. unfold emitting_starts. rewrite cursors_lookup by done.
  f_equal; lia.
Qed.

Lemma emitting_starts_nat_lookup total n_input n_out n_gap inc (i : nat) :
  (0 ≤ inc)%Z →
  i < sample_count total n_input n_out n_gap inc →
  (Z.to_nat <$> emitting_starts total n_input n_out n_gap inc) !! i
  = Some (i * Z.to_nat inc).
Proof.
  intros Hinc Hi. rewrite list_lookup_fmap, emitting_starts_lookup by done.
  cbn. f_equal; lia.
Qed.

(** Row [r] of input window [i], once the numeric matrix is known. *)
Lemma windows_X_entry (train data : ndarray) (s0 s1 s2 : nat) (l : list Z)
    n_input n_out n_gap day_increment (i r : nat) :
  shape train = [s0; s1; s2] →
  data = NdArray [s0 * s1; length l]
           (concat (map (pick (norm_cols s2 l)) (rows_of s2 (s0 * s1) (buf train)))) →
  well_formed data →
  (0 ≤ n_input)%Z → (0 ≤ n_out)%Z → (0 ≤ n_gap)%Z → (1 ≤ day_increment)%Z →
  i < sample_count (s0 * s1) n_input n_out n_gap day_increment →
  r < Z.to_nat n_input →
  entry2 (stack (map (x_window data n_input)
                   (emitting_starts (s0 * s1) n_input n_out n_gap day_increment))) i r
  = pick (norm_cols s2 l) (series_row train (i * Z.to_nat day_increment + r)).
Proof.
  intros Hs Hd Hwd Hin Hout Hgap Hinc Hi Hr.
  assert (Hsd : shape data = [s0 * s1; length l]) by by rewrite Hd.
  unfold x_window.
  rewrite <- (map_map Z.to_nat (λ c, row_window data c (Z.to_nat n_input))).
  assert (Hrange : i * Z.to_nat day_increment + r < s0 * s1).
  { assert (Hg : emit_guard (s0 * s1) n_input n_out n_gap (i * day_increment)%Z).
    { unfold emit_guard. by apply sample_count_spec. }
    unfold emit_guard, out_end_of in Hg. nia. }
  rewrite (stack_windows_entry data (s0 * s1) [length l] _ _ _ _
             (i * Z.to_nat day_increment)); try done.
  - rewrite Hd.
    rewrite <- (length_map (λ i, Z.to_nat (i `mod` s2)) l).
    fold (norm_cols s2 l). by apply picked_row.
  - apply Forall_forall. intros c (z & -> & Hz)%list_elem_of_fmap.
    destruct (cursors_in_range _ _ _ _ _ _ Hinc Hz) as [Hz0 Hg].
    unfold emit_guard, out_end_of in Hg. lia.
  - apply emitting_starts_nat_lookup; [lia|done].
Qed.

(** X1.  On valid input, row [r] of the input window of sample [i] is row
    [i * day_increment + r] of the flattened series, restricted to the
    columns the index list names, in the order of the list: entry [p] of
    that row is the raw entry in column [norm_cols !! p]. *)
Theorem input_windows_aligned np train train_label n_input n_out n_gap
    day_increment l yf xf (s0 s1 s2 L : nat) (lrest : list nat) :
  shape train = [s0; s1; s2] →
  Forall (λ i, (- s2 ≤ i < s2)%Z) l →
  shape train_label = L :: lrest → s0 * s1 ≤ L →
  (1 ≤ n_input)%Z → (1 ≤ n_out)%Z → (0 ≤ n_gap)%Z → (1 ≤ day_increment)%Z →
  (xf = true → (n_input `mod` n_out = 0)%Z) →
  ∃ res,
    to_supervised np train train_label n_input n_out n_gap day_increment
      (IndexList l) yf xf = Some res
    ∧ ∀ i r : nat,
        i < sample_count (s0 * s1) n_input n_out n_gap day_increment →
        r < Z.to_nat n_input →
        entry2 (X res) i r
        = pick (norm_cols s2 l) (series_row train (i * Z.to_nat day_increment + r))
        ∧ ∀ p j : nat,
            norm_cols s2 l !! p = Some j →
            nth p (entry2 (X res) i r) 0%Z
            = nth ((i * Z.to_nat day_increment + r) * s2 + j) (buf train) 0%Z.
Proof.
  intros Hs Hl Hlab HL Hin Hout Hgap Hinc Hx.
  destruct (to_supervised_valid np train train_label n_input n_out n_gap
              day_increment l yf xf s0 s1 s2 L lrest)
    as (data & dts & kept & Hp & Hsd & Hst & Hwd & Hwt & Hres); try done.
  rewrite (prepare_valid_eq _ _ _ _ _ _ Hs Hl) in Hp. injection Hp as Hd Ht.
  eexists. split; [exact Hres|]. intros i r Hi Hr.
  assert (Hrow : entry2 (X (windows_result data dts train_label (s0 * s1)
                              n_input n_out n_gap day_increment yf xf)) i r
                 = pick (norm_cols s2 l)
                     (series_row train (i * Z.to_nat day_increment + r))).
  { unfold windows_result; cbn [X].
    fold (emitting_starts (s0 * s1) n_input n_out n_gap day_increment).
    apply (windows_X_entry train data s0 s1 s2 l); try done; lia. }
  split; [exact Hrow|]. intros p j Hpj. rewrite Hrow.
  rewrite (pick_nth _ _ _ _ Hpj).
  apply (series_row_nth _ s0 s1); [done|].
  eapply norm_cols_lt; [exact Hl|]. by eapply list_elem_of_lookup_2.
Qed.

Lemma input_windows_aligned_witness :
  ∃ res,
    to_supervised numpy_strict demo_train demo_label 7 1 0 7 (IndexList [0%Z])
      false false = Some res
    ∧ entry2 (X res) 1 0 = [17%Z].
Proof.
  destruct (input_windows_aligned numpy_strict demo_train demo_label 7 1 0 7
              [0%Z] false false 3 7 2 21 []) as (res & Hres & Hrows).
  - reflexivity.
  - repeat constructor; cbn; lia.
  - reflexivity.
  - cbn; lia.
  - lia.
  - lia.
  - lia.
  - lia.
  - intros Hf. discriminate Hf.
  - exists res. split; [exact Hres|].
    destruct (Hrows 1 0) as [Hrow _]; [vm_compute; lia|vm_compute; lia|].
    rewrite Hrow. vm_compute. reflexivity.
Defined.

(** X2.  On valid input, row [r] of the output window [y[i]] and row [r]
    of the auxiliary window [X_timestamp[i]] are taken at the same time
    step [out_start + r], [out_start = i*day_increment + n_input + 7*n_gap]:
    the first is that row of [train_label], the second that row of the
    series restricted to the columns the index list does not name. *)
Theorem output_windows_aligned np train train_label n_input n_out n_gap
    day_increment l yf xf (s0 s1 s2 L : nat) (lrest : list nat) :
  shape train = [s0; s1; s2] →
  Forall (λ i, (- s2 ≤ i < s2)%Z) l →
  shape train_label = L :: lrest → s0 * s1 ≤ L → well_formed train_label →
  (1 ≤ n_input)%Z → (1 ≤ n_out)%Z → (0 ≤ n_gap)%Z → (1 ≤ day_increment)%Z →
  (xf = true → (n_input `mod` n_out = 0)%Z) →
  ∃ res,
    to_supervised np train train_label n_input n_out n_gap day_increment
      (IndexList l) yf xf = Some res
    ∧ ∀ i r : nat,
        i < sample_count (s0 * s1) n_input n_out n_gap day_increment →
        r < Z.to_nat (7 * n_out) →
        entry2 (y res) i r
        = row_of train_label (out_start_row n_input n_gap day_increment i + r)
        ∧ entry2 (X_timestamp res) i r
          = pick (kept_cols s2 l)
              (series_row train (out_start_row n_input n_gap day_increment i + r))
        ∧ out_start_row n_input n_gap day_increment i + r < s0 * s1.
Proof.
  intros Hs Hl Hlab HL Hwl Hin Hout Hgap Hinc Hx.
  destruct (to_supervised_valid np train train_label n_input n_out n_gap
              day_increment l yf xf s0 s1 s2 L lrest)
    as (data & dts & kept & Hp & Hsd & Hst & Hwd & Hwt & Hres); try done.
  rewrite (prepare_valid_eq _ _ _ _ _ _ Hs Hl) in Hp. injection Hp as Hd Ht.
  eexists. split; [exact Hres|]. intros i r Hi Hr.
  unfold windows_result; cbn [y X_timestamp].
  fold (emitting_starts (s0 * s1) n_input n_out n_gap day_increment).
  set (cs := emitting_starts (s0 * s1) n_input n_out n_gap day_increment).
  set (n7 := Z.to_nat (7 * n_out)) in *.
  set (start := λ c : Z, Z.to_nat (c + n_input + 7 * n_gap)).
  assert (Hcs : ∀ c, c ∈ cs → (0 ≤ c)%Z ∧ start c + n7 ≤ s0 * s1).
  { intros c Hc. destruct (cursors_in_range _ _ _ _ _ _ Hinc Hc) as [Hc0 Hg].
    unfold emit_guard, out_end_of in Hg. unfold start, n7. lia. }
  assert (Hlook : (start <$> cs) !! i
                  = Some (out_start_row n_input n_gap day_increment i)).
  { rewrite list_lookup_fmap. unfold cs. by rewrite emitting_starts_lookup. }
  assert (Hstarts : ∀ N, s0 * s1 ≤ N → Forall (λ c, c + n7 ≤ N) (start <$> cs)).
  { intros N HN. apply Forall_forall. intros c' (c & -> & Hc)%list_elem_of_fmap.
    destruct (Hcs c Hc). lia. }
  assert (Hrange : out_start_row n_input n_gap day_increment i + r < s0 * s1).
  { assert (Hin' : (i * day_increment)%Z ∈ cs)
      by (eapply list_elem_of_lookup_2; unfold cs; by apply emitting_starts_lookup).
    destruct (Hcs _ Hin') as [_ Hle]. unfold start in Hle.
    unfold out_start_row. lia. }
  split; [|split; [|done]].
  - replace (map (y_window train_label n_input n_out n_gap) cs)
      with (map (λ c, row_window train_label c n7) (start <$> cs)).
    2:{ change (start <$> cs) with (map start cs). rewrite map_map.
        apply map_ext_in. intros c Hc%list_elem_of_In.
        destruct (cursors_in_range _ _ _ _ _ _ Hinc Hc) as [Hc0 Hg].
        symmetry. apply (y_window_full _ _ _ _ (s0 * s1) L lrest); try done; lia. }
    by apply (stack_windows_entry train_label L lrest _ _ _ _
                (out_start_row n_input n_gap day_increment i)); auto.
  - replace (map (ts_window dts n_input n_out n_gap) cs)
      with (map (λ c, row_window dts c n7) (start <$> cs)).
    2:{ change (start <$> cs) with (map start cs). by rewrite map_map. }
    rewrite (stack_windows_entry dts (s0 * s1) [kept] _ _ _ _
               (out_start_row n_input n_gap day_increment i)); auto.
    rewrite <- Ht. by apply picked_row.
Qed.

Lemma output_windows_aligned_witness :
  ∃ res,
    to_supervised numpy_strict demo_train demo_label 7 1 0 7 (IndexList [0%Z])
      false false = Some res
    ∧ entry2 (y res) 1 2 = [116%Z]
    ∧ entry2 (X_timestamp res) 1 2 = [16%Z].
Proof.
  destruct (output_windows_aligned numpy_strict demo_train demo_label 7 1 0 7
              [0%Z] false false 3 7 2 21 []) as (res & Hres & Hrows).
  - reflexivity.
  - repeat constructor; cbn; lia.
  - reflexivity.
  - cbn; lia.
  - reflexivity.
  - lia.
  - lia.
  - lia.
  - lia.
  - intros Hf. discriminate Hf.
  - exists res. split; [exact Hres|].
    destruct (Hrows 1 2) as (Hy & Ht & _); [vm_compute; lia|vm_compute; lia|].
    rewrite Hy, Ht. split; vm_compute; reflexivity.
Defined.

(** ** Overlap of consecutive input windows *)

(** X3.  On valid input, consecutive input windows are shifted copies of
    one another: row [r] of window [i + 1] is row [r + day_increment] of
    window [i], whenever that row exists in window [i]. *)
Theorem input_windows_overlap np train train_label n_input n_out n_gap
    day_increment l yf xf (s0 s1 s2 L : nat) (lrest : list nat) :
  shape train = [s0; s1; s2] →
  Forall (λ i, (- s2 ≤ i < s2)%Z) l →
  shape train_label = L :: lrest → s0 * s1 ≤ L →
  (1 ≤ n_input)%Z → (1 ≤ n_out)%Z → (0 ≤ n_gap)%Z → (1 ≤ day_increment)%Z →
  (xf = true → (n_input `mod` n_out = 0)%Z) →
  ∃ res,
    to_supervised np train train_label n_input n_out n_gap day_increment
      (IndexList l) yf xf = Some res
    ∧ ∀ i r : nat,
        i + 1 < sample_count (s0 * s1) n_input n_out n_gap day_increment →
        r + Z.to_nat day_increment < Z.to_nat n_input →
        entry2 (X res) (i + 1) r = entry2 (X res) i (r + Z.to_nat day_increment).
Proof.
  intros Hs Hl Hlab HL Hin Hout Hgap Hinc Hx.
  destruct (to_supervised_valid np train train_label n_input n_out n_gap
              day_increment l yf xf s0 s1 s2 L lrest)
    as (data & dts & kept & Hp & Hsd & Hst & Hwd & Hwt & Hres); try done.
  rewrite (prepare_valid_eq _ _ _ _ _ _ Hs Hl) in Hp. injection Hp as Hd Ht.
  eexists. split; [exact Hres|]. intros i r Hi Hr.
  unfold windows_result; cbn [X].
  fold (emitting_starts (s0 * s1) n_input n_out n_gap day_increment).
  rewrite !(windows_X_entry train data s0 s1 s2 l) by (done || lia).
  do 2 f_equal. lia.
Qed.

Lemma input_windows_overlap_witness :
  ∃ res,
    to_supervised numpy_strict demo_train demo_label 7 1 0 3 (IndexList [0%Z])
      false false = Some res
    ∧ entry2 (X res) 1 0 = entry2 (X res) 0 3
    ∧ entry2 (X res) 1 0 = [13%Z].
Proof.
  destruct (input_windows_overlap numpy_strict demo_train demo_label 7 1 0 3
              [0%Z] false false 3 7 2 21 []) as (res & Hres & Hrows).
  - reflexivity.
  - repeat constructor; cbn; lia.
  - reflexivity.
  - cbn; lia.
  - lia.
  - lia.
  - lia.
  - lia.
  - intros Hf. discriminate Hf.
  - exists res. split; [exact Hres|].
    split; [apply (Hrows 0 0); vm_compute; lia|].
    vm_compute in Hres. injection Hres as <-. vm_compute. reflexivity.
Defined.

(** ** Arguments the call rejects *)

Lemma norm_index_invalid (c : nat) (i : Z) :
  (i < - c ∨ c ≤ i)%Z → norm_index c i = None.
Proof. intros Hi. unfold norm_index. by rewrite !decide_False by lia. Qed.

(** X4.  A column index outside [-s2, s2) on a series with [s2] raw
    columns makes the call raise (the [IndexError] of line 69 or 70),
    whatever the other arguments are and wherever the index stands in the
    list. *)
Theorem column_index_out_of_range np train train_label n_input n_out n_gap
    day_increment l yf xf (s0 s1 s2 : nat) (i : Z) :
  shape train = [s0; s1; s2] →
  i ∈ l → (i < - s2 ∨ s2 ≤ i)%Z →
  to_supervised np train train_label n_input n_out n_gap day_increment
    (IndexList l) yf xf = None.
Proof.
  intros Hs Hi Hr. unfold to_supervised, prepare. rewrite Hs.
  cbn [lookup list_lookup mbind option_bind].
  rewrite (reshape_flat _ _ _ _ Hs). cbn [mbind option_bind].
  unfold delete_columns. cbn [shape buf].
  assert (mapM (norm_index s2) l = None) as ->; [|done].
  apply mapM_None, Exists_exists. exists i. split; [done|].
  by apply norm_index_invalid.
Qed.

Lemma column_index_out_of_range_witness :
  to_supervised numpy_strict demo_train demo_label 7 1 0 7 (IndexList [0; 2]%Z)
    false false = None
  ∧ to_supervised numpy_strict demo_train demo_label 7 1 0 7 (IndexList [-3; 1]%Z)
      false false = None.
Proof.
  split.
  - apply (column_index_out_of_range numpy_strict demo_train demo_label 7 1 0 7
             [0; 2]%Z false false 3 7 2 2%Z).
    + reflexivity.
    + apply list_elem_of_In. cbn. tauto.
    + cbn. lia.
  - apply (column_index_out_of_range numpy_strict demo_train demo_label 7 1 0 7
             [-3; 1]%Z false false 3 7 2 (-3)%Z).
    + reflexivity.
    + apply list_elem_of_In. cbn. tauto.
    + cbn. lia.
Defined.

(** X5.  The series must have three axes: with fewer, [train.shape[2]]
    raises; with more, the [reshape] of line 68 raises unless the extra
    axes hold one entry each (or the series is empty). *)
Theorem series_rank_rejected np train train_label n_input n_out n_gap
    day_increment idx yf xf :
  length (shape train) < 3
  ∨ (∃ s0 s1 s2 rest,
       shape train = s0 :: s1 :: s2 :: rest ∧ size_of rest ≠ 1 ∧ 0 < s0 * s1 * s2) →
  to_supervised np train train_label n_input n_out n_gap day_increment idx yf xf
  = None.
Proof.
  intros [Hlt|(s0 & s1 & s2 & rest & Hs & Hrest & Hpos)];
    unfold to_supervised, prepare.
  - destruct (shape train) as [|s0 [|s1 [|s2 rest]]]; try done.
    cbn in Hlt. lia.
  - rewrite Hs. cbn [lookup list_lookup mbind option_bind].
    unfold reshape. rewrite Hs, decide_False; [done|].
    cbn [size_of foldr]. change (foldr Nat.mul 1 rest) with (size_of rest). nia.
Qed.

Lemma series_rank_rejected_witness :
  to_supervised numpy_strict demo_label demo_label 7 1 0 7 (IndexList [0%Z])
    false false = None
  ∧ to_supervised numpy_strict (NdArray [3; 7; 1; 2] (buf demo_train)) demo_label
      7 1 0 7 (IndexList [0%Z]) false false = None.
Proof.
  split.
  - apply series_rank_rejected. left. cbn. lia.
  - apply series_rank_rejected. right. exists 3, 7, 1, [2].
    split; [reflexivity|]. cbn. lia.
Defined.

(** ** The weekly arrays and their flags *)

(** X6.  Whatever the input, a call that returns with an aggregation
    flag off returns the empty array of shape [(0,)] under the matching
    key: the weekly lists are only ever appended to under their flag. *)
Theorem weekly_arrays_need_their_flag np train train_label n_input n_out n_gap
    day_increment idx yf xf res :
  to_supervised np train train_label n_input n_out n_gap day_increment idx yf xf
  = Some res →
  (yf = false → y_weekly res = empty_array)
  ∧ (xf = false → X_weekly res = empty_array).
Proof.
  intros (data & dts & total & ws & _ & _ & Hws & _ & HXw & _ & _ & Hyw)%to_supervised_inv.
  split; intros ->.
  - rewrite concat_nil_map in Hyw; [by injection Hyw as <-|].
    apply Forall_forall. intros w Hw.
    destruct (proj1 (list_elem_of_lookup _ _) Hw) as [k Hk].
    destruct (Forall2_lookup_r _ _ _ _ _ Hws Hk) as (c & _ & Hc).
    apply emit_at_inv in Hc as (_ & _ & _ & Hy & _). by injection Hy as <-.
  - rewrite concat_nil_map in HXw; [by injection HXw as <-|].
    apply Forall_forall. intros w Hw.
    destruct (proj1 (list_elem_of_lookup _ _) Hw) as [k Hk].
    destruct (Forall2_lookup_r _ _ _ _ _ Hws Hk) as (c & _ & Hc).
    apply emit_at_inv in Hc as (_ & _ & _ & _ & Hx). by injection Hx as <-.
Qed.

Lemma weekly_arrays_need_their_flag_witness :
  ∃ res,
    to_supervised numpy_strict demo_train demo_label 7 1 0 7 (IndexList [0%Z])
      false true = Some res
    ∧ y_weekly res = empty_array
    ∧ shape (X_weekly res) = [2; 1; 1].
Proof.
  destruct (to_supervised numpy_strict demo_train demo_label 7 1 0 7
              (IndexList [0%Z]) false true) as [res|] eqn:Hrun;
    [|vm_compute in Hrun; discriminate Hrun].
  exists res. split; [reflexivity|]. split.
  - by apply (weekly_arrays_need_their_flag numpy_strict demo_train demo_label
                7 1 0 7 (IndexList [0%Z]) false true res Hrun).
  - vm_compute in Hrun. injection Hrun as <-. reflexivity.
Defined.

(** ** What each returned array depends on *)

(** Two traversals of one cursor list whose emissions agree on a
    component collect the same list of that component. *)
Lemma Forall2_component {A B C} (f : A → option C) (P Q : A → B → Prop)
    (p : B → C) (cs : list A) (ws1 ws2 : list B) :
  (∀ c w, P c w → f c = Some (p w)) → (∀ c w, Q c w → f c = Some (p w)) →
  Forall2 P cs ws1 → Forall2 Q cs ws2 → map p ws1 = map p ws2.
Proof.
  intros HP HQ H1. revert ws2.
  induction H1 as [|c w cs ws1 Hw _ IH]; intros ws2 H2.
  - by apply Forall2_nil_inv_l in H2 as ->.
  - apply Forall2_cons_inv_l in H2 as (w' & ws2' & Hw' & H2 & ->).
    cbn. f_equal; [|by apply IH].
    apply HP in Hw. apply HQ in Hw'. congruence.
Qed.

Lemma Forall2_component_list {A B C} (f : A → option (list C)) (P Q : A → B → Prop)
    (p : B → list C) (cs : list A) (ws1 ws2 : list B) :
  (∀ c w, P c w → f c = Some (p w)) → (∀ c w, Q c w → f c = Some (p w)) →
  Forall2 P cs ws1 → Forall2 Q cs ws2 → concat (map p ws1) = concat (map p ws2).
Proof.
  intros HP HQ H1 H2. f_equal.
  exact (Forall2_component f P Q p cs ws1 ws2 HP HQ H1 H2).
Qed.

(** X7.  Two returning calls on the same series, with the same window
    parameters and column indices, return the same [X] and [X_timestamp]
    whatever the labels and the aggregation flags are; [y] moreover only
    depends on the labels, [X_weekly] only on the series and its own flag. *)
Theorem windows_independent_of_labels np train label1 label2 n_input n_out n_gap
    day_increment idx yf1 xf1 yf2 xf2 res1 res2 :
  to_supervised np train label1 n_input n_out n_gap day_increment idx yf1 xf1
  = Some res1 →
  to_supervised np train label2 n_input n_out n_gap day_increment idx yf2 xf2
  = Some res2 →
  X res1 = X res2
  ∧ X_timestamp res1 = X_timestamp res2
  ∧ (xf1 = xf2 → X_weekly res1 = X_weekly res2)
  ∧ (label1 = label2 → y res1 = y res2)
  ∧ (label1 = label2 → yf1 = yf2 → y_weekly res1 = y_weekly res2).
Proof.
  intros (data & dts & total & ws1 & Hp1 & Hl1 & Hws1 & HX1 & HXw1 & HXt1 & Hy1 & Hyw1)
           %to_supervised_inv
         (data' & dts' & total' & ws2 & Hp2 & Hl2 & Hws2 & HX2 & HXw2 & HXt2 & Hy2 & Hyw2)
           %to_supervised_inv.
  rewrite Hp1 in Hp2. injection Hp2 as <- <-.
  rewrite Hl1 in Hl2. injection Hl2 as <-.
  set (cs := filter _ _) in *.
  assert (EX : map w_X ws1 = map w_X ws2).
  { eapply (Forall2_component (λ c, slice0_all data c (c + n_input)));
      [| |exact Hws1|exact Hws2]; intros c w Hw; by apply emit_at_inv in Hw as (? & _). }
  assert (Et : map w_ts ws1 = map w_ts ws2).
  { eapply (Forall2_component
              (λ c, slice0_all dts (c + n_input + 7 * n_gap)
                      (c + n_input + 7 * n_gap + 7 * n_out)));
      [| |exact Hws1|exact Hws2]; intros c w Hw;
      by apply emit_at_inv in Hw as (_ & _ & ? & _). }
  split; [congruence|]. split; [congruence|]. split; [|split].
  - intros <-.
    assert (E : concat (map w_xw ws1) = concat (map w_xw ws2)); [|congruence].
    eapply (Forall2_component_list
              (λ c, x ← slice0_all data c (c + n_input);
                    if xf1 then a ← weekly_sum np x n_out; Some [a] else Some []));
      [| |exact Hws1|exact Hws2]; intros c w Hw;
      apply emit_at_inv in Hw as (-> & _ & _ & _ & Hx); exact Hx.
  - intros <-.
    assert (E : map w_y ws1 = map w_y ws2); [|congruence].
    eapply (Forall2_component
              (λ c, slice0 label1 (c + n_input + 7 * n_gap)
                      (c + n_input + 7 * n_gap + 7 * n_out)));
      [| |exact Hws1|exact Hws2]; intros c w Hw;
      by apply emit_at_inv in Hw as (_ & ? & _).
  - intros <- <-.
    assert (E : concat (map w_yw ws1) = concat (map w_yw ws2)); [|congruence].
    eapply (Forall2_component_list
              (λ c, yv ← slice0 label1 (c + n_input + 7 * n_gap)
                           (c + n_input + 7 * n_gap + 7 * n_out);
                    if yf1 then a ← weekly_sum np yv n_out; Some [a] else Some []));
      [| |exact Hws1|exact Hws2]; intros c w Hw;
      apply emit_at_inv in Hw as (_ & -> & _ & Hy & _); exact Hy.
Qed.

Lemma windows_independent_of_labels_witness :
  ∃ res1 res2,
    to_supervised numpy_strict demo_train demo_label 7 1 0 7 (IndexList [0%Z])
      false false = Some res1
    ∧ to_supervised numpy_strict demo_train
        (NdArray [21; 1] (buf demo_label)) 7 1 0 7 (IndexList [0%Z])
        true true = Some res2
    ∧ X res1 = X res2 ∧ X_timestamp res1 = X_timestamp res2
    ∧ y res1 ≠ y res2.
Proof.
  destruct (to_supervised numpy_strict demo_train demo_label 7 1 0 7
              (IndexList [0%Z]) false false) as [res1|] eqn:Hrun1;
    [|vm_compute in Hrun1; discriminate Hrun1].
  destruct (to_supervised numpy_strict demo_train
              (NdArray [21; 1] (buf demo_label)) 7 1 0 7 (IndexList [0%Z])
              true true) as [res2|] eqn:Hrun2;
    [|vm_compute in Hrun2; discriminate Hrun2].
  exists res1, res2. split; [reflexivity|]. split; [reflexivity|].
  destruct (windows_independent_of_labels numpy_strict demo_train demo_label
              (NdArray [21; 1] (buf demo_label)) 7 1 0 7 (IndexList [0%Z])
              false false true true res1 res2 Hrun1 Hrun2) as (HX & Ht & _).
  split; [exact HX|]. split; [exact Ht|].
  vm_compute in Hrun1, Hrun2. injection Hrun1 as <-. injection Hrun2 as <-.
  cbn [y]. discriminate.
Defined.

(** ** The column indices *)

Lemma norm_cols_mod (c : nat) (l : list Z) :
  norm_cols c (map (λ i, i `mod` c)%Z l) = norm_cols c l.
Proof.
  unfold norm_cols. rewrite map_map. apply map_ext. intros i.
  destruct (decide (c = 0)) as [->|Hc]; [by rewrite !Z.mod_0_r|].
  by rewrite Z.mod_mod by lia.
Qed.

Lemma mod_indices_valid (c : nat) (l : list Z) :
  Forall (λ i, (- c ≤ i < c)%Z) l →
  Forall (λ i, (- c ≤ i < c)%Z) (map (λ i, i `mod` c)%Z l).
Proof.
  intros Hl. apply Forall_forall. intros j (i & -> & Hi)%list_elem_of_fmap.
  pose proof (proj1 (Forall_forall _ _) Hl i Hi) as Hr. cbn beta in Hr.
  assert (0 ≤ i `mod` c < c)%Z by (apply Z.mod_pos_bound; lia). lia.
Qed.

(** X8.  Negative column indices count from the last column: replacing
    every index [i] of a valid list by [i mod s2] (so [-1] by [s2 - 1])
    changes nothing in what the call returns. *)
Theorem negative_indices_count_from_end np train train_label n_input n_out n_gap
    day_increment l yf xf (s0 s1 s2 : nat) :
  shape train = [s0; s1; s2] →
  Forall (λ i, (- s2 ≤ i < s2)%Z) l →
  to_supervised np train train_label n_input n_out n_gap day_increment
    (IndexList (map (λ i, i `mod` s2)%Z l)) yf xf
  = to_supervised np train train_label n_input n_out n_gap day_increment
      (IndexList l) yf xf.
Proof.
  intros Hs Hl. unfold to_supervised.
  rewrite (prepare_valid_eq _ _ _ _ _ _ Hs Hl).
  rewrite (prepare_valid_eq _ _ _ _ _ _ Hs (mod_indices_valid _ _ Hl)).
  unfold kept_cols. by rewrite norm_cols_mod, length_map.
Qed.

Lemma negative_indices_count_from_end_witness :
  to_supervised numpy_strict demo_train demo_label 7 1 0 7 (IndexList [1; 0]%Z)
    true true
  = to_supervised numpy_strict demo_train demo_label 7 1 0 7 (IndexList [-1; -2]%Z)
      true true.
Proof.
  apply (negative_indices_count_from_end numpy_strict demo_train demo_label 7 1 0 7
           [-1; -2]%Z true true 3 7 2).
  - reflexivity.
  - repeat constructor; cbn; lia.
Defined.

Lemma kept_cols_spec (c : nat) (l : list Z) (j : nat) :
  j ∈ kept_cols c l ↔ j < c ∧ j ∉ norm_cols c l.
Proof.
  unfold kept_cols. rewrite list_elem_of_filter, elem_of_seq.
  split; intros [? ?]; (split; [lia|done]) || (split; [done|lia]).
Qed.

Lemma kept_cols_length (c : nat) (l : list Z) :
  Forall (λ i, (- c ≤ i < c)%Z) l → NoDup (norm_cols c l) →
  length l + length (kept_cols c l) = c.
Proof.
  intros Hl Hnd.
  assert (HP : norm_cols c l ++ kept_cols c l ≡ₚ seq 0 c).
  { apply NoDup_Permutation.
    - apply NoDup_app. split; [done|]. split.
      + intros j Hj Hk. apply kept_cols_spec in Hk as [_ Hk]. done.
      + unfold kept_cols. apply NoDup_filter, NoDup_seq.
    - apply NoDup_seq.
    - intros j. rewrite elem_of_app, kept_cols_spec, elem_of_seq. split.
      + intros [Hj|[Hj _]]; [|lia]. pose proof (norm_cols_lt _ _ _ Hl Hj). lia.
      + intros [_ Hj]. destruct (decide (j ∈ norm_cols c l)); [by left|].
        right. split; [lia|done]. }
  apply Permutation_length in HP. rewrite length_app, length_seq in HP.
  unfold norm_cols in HP at 1. by rewrite length_map in HP.
Qed.

Lemma filter_seq_increasing (P : nat → Prop) `{∀ k, Decision (P k)}
    (k n p q i j : nat) :
  p < q → filter P (seq k n) !! p = Some i → filter P (seq k n) !! q = Some j →
  i < j.
Proof.
  revert k p q. induction n as [|n IH]; intros k p q Hpq Hp Hq; [done|].
  cbn [seq] in Hp, Hq. rewrite filter_cons in Hp, Hq.
  destruct (decide (P k)); [|by eapply IH].
  destruct q as [|q]; [lia|]. cbn in Hq. destruct p as [|p]; cbn in Hp.
  - injection Hp as <-.
    apply list_elem_of_lookup_2, list_elem_of_filter in Hq as [_ Hq%elem_of_seq].
    lia.
  - eapply (IH (S k) p q); [lia|done|done].
Qed.

(** X9.  Lines 69-70 split every time step between the two matrices:
    row [t] of the numeric matrix holds the indexed columns of row [t] of
    the flattened series, row [t] of the auxiliary matrix holds the others
    in increasing order; a raw column is in the auxiliary matrix exactly
    when no index names it, and when no column is named twice the two
    widths add up to the number of raw columns. *)
Theorem columns_split np train l (s0 s1 s2 : nat) :
  shape train = [s0; s1; s2] →
  Forall (λ i, (- s2 ≤ i < s2)%Z) l →
  ∃ data dts,
    prepare np train (IndexList l) = Some (data, dts)
    ∧ shape data = [s0 * s1; length l]
    ∧ shape dts = [s0 * s1; length (kept_cols s2 l)]
    ∧ (∀ t, t < s0 * s1 →
         row_of data t = pick (norm_cols s2 l) (series_row train t)
         ∧ row_of dts t = pick (kept_cols s2 l) (series_row train t))
    ∧ (∀ j, j < s2 → (j ∈ kept_cols s2 l ↔ j ∉ norm_cols s2 l))
    ∧ (∀ p q i j, p < q → kept_cols s2 l !! p = Some i →
         kept_cols s2 l !! q = Some j → i < j)
    ∧ (NoDup (norm_cols s2 l) → length l + length (kept_cols s2 l) = s2).
Proof.
  intros Hs Hl. eexists _, _.
  split; [by apply prepare_valid_eq|]. split; [done|]. split; [done|].
  split; [|split; [|split]].
  - intros t Ht. split.
    + rewrite <- (length_map (λ i, Z.to_nat (i `mod` s2)) l).
      fold (norm_cols s2 l). by apply picked_row.
    + by apply picked_row.
  - intros j Hj. rewrite kept_cols_spec. tauto.
  - intros p q i j Hpq Hp Hq. by eapply filter_seq_increasing.
  - by apply kept_cols_length.
Qed.

Lemma columns_split_witness :
  ∃ data dts,
    prepare numpy_strict demo_train (IndexList [-1; 1]%Z) = Some (data, dts)
    ∧ row_of data 5 = [5; 5]%Z ∧ row_of dts 5 = [15%Z]
    ∧ length [-1; 1]%Z + length (kept_cols 2 [-1; 1]%Z) = 3.
Proof.
  destruct (columns_split numpy_strict demo_train [-1; 1]%Z 3 7 2)
    as (data & dts & Hp & _ & _ & Hrows & _).
  - reflexivity.
  - repeat constructor; cbn; lia.
  - exists data, dts. split; [exact Hp|].
    destruct (Hrows 5) as [Hd Ht]; [lia|]. rewrite Hd, Ht.
    split; [vm_compute; reflexivity|]. split; vm_compute; reflexivity.
Defined.

(** ** Series too short for one sample *)

Lemma sample_count_zero total n_input n_out n_gap inc :
  (1 ≤ inc)%Z →
  sample_count total n_input n_out n_gap inc = 0
  ↔ (total < n_input + 7 * n_gap + 7 * n_out)%Z.
Proof.
  intros Hinc. unfold sample_count.
  destruct (decide _) as [Hneg|Hpos]; [lia|].
  assert (0 ≤ (total - n_input - 7 * n_gap - 7 * n_out) / inc)%Z
    by (apply Z.div_pos; lia).
  lia.
Qed.

(** X10.  On valid input the call returns the five empty arrays exactly
    when the series has fewer than [n_input + 7 * n_gap + 7 * n_out] time
    steps, that is when not even the window at cursor 0 fits; otherwise
    [X], [y] and [X_timestamp] all hold at least one sample. *)
Theorem empty_iff_too_short np train train_label n_input n_out n_gap
    day_increment l yf xf (s0 s1 s2 L : nat) (lrest : list nat) :
  shape train = [s0; s1; s2] →
  Forall (λ i, (- s2 ≤ i < s2)%Z) l →
  shape train_label = L :: lrest → s0 * s1 ≤ L →
  (1 ≤ n_input)%Z → (1 ≤ n_out)%Z → (0 ≤ n_gap)%Z → (1 ≤ day_increment)%Z →
  (xf = true → (n_input `mod` n_out = 0)%Z) →
  ∃ res,
    to_supervised np train train_label n_input n_out n_gap day_increment
      (IndexList l) yf xf = Some res
    ∧ (((s0 * s1)%nat < n_input + 7 * n_gap + 7 * n_out)%Z → res = empty_results)
    ∧ ((n_input + 7 * n_gap + 7 * n_out ≤ (s0 * s1)%nat)%Z →
       ∃ n, 1 ≤ n ∧ len (X res) = Some n ∧ len (y res) = Some n
            ∧ len (X_timestamp res) = Some n
            ∧ X res ≠ empty_array ∧ y res ≠ empty_array
            ∧ X_timestamp res ≠ empty_array).
Proof.
  intros Hs Hl Hlab HL Hin Hout Hgap Hinc Hx.
  destruct (to_supervised_valid np train train_label n_input n_out n_gap
              day_increment l yf xf s0 s1 s2 L lrest)
    as (data & dts & kept & Hp & Hsd & Hst & Hwd & Hwt & Hres); try done.
  eexists. split; [exact Hres|].
  pose proof (sample_count_zero (s0 * s1) n_input n_out n_gap day_increment Hinc)
    as Hzero.
  unfold windows_result. split.
  - intros Hshort. apply Hzero in Hshort. rewrite Hshort. cbn.
    by destruct xf, yf.
  - intros Hlong.
    destruct (sample_count (s0 * s1) n_input n_out n_gap day_increment) as [|n] eqn:E;
      [lia|].
    exists (S n). split; [lia|]. cbn [X y X_timestamp].
    rewrite !stack_len, !length_map, !cursors_length.
    repeat (split; [done|]). rewrite cursors_S. cbn. done.
Qed.

Lemma empty_iff_too_short_witness :
  to_supervised numpy_strict fortnight_train demo_label 8 1 0 7 (IndexList [0%Z])
    true true = Some empty_results
  ∧ ∃ res,
      to_supervised numpy_strict fortnight_train demo_label 7 1 0 7 (IndexList [0%Z])
        true true = Some res
      ∧ X res ≠ empty_array.
Proof.
  split.
  - destruct (empty_iff_too_short numpy_strict fortnight_train demo_label 8 1 0 7
                [0%Z] true true 2 7 2 21 []) as (res & Hres & Hshort & _).
    + reflexivity.
    + repeat constructor; cbn; lia.
    + reflexivity.
    + cbn; lia.
    + lia.
    + lia.
    + lia.
    + lia.
    + intros _. reflexivity.
    + rewrite Hres. f_equal. apply Hshort. cbn. lia.
  - destruct (empty_iff_too_short numpy_strict fortnight_train demo_label 7 1 0 7
                [0%Z] true true 2 7 2 21 []) as (res & Hres & _ & Hlong).
    + reflexivity.
    + repeat constructor; cbn; lia.
    + reflexivity.
    + cbn; lia.
    + lia.
    + lia.
    + lia.
    + lia.
    + intros _. reflexivity.
    + exists res. split; [exact Hres|].
      destruct Hlong as (n & _ & _ & _ & _ & HX & _); [cbn; lia|exact HX].
Defined.

(** ** Weekly sums add up to the sum of the window *)

Lemma Zsum_app (l1 l2 : list Z) :
  foldr Z.add 0%Z (l1 ++ l2) = (foldr Z.add 0%Z l1 + foldr Z.add 0%Z l2)%Z.
Proof. induction l1 as [|x l1 IH]; cbn; [done|]. rewrite IH. lia. Qed.

(** Summing [n] consecutive groups of [m] terms, then the [n] sums, is
    summing the [n * m] terms. *)
Lemma Zsum_chunks (n m : nat) (f : nat → Z) :
  foldr Z.add 0%Z
    (map (λ j, foldr Z.add 0%Z (map (λ r, f (j * m + r)) (seq 0 m))) (seq 0 n))
  = foldr Z.add 0%Z (map f (seq 0 (n * m))).
Proof.
  induction n as [|n IH]; [done|].
  replace (S n * m) with (n * m + m) by lia.
  rewrite seq_S, seq_app, !map_app, !Zsum_app, IH. cbn [map foldr Nat.add].
  rewrite Z.add_0_r. f_equal.
  replace (seq (n * m) m) with (Nat.add (n * m) <$> seq 0 m)
    by (rewrite fmap_add_seq; f_equal; lia).
  change (?g <$> ?k) with (map g k). by rewrite map_map.
Qed.

(** The [n] weekly sums of sample [i] add up, modulo 2^64, to the sum of
    all rows of its window; exactly so when no weekly sum leaves
    [int64]. *)
Lemma stacked_chunk_sums_total (wins : list ndarray) (n m : nat) (rest : list nat)
    (i p : nat) :
  Forall (λ b, shape b = n * m :: rest ∧ well_formed b) wins →
  i < length wins → p < size_of rest →
  let weeks :=
    map (λ j, nth p (entry2 (stack (map (λ b, chunk_sums b n) wins)) i j) 0%Z)
      (seq 0 n) in
  let rows := map (λ r, nth p (entry2 (stack wins) i r) 0%Z) (seq 0 (n * m)) in
  wrap64 (foldr Z.add 0%Z weeks) = wrap64 (foldr Z.add 0%Z rows)
  ∧ ((∀ j, j < n →
        int64 (foldr Z.add 0%Z
                 (map (λ r, nth p (entry2 (stack wins) i (j * m + r)) 0%Z)
                    (seq 0 m)))) →
     foldr Z.add 0%Z weeks = foldr Z.add 0%Z rows).
Proof.
  intros Hw Hi Hp weeks rows.
  set (f := λ t, nth p (entry2 (stack wins) i t) 0%Z).
  set (S := λ j, foldr Z.add 0%Z (map (λ r, f (j * m + r)) (seq 0 m))).
  assert (Hweeks : weeks = map (λ j, wrap64 (S j)) (seq 0 n)).
  { apply map_ext_in. intros j Hj%in_seq.
    apply (stacked_chunk_sums_nth wins n m rest); [done|done|lia|done]. }
  assert (Hrows : foldr Z.add 0%Z (map S (seq 0 n)) = foldr Z.add 0%Z rows)
    by apply Zsum_chunks.
  split.
  - by rewrite Hweeks, wrap64_sum_map, Hrows.
  - intros Hfit. rewrite Hweeks, <- Hrows. f_equal.
    apply map_ext_in. intros j Hj%in_seq. apply wrap64_id, Hfit. lia.
Qed.

(** X11.  Weekly aggregation loses nothing: on valid input with [int64]
    arrays, for every sample and column, the [n_out] entries of [X_weekly]
    add up to the sum of the [n_input] entries of the input window, and
    the [n_out] entries of [y_weekly] to the sum of the [7 * n_out]
    entries of the output window: modulo 2^64 always, and exactly
    whenever no weekly sum leaves [int64]. *)
Theorem weekly_sums_preserve_totals np train train_label n_input n_out n_gap
    day_increment l (s0 s1 s2 L : nat) (lrest : list nat) :
  shape train = [s0; s1; s2] → int64_array train →
  Forall (λ i, (- s2 ≤ i < s2)%Z) l →
  shape train_label = L :: lrest → s0 * s1 ≤ L →
  well_formed train_label → int64_array train_label →
  (1 ≤ n_input)%Z → (1 ≤ n_out)%Z → (0 ≤ n_gap)%Z → (1 ≤ day_increment)%Z →
  (n_input `mod` n_out = 0)%Z →
  ∃ res,
    to_supervised np train train_label n_input n_out n_gap day_increment
      (IndexList l) true true = Some res
    ∧ ∀ i : nat,
        i < sample_count (s0 * s1) n_input n_out n_gap day_increment →
        (∀ p, p < length l →
           let weeks := map (λ j, nth p (entry2 (X_weekly res) i j) 0%Z)
                          (seq 0 (Z.to_nat n_out)) in
           let rows := map (λ r, nth p (entry2 (X res) i r) 0%Z)
                         (seq 0 (Z.to_nat n_input)) in
           wrap64 (foldr Z.add 0%Z weeks) = wrap64 (foldr Z.add 0%Z rows)
           ∧ ((∀ j, j < Z.to_nat n_out →
                 int64 (foldr Z.add 0%Z
                          (map (λ r, nth p (entry2 (X res) i
                                              (j * Z.to_nat (n_input / n_out) + r))
                                        0%Z)
                             (seq 0 (Z.to_nat (n_input / n_out))))))  →
              foldr Z.add 0%Z weeks = foldr Z.add 0%Z rows))
        ∧ (∀ p, p < size_of lrest →
             let weeks := map (λ j, nth p (entry2 (y_weekly res) i j) 0%Z)
                            (seq 0 (Z.to_nat n_out)) in
             let rows := map (λ r, nth p (entry2 (y res) i r) 0%Z)
                           (seq 0 (Z.to_nat (7 * n_out))) in
             wrap64 (foldr Z.add 0%Z weeks) = wrap64 (foldr Z.add 0%Z rows)
             ∧ ((∀ j, j < Z.to_nat n_out →
                   int64 (foldr Z.add 0%Z
                            (map (λ r, nth p (entry2 (y res) i (j * 7 + r)) 0%Z)
                               (seq 0 7)))) →
                foldr Z.add 0%Z weeks = foldr Z.add 0%Z rows)).
Proof.
  intros Hs Htr Hl Hlab HL Hwl Hil Hin Hout Hgap Hinc Hmod.
  destruct (to_supervised_valid np train train_label n_input n_out n_gap
              day_increment l true true s0 s1 s2 L lrest)
    as (data & dts & kept & Hp & Hsd & Hst & Hwd & Hwt & Hres); try done.
  eexists. split; [exact Hres|]. intros i Hi.
  unfold windows_result; cbn [X X_weekly y y_weekly].
  fold (emitting_starts (s0 * s1) n_input n_out n_gap day_increment).
  assert (Hlen : ∀ {A} (g : Z → A),
            i < length (map g (emitting_starts (s0 * s1) n_input n_out n_gap
                                 day_increment))).
  { intros A g. rewrite length_map. unfold emitting_starts.
    by rewrite cursors_length. }
  split.
  - intros p Hp'.
    set (q := Z.to_nat (n_input / n_out)).
    assert (Hq : Z.to_nat n_input = Z.to_nat n_out * q).
    { unfold q. rewrite <- Z2Nat.inj_mul by (try apply Z.div_pos; lia).
      f_equal. apply Z.div_exact in Hmod; lia. }
    assert (Hwins := x_windows_wf data (s0 * s1) (length l) n_input n_out n_gap
                       day_increment Hsd Hwd Hin).
    assert (Hwins' := Hwins ltac:(lia) Hgap Hinc). clear Hwins.
    rewrite Hq in Hwins'. rewrite Hq.
    rewrite <- (map_map (x_window data n_input)
                  (λ b, chunk_sums b (Z.to_nat n_out))).
    apply (stacked_chunk_sums_total _ _ _ [length l] i p Hwins' (Hlen _ _)).
    cbn. lia.
  - intros p Hp'.
    assert (Hwins := y_windows_wf train_label (s0 * s1) L lrest n_input n_out n_gap
                       day_increment Hlab Hwl HL Hin).
    assert (Hwins' := Hwins ltac:(lia) Hgap Hinc). clear Hwins.
    replace (Z.to_nat (7 * n_out)) with (Z.to_nat n_out * 7) by lia.
    rewrite <- (map_map (y_window train_label n_input n_out n_gap)
                  (λ b, chunk_sums b (Z.to_nat n_out))).
    exact (stacked_chunk_sums_total _ _ _ lrest i p Hwins' (Hlen _ _) Hp').
Qed.

Lemma weekly_sums_preserve_totals_witness :
  ∃ res,
    to_supervised numpy_strict demo_train demo_label 6 2 0 7 (IndexList [0%Z])
      true true = Some res
    ∧ (nth 0 (entry2 (X_weekly res) 0 0) 0 + nth 0 (entry2 (X_weekly res) 0 1) 0
       = 75)%Z
    ∧ foldr Z.add 0%Z (map (λ r, nth 0 (entry2 (X res) 0 r) 0%Z) (seq 0 6)) = 75%Z.
Proof.
  assert (Hint : ∀ a : ndarray,
            (∀ x, In x (buf a) → (0 ≤ x < 1000)%Z) → int64_array a).
  { intros a Ha. apply Forall_forall. intros x Hx%list_elem_of_In.
    specialize (Ha x Hx). unfold int64. lia. }
  destruct (weekly_sums_preserve_totals numpy_strict demo_train demo_label
              6 2 0 7 [0%Z] 3 7 2 21 []) as (res & Hres & Hsum).
  - reflexivity.
  - apply Hint. intros x Hx. vm_compute in Hx.
    repeat (destruct Hx as [<-|Hx]; [lia|]). destruct Hx.
  - repeat constructor; cbn; lia.
  - reflexivity.
  - cbn; lia.
  - reflexivity.
  - apply Hint. intros x Hx. vm_compute in Hx.
    repeat (destruct Hx as [<-|Hx]; [lia|]). destruct Hx.
  - lia.
  - lia.
  - lia.
  - lia.
  - reflexivity.
  - exists res. split; [exact Hres|].
    destruct (Hsum 0) as [HX _]; [vm_compute; lia|].
    destruct (HX 0) as [_ Hexact]; [cbn; lia|].
    vm_compute in Hres. injection Hres as <-.
    assert (Hfit : ∀ j, j < 2 →
              int64 (foldr Z.add 0%Z
                       (map (λ r, nth 0 (entry2 (NdArray [1; 6; 1]
                                                   [10; 11; 12; 13; 14; 15]%Z)
                                           0 (j * 3 + r)) 0%Z) (seq 0 3)))).
    { intros j Hj. destruct j as [|[|j]]; [| |lia];
        vm_compute; (split; [discriminate|reflexivity]). }
    specialize (Hexact Hfit). split; [|vm_compute; reflexivity].
    etransitivity; [|etransitivity; [exact Hexact|vm_compute; reflexivity]].
    vm_compute. reflexivity.
Defined.

(** ** A stride of zero *)

(** The call on valid arrays, for any stride whose emitting cursors are
    not negative: the five stacks of the windows at those cursors. *)
Lemma to_supervised_on_cursors np train train_label n_input n_out n_gap
    day_increment l yf xf (s0 s1 s2 L : nat) (lrest : list nat) (cs : list Z) :
  shape train = [s0; s1; s2] →
  Forall (λ i, (- s2 ≤ i < s2)%Z) l →
  shape train_label = L :: lrest → s0 * s1 ≤ L →
  (0 ≤ n_input)%Z → (1 ≤ n_out)%Z → (0 ≤ n_gap)%Z →
  (xf = true → (n_input `mod` n_out = 0)%Z) →
  filter (emit_guard (s0 * s1) n_input n_out n_gap)
    (cursors 0 day_increment (trip_count (s0 * s1) n_out n_gap)) = cs →
  Forall (λ c, (0 ≤ c)%Z) cs →
  ∃ data dts kept,
    prepare np train (IndexList l) = Some (data, dts)
    ∧ shape data = [s0 * s1; length l] ∧ shape dts = [s0 * s1; kept]
    ∧ well_formed data ∧ well_formed dts
    ∧ to_supervised np train train_label n_input n_out n_gap day_increment
        (IndexList l) yf xf
      = Some (Results
                (stack (map (x_window data n_input) cs))
                (stack (if xf
                        then map (λ c, chunk_sums (x_window data n_input c)
                                         (Z.to_nat n_out)) cs
                        else []))
                (stack (map (ts_window dts n_input n_out n_gap) cs))
                (stack (map (y_window train_label n_input n_out n_gap) cs))
                (stack (if yf
                        then map (λ c, chunk_sums
                                         (y_window train_label n_input n_out n_gap c)
                                         (Z.to_nat n_out)) cs
                        else []))).
Proof.
  intros Hs Hl Hlab HL Hin Hout Hgap Hx Hcs Hpos.
  destruct (prepare_valid np train s0 s1 s2 l Hs Hl)
    as (data & dts & kept & Hp & Hsd & Hst & Hwd & Hwt).
  exists data, dts, kept. repeat (split; [done|]).
  rewrite (to_supervised_traverse _ _ _ _ _ _ _ _ _ _ _ _ _ _ Hp Hsd).
  rewrite Hcs.
  assert (Hin_cs : ∀ c, c ∈ cs →
            (0 ≤ c)%Z ∧ emit_guard (s0 * s1) n_input n_out n_gap c).
  { intros c Hc. split; [by apply (proj1 (Forall_forall _ _) Hpos c)|].
    rewrite <- Hcs in Hc. by apply list_elem_of_filter in Hc as [? _]. }
  assert (Hyshape : ∀ c, c ∈ cs →
            shape (y_window train_label n_input n_out n_gap c)
            = Z.to_nat (7 * n_out) :: lrest).
  { intros c Hc. destruct (Hin_cs c Hc) as [Hc0 Hg].
    rewrite (y_window_full _ _ _ _ _ _ _ _ Hlab HL) by (done || lia).
    by rewrite row_window_shape, Hlab. }
  rewrite (mapM_total _ (window_at data dts train_label n_input n_out n_gap yf xf)).
  2:{ apply Forall_forall. intros c Hc. destruct (Hin_cs c Hc) as [Hc0 Hg].
      eapply emit_at_valid; [lia|lia|lia|exact Hsd|exact Hst|exact Hlab|
                             exact Hc0|exact Hg|exact Hout| |exact Hx].
      intros Hyf. exists (Z.to_nat (7 * n_out)). split; [by apply Hyshape|].
      rewrite Z2Nat.id by lia. apply Z.mod_mul. lia. }
  cbn [mbind option_bind]. rewrite !map_map. cbn [w_X w_y w_ts w_yw w_xw window_at].
  rewrite !concat_map_flag.
  rewrite (np_array_stack np (map (λ c, x_window data n_input c) cs)
             [Z.to_nat n_input; length l]).
  2:{ apply Forall_forall. intros a (c & -> & _)%list_elem_of_fmap.
      unfold x_window. by rewrite row_window_shape, Hsd. }
  cbn [mbind option_bind].
  rewrite (np_array_stack np (if xf then _ else _) [Z.to_nat n_out; length l]).
  2:{ destruct xf; [|done]. apply Forall_forall.
      intros a (c & -> & _)%list_elem_of_fmap.
      unfold x_window. by rewrite chunk_sums_shape, row_window_shape, Hsd. }
  cbn [mbind option_bind].
  rewrite (np_array_stack np (map (λ c, ts_window dts n_input n_out n_gap c) cs)
             [Z.to_nat (7 * n_out); kept]).
  2:{ apply Forall_forall. intros a (c & -> & _)%list_elem_of_fmap.
      unfold ts_window. by rewrite row_window_shape, Hst. }
  cbn [mbind option_bind].
  rewrite (np_array_stack np (map (λ c, y_window train_label n_input n_out n_gap c) cs)
             (Z.to_nat (7 * n_out) :: lrest)).
  2:{ apply Forall_forall. intros a (c & -> & Hc)%list_elem_of_fmap.
      by apply Hyshape. }
  cbn [mbind option_bind].
  rewrite (np_array_stack np (if yf then _ else _) (Z.to_nat n_out :: lrest)).
  2:{ destruct yf; [|done]. apply Forall_forall.
      intros a (c & -> & Hc)%list_elem_of_fmap.
      by rewrite chunk_sums_shape, (Hyshape c Hc). }
  done.
Qed.

Lemma cursors_zero_stride (c : Z) (n : nat) : cursors c 0 n = replicate n c.
Proof.
  revert c. induction n as [|n IH]; intros c; [done|].
  rewrite cursors_S, IH. cbn. do 2 f_equal. lia.
Qed.

Lemma filter_replicate {A} (P : A → Prop) `{∀ x, Decision (P x)} (n : nat) (x : A) :
  P x → filter P (replicate n x) = replicate n x.
Proof.
  intros Hx. induction n as [|n IH]; [done|].
  cbn [replicate]. by rewrite filter_cons_True, IH.
Qed.

(** X12.  The stride is not validated: with [day_increment = 0] the
    cursor never moves, so on a series long enough for the window at
    cursor 0 every one of the [total_time_steps - 7 * (n_out + n_gap)]
    iterations emits that same window. *)
Theorem zero_stride_repeats_first_window np train train_label n_input n_out n_gap
    l yf xf (s0 s1 s2 L : nat) (lrest : list nat) :
  shape train = [s0; s1; s2] →
  Forall (λ i, (- s2 ≤ i < s2)%Z) l →
  shape train_label = L :: lrest → s0 * s1 ≤ L →
  (1 ≤ n_input)%Z → (1 ≤ n_out)%Z → (0 ≤ n_gap)%Z →
  (xf = true → (n_input `mod` n_out = 0)%Z) →
  (n_input + 7 * n_gap + 7 * n_out ≤ (s0 * s1)%nat)%Z →
  ∃ res,
    to_supervised np train train_label n_input n_out n_gap 0 (IndexList l) yf xf
    = Some res
    ∧ len (X res) = Some (trip_count (s0 * s1) n_out n_gap)
    ∧ len (y res) = Some (trip_count (s0 * s1) n_out n_gap)
    ∧ 1 ≤ trip_count (s0 * s1) n_out n_gap
    ∧ ∀ i r : nat,
        i < trip_count (s0 * s1) n_out n_gap → r < Z.to_nat n_input →
        entry2 (X res) i r = pick (norm_cols s2 l) (series_row train r).
Proof.
  intros Hs Hl Hlab HL Hin Hout Hgap Hx Hfit.
  set (n := trip_count (s0 * s1) n_out n_gap).
  destruct (to_supervised_on_cursors np train train_label n_input n_out n_gap 0
              l yf xf s0 s1 s2 L lrest (replicate n 0%Z))
    as (data & dts & kept & Hp & Hsd & Hst & Hwd & Hwt & Hres); try done; try lia.
  { rewrite cursors_zero_stride. apply filter_replicate.
    unfold emit_guard, out_end_of. lia. }
  { apply Forall_forall. by intros c [-> _]%elem_of_replicate. }
  rewrite (prepare_valid_eq _ _ _ _ _ _ Hs Hl) in Hp. injection Hp as Hd Ht.
  eexists. split; [exact Hres|]. cbn [X y].
  rewrite !stack_len, !length_map, !length_replicate.
  split; [done|]. split; [done|]. split; [unfold n, trip_count; lia|].
  intros i r Hi Hr. unfold x_window.
  rewrite <- (map_map Z.to_nat (λ c, row_window data c (Z.to_nat n_input))).
  rewrite (stack_windows_entry data (s0 * s1) [length l] _ _ _ _ 0); try done.
  - rewrite <- Hd. rewrite <- (length_map (λ i, Z.to_nat (i `mod` s2)) l).
    fold (norm_cols s2 l). apply picked_row; [done|]. cbn. lia.
  - apply Forall_forall. intros c (z & -> & [-> _]%elem_of_replicate)%list_elem_of_fmap.
    cbn. lia.
  - change (map ?g ?k) with (g <$> k). rewrite list_lookup_fmap.
    by rewrite lookup_replicate_2.
Qed.

Lemma zero_stride_repeats_first_window_witness :
  ∃ res,
    to_supervised numpy_strict demo_train demo_label 7 1 0 0 (IndexList [0%Z])
      false false = Some res
    ∧ len (X res) = Some 14
    ∧ entry2 (X res) 13 6 = [16%Z].
Proof.
  destruct (zero_stride_repeats_first_window numpy_strict demo_train demo_label
              7 1 0 [0%Z] false false 3 7 2 21 [])
    as (res & Hres & Hlen & _ & _ & Hrows).
  - reflexivity.
  - repeat constructor; cbn; lia.
  - reflexivity.
  - cbn; lia.
  - lia.
  - lia.
  - lia.
  - intros Hf. discriminate Hf.
  - cbn; lia.
  - exists res. split; [exact Hres|]. split; [exact Hlen|].
    rewrite Hrows by (vm_compute; lia). vm_compute. reflexivity.
Defined.

(** ** The returned arrays are new buffers *)

Module MemAlloc.

Import Mem MemFacts.

Lemma load_all_heap rs h l h' : load_all rs h = Some (l, h') → h' = h.
Proof.
  revert l h'. induction rs as [|r rs IH]; intros l h' Hl.
  - cbn in Hl. by apply ret_inv in Hl as [_ ->].
  - cbn [load_all] in Hl.
    apply bind_inv in Hl as (a0 & h1 & Hload & Hl).
    apply load_inv in Hload as [_ ->].
    apply bind_inv in Hl as (l0 & h2 & Hrest & Hl).
    apply IH in Hrest as ->. by apply ret_inv in Hl as [_ ->].
Qed.

(** [np.array] on a list of arrays returns a handle on the whole of a
    buffer that did not exist before. *)
Lemma np_array_mem_fresh np rs h r h' :
  np_array_mem np rs h = Some (r, h') →
  base r = length h ∧ offset r = 0 ∧ length h' = S (length h).
Proof.
  unfold np_array_mem. intros Hc.
  apply bind_inv in Hc as (l0 & h1 & Hload & Hc).
  apply load_all_heap in Hload as ->.
  apply bind_inv in Hc as (b & h2 & Hlift & Hc).
  apply lift_inv in Hlift as [_ ->].
  unfold alloc in Hc. injection Hc as <- <-. cbn.
  rewrite length_app. cbn. split; [done|]. split; [done|lia].
Qed.

(** The five handles a returning call hands out. *)
Lemma to_supervised_mem_handles np train train_label n_input n_out n_gap
    day_increment idx yf xf h res h' :
  to_supervised_mem np train train_label n_input n_out n_gap day_increment
    idx yf xf h = Some (res, h') →
  ∃ n, length h ≤ n ∧ length h' = n + 5
       ∧ base (rX res) = n ∧ base (rX_weekly res) = n + 1
       ∧ base (rX_timestamp res) = n + 2 ∧ base (ry res) = n + 3
       ∧ base (ry_weekly res) = n + 4
       ∧ offset (rX res) = 0 ∧ offset (rX_weekly res) = 0
       ∧ offset (rX_timestamp res) = 0 ∧ offset (ry res) = 0
       ∧ offset (ry_weekly res) = 0.
Proof.
  unfold to_supervised_mem. intros Hc.
  apply bind_inv in Hc as ([d t] & h1 & Hprep & Hc).
  apply extends_prepare_mem, prefix_length in Hprep.
  apply bind_inv in Hc as (total & h0 & Hl & Hc). apply lift_inv in Hl as [_ ->].
  apply bind_inv in Hc as (sr & h2 & Hloop & Hc).
  apply extends_loop_mem, prefix_length in Hloop.
  apply bind_inv in Hc as (aX & h3 & HaX & Hc).
  apply np_array_mem_fresh in HaX as (? & ? & ?).
  apply bind_inv in Hc as (aXw & h4 & HaXw & Hc).
  apply np_array_mem_fresh in HaXw as (? & ? & ?).
  apply bind_inv in Hc as (aXt & h5 & HaXt & Hc).
  apply np_array_mem_fresh in HaXt as (? & ? & ?).
  apply bind_inv in Hc as (ay & h6 & Hay & Hc).
  apply np_array_mem_fresh in Hay as (? & ? & ?).
  apply bind_inv in Hc as (ayw & h7 & Hayw & Hc).
  apply np_array_mem_fresh in Hayw as (? & ? & ?).
  apply ret_inv in Hc as [-> ->]. cbn.
  exists (length h2). repeat split; lia.
Qed.

(** A write through a handle leaves every array in another buffer as it
    was. *)
Lemma store_other_buffer r vals h h'' r0 :
  store r vals h = Some (tt, h'') → base r0 ≠ base r → read h'' r0 = read h r0.
Proof.
  unfold store. destruct (h !! base r) as [b|]; cbn; [|done].
  intros [= <-] Hne. unfold read. by rewrite list_lookup_insert_ne.
Qed.

Lemma read_base_lt h r a : read h r = Some a → base r < length h.
Proof.
  intros (b & Hb & _)%read_inv. by eapply lookup_lt_Some.
Qed.

End MemAlloc.

(** X13.  The five arrays a returning call hands back are copies: each is
    the whole of a buffer allocated during the call, no two of them share
    a buffer, and none shares one with [train], [train_label] or any
    other array that existed before the call.  Hence a later write into a
    returned array is possible and changes no array of the caller. *)
Theorem results_are_fresh_copies np (h h' : list (list Z))
    (train train_label : Mem.array_ref) n_input n_out n_gap day_increment
    idx yf xf (res : Mem.results_ref) :
  Mem.to_supervised_mem np train train_label n_input n_out n_gap day_increment
    idx yf xf h = Some (res, h') →
  let handles := [Mem.rX res; Mem.rX_weekly res; Mem.rX_timestamp res;
                  Mem.ry res; Mem.ry_weekly res] in
  NoDup (Mem.base <$> handles)
  ∧ Forall (λ r, length h ≤ Mem.base r < length h' ∧ Mem.offset r = 0) handles
  ∧ (∀ r0 a, Mem.read h r0 = Some a →
       Forall (λ r, Mem.base r ≠ Mem.base r0) handles)
  ∧ ∀ r vals, r ∈ handles →
      ∃ h'', Mem.store r vals h' = Some (tt, h'')
             ∧ ∀ r0 a, Mem.read h r0 = Some a → Mem.read h'' r0 = Some a.
Proof.
  intros Hres handles.
  destruct (MemAlloc.to_supervised_mem_handles _ _ _ _ _ _ _ _ _ _ _ _ _ Hres)
    as (n & Hn & Hlen & HX & HXw & HXt & Hy & Hyw & HoX & HoXw & HoXt & Hoy & Hoyw).
  pose proof (MemFacts.extends_to_supervised_mem _ _ _ _ _ _ _ _ _ _ _ _ _ Hres)
    as Hext.
  assert (Hfresh : Forall (λ r, length h ≤ Mem.base r < length h' ∧ Mem.offset r = 0)
                     handles).
  { unfold handles. repeat (constructor; [split; [lia|done]|]). constructor. }
  assert (Hother : ∀ r0 a, Mem.read h r0 = Some a →
            Forall (λ r, Mem.base r ≠ Mem.base r0) handles).
  { intros r0 a Hr0%MemAlloc.read_base_lt.
    eapply Forall_impl; [exact Hfresh|]. cbn. intros r [? _]. lia. }
  split; [|split; [done|split; [done|]]].
  - unfold handles. cbn [fmap list_fmap]. rewrite HX, HXw, HXt, Hy, Hyw.
    repeat (apply NoDup_cons; split;
            [rewrite ?elem_of_cons, elem_of_nil; lia|]).
    apply NoDup_nil_2.
  - intros r vals Hr.
    pose proof (proj1 (Forall_forall _ _) Hfresh r Hr) as [Hb _].
    destruct (lookup_lt_is_Some_2 h' (Mem.base r)) as [b Hlook]; [lia|].
    eexists. split; [unfold Mem.store; by rewrite Hlook|].
    intros r0 a Hr0.
    erewrite MemAlloc.store_other_buffer;
      [by eapply MemFacts.read_prefix| unfold Mem.store; by rewrite Hlook|].
    pose proof (proj1 (Forall_forall _ _) (Hother r0 a Hr0) r Hr) as Hne.
    cbn beta in Hne. congruence.
Qed.

Lemma results_are_fresh_copies_witness :
  ∃ res h' h'',
    Mem.to_supervised_mem numpy_strict demo_train_ref demo_label_ref 7 1 0 7
      (IndexList [0%Z]) true true demo_heap = Some (res, h')
    ∧ Mem.store (Mem.rX res) [0%Z] h' = Some (tt, h'')
    ∧ Mem.read h'' demo_train_ref = Some demo_train
    ∧ Mem.read h'' demo_label_ref = Some demo_label.
Proof.
  destruct (Mem.to_supervised_mem numpy_strict demo_train_ref demo_label_ref 7 1 0 7
              (IndexList [0%Z]) true true demo_heap) as [[res h']|] eqn:Hrun;
    [|vm_compute in Hrun; discriminate Hrun].
  destruct (results_are_fresh_copies numpy_strict demo_heap h'
              demo_train_ref demo_label_ref 7 1 0 7 (IndexList [0%Z]) true true
              res Hrun) as (_ & _ & _ & Hwrite).
  destruct (Hwrite (Mem.rX res) [0%Z]) as (h'' & Hst & Hkeep); [left|].
  exists res, h', h''. split; [reflexivity|]. split; [exact Hst|].
  split; apply Hkeep; vm_compute; reflexivity.
Defined.

(** ** Shapes of the returned arrays *)

Lemma stack_wf (wins : list ndarray) (s : list nat) :
  wins ≠ [] → Forall (λ b, shape b = s ∧ well_formed b) wins →
  shape (stack wins) = length wins :: s ∧ well_formed (stack wins).
Proof.
  intros Hne Hw.
  assert (Hs : shape (stack wins) = length wins :: s).
  { apply stack_shape_cons; [done|]. eapply Forall_impl; [exact Hw|]. by intros b [? _]. }
  split; [done|]. unfold well_formed. rewrite Hs, stack_buf.
  cbn [size_of foldr]. change (foldr Nat.mul 1 s) with (size_of s).
  rewrite (concat_length_blocks _ (size_of s)); [by rewrite length_map|].
  apply Forall_forall. intros b (a & -> & Ha)%list_elem_of_fmap.
  destruct (proj1 (Forall_forall _ _) Hw a Ha) as [Hsa Hwa].
  unfold well_formed in Hwa. by rewrite Hwa, Hsa.
Qed.

Lemma ts_windows_wf dts (total cols : nat) n_input n_out n_gap inc :
  shape dts = [total; cols] → well_formed dts →
  (1 ≤ n_input)%Z → (0 ≤ n_out)%Z → (0 ≤ n_gap)%Z → (1 ≤ inc)%Z →
  Forall (λ b, shape b = [Z.to_nat (7 * n_out); cols] ∧ well_formed b)
    (map (ts_window dts n_input n_out n_gap)
       (emitting_starts total n_input n_out n_gap inc)).
Proof.
  intros Hs Hw Hin Hout Hgap Hinc. apply Forall_forall.
  intros b (c & -> & Hc)%list_elem_of_fmap.
  destruct (cursors_in_range _ _ _ _ _ _ Hinc Hc) as [Hc0 Hg].
  unfold emit_guard, out_end_of in Hg.
  split; [by unfold ts_window; rewrite row_window_shape, Hs|].
  eapply row_window_wf; [done|exact Hs|lia].
Qed.

Lemma chunk_sums_windows_wf (wins : list ndarray) (n m : nat) (rest : list nat) :
  0 < n →
  Forall (λ b, shape b = n * m :: rest ∧ well_formed b) wins →
  Forall (λ b, shape b = n :: rest ∧ well_formed b)
    (map (λ b, chunk_sums b n) wins).
Proof.
  intros Hn Hw. apply Forall_forall. intros b (a & -> & Ha)%list_elem_of_fmap.
  destruct (proj1 (Forall_forall _ _) Hw a Ha) as [Hsa Hwa].
  split; [by rewrite chunk_sums_shape, Hsa|]. by eapply chunk_sums_wf.
Qed.

(** X14.  On valid input with at least one sample, the returned arrays
    have the shapes [(n, n_input, #numeric columns)] for [X],
    [(n, 7 * n_out, #other columns)] for [X_timestamp],
    [(n, 7 * n_out, ...)] for [y], and [(n, n_out, ...)] for the weekly
    arrays that were requested, [n] being the number of samples; and each
    holds exactly as many entries as its shape announces. *)
Theorem result_shapes np train train_label n_input n_out n_gap
    day_increment l yf xf (s0 s1 s2 L : nat) (lrest : list nat) :
  shape train = [s0; s1; s2] →
  Forall (λ i, (- s2 ≤ i < s2)%Z) l →
  shape train_label = L :: lrest → s0 * s1 ≤ L → well_formed train_label →
  (1 ≤ n_input)%Z → (1 ≤ n_out)%Z → (0 ≤ n_gap)%Z → (1 ≤ day_increment)%Z →
  (xf = true → (n_input `mod` n_out = 0)%Z) →
  1 ≤ sample_count (s0 * s1) n_input n_out n_gap day_increment →
  ∃ res,
    to_supervised np train train_label n_input n_out n_gap day_increment
      (IndexList l) yf xf = Some res
    ∧ let n := sample_count (s0 * s1) n_input n_out n_gap day_increment in
      (shape (X res) = [n; Z.to_nat n_input; length l] ∧ well_formed (X res))
      ∧ (shape (X_timestamp res)
         = [n; Z.to_nat (7 * n_out); length (kept_cols s2 l)]
         ∧ well_formed (X_timestamp res))
      ∧ (shape (y res) = n :: Z.to_nat (7 * n_out) :: lrest ∧ well_formed (y res))
      ∧ (xf = true →
         shape (X_weekly res) = [n; Z.to_nat n_out; length l]
         ∧ well_formed (X_weekly res))
      ∧ (yf = true →
         shape (y_weekly res) = n :: Z.to_nat n_out :: lrest
         ∧ well_formed (y_weekly res)).
Proof.
  intros Hs Hl Hlab HL Hwl Hin Hout Hgap Hinc Hx Hm.
  destruct (to_supervised_valid np train train_label n_input n_out n_gap
              day_increment l yf xf s0 s1 s2 L lrest)
    as (data & dts & kept & Hp & Hsd & Hst & Hwd & Hwt & Hres); try done.
  assert (Hkept : kept = length (kept_cols s2 l)).
  { rewrite (prepare_valid_eq _ _ _ _ _ _ Hs Hl) in Hp. injection Hp as _ <-.
    cbn in Hst. by injection Hst as <-. }
  subst kept.
  eexists. split; [exact Hres|]. intros n.
  unfold windows_result; cbn [X X_weekly X_timestamp y y_weekly].
  fold (emitting_starts (s0 * s1) n_input n_out n_gap day_increment).
  set (cs := emitting_starts (s0 * s1) n_input n_out n_gap day_increment).
  assert (Hlen : length cs = n) by (unfold cs, emitting_starts; apply cursors_length).
  assert (Hne : ∀ {A} (g : Z → A), map g cs ≠ []).
  { intros A g Hnil. apply (f_equal length) in Hnil.
    rewrite length_map, Hlen in Hnil. cbn in Hnil. unfold n in Hnil. lia. }
  assert (HwX := x_windows_wf data (s0 * s1) (length l) n_input n_out n_gap
                   day_increment Hsd Hwd Hin).
  assert (HwX' := HwX ltac:(lia) Hgap Hinc). clear HwX.
  assert (Hwy := y_windows_wf train_label (s0 * s1) L lrest n_input n_out n_gap
                   day_increment Hlab Hwl HL Hin).
  assert (Hwy' := Hwy ltac:(lia) Hgap Hinc). clear Hwy.
  assert (Hwt0 := ts_windows_wf dts (s0 * s1) (length (kept_cols s2 l)) n_input
                    n_out n_gap day_increment Hst Hwt Hin).
  assert (Hwt' := Hwt0 ltac:(lia) Hgap Hinc). clear Hwt0.
  fold cs in HwX', Hwy', Hwt'.
  assert (Hpos : 0 < Z.to_nat n_out) by lia.
  split; [|split; [|split; [|split]]].
  - destruct (stack_wf _ _ (Hne _ _) HwX') as [E W].
    by rewrite length_map, Hlen in E.
  - destruct (stack_wf _ _ (Hne _ _) Hwt') as [E W].
    by rewrite length_map, Hlen in E.
  - destruct (stack_wf _ _ (Hne _ _) Hwy') as [E W].
    rewrite length_map, Hlen in E.
    by replace (Z.to_nat (7 * n_out)) with (Z.to_nat n_out * 7) by lia.
  - intros ->.
    set (q := Z.to_nat (n_input / n_out)).
    assert (Hq : Z.to_nat n_input = Z.to_nat n_out * q).
    { unfold q. rewrite <- Z2Nat.inj_mul by (try apply Z.div_pos; lia).
      f_equal. specialize (Hx eq_refl). apply Z.div_exact in Hx; lia. }
    rewrite Hq in HwX'.
    apply (chunk_sums_windows_wf _ (Z.to_nat n_out) q [length l] Hpos) in HwX'.
    rewrite map_map in HwX'.
    destruct (stack_wf _ _ (Hne _ _) HwX') as [E W].
    by rewrite length_map, Hlen in E.
  - intros ->.
    apply (chunk_sums_windows_wf _ (Z.to_nat n_out) 7 lrest Hpos) in Hwy'.
    rewrite map_map in Hwy'.
    destruct (stack_wf _ _ (Hne _ _) Hwy') as [E W].
    by rewrite length_map, Hlen in E.
Qed.

Lemma result_shapes_witness :
  ∃ res,
    to_supervised numpy_strict demo_train demo_label 7 1 0 7 (IndexList [0%Z])
      true true = Some res
    ∧ shape (X res) = [2; 7; 1] ∧ shape (X_timestamp res) = [2; 7; 1]
    ∧ shape (y res) = [2; 7] ∧ shape (X_weekly res) = [2; 1; 1]
    ∧ shape (y_weekly res) = [2; 1].
Proof.
  destruct (result_shapes numpy_strict demo_train demo_label 7 1 0 7
              [0%Z] true true 3 7 2 21 [])
    as (res & Hres & [HX _] & [Ht _] & [Hy _] & HXw & Hyw).
  - reflexivity.
  - repeat constructor; cbn; lia.
  - reflexivity.
  - cbn; lia.
  - reflexivity.
  - lia.
  - lia.
  - lia.
  - lia.
  - intros _. reflexivity.
  - vm_compute. lia.
  - exists res. split; [exact Hres|].
    destruct (HXw eq_refl) as [HXw' _]. destruct (Hyw eq_refl) as [Hyw' _].
    rewrite HX, Ht, Hy, HXw', Hyw'. repeat split; vm_compute; reflexivity.
Defined.
